(** * The recording session orchestrator of synapse-notes

    A shallow embedding of [electron/recording.ts] (the host-side session
    server and orchestrator), of the two recording procedures of the tRPC
    router that call it, and of the transport encoding used by
    [public/recorder.js].

    The host code is event driven: module-level variables are read and
    written by callbacks (socket events, timers, file-system completions)
    and by [async] functions that suspend at each [await].  The embedding
    keeps that shape: a [world] holds the module variables next to the
    objects they refer to, every callback is a state transformer written in
    a small state monad, and each [await] on an I/O operation splits the
    function in two, the suspended half being stored as a [task] that a
    later completion event resumes.

    Two more modules are embedded in the same way, each in a Rocq module
    of its own: the script of the recorder page ([Recorder], from
    [public/recorder.js]) and the sign-in flow of the host ([Auth], from
    [electron/auth.ts]). *)

From Stdlib Require Import ZArith.
From Stdlib.Strings Require Import Byte.
From stdpp Require Import base option list gmap strings pretty.

Set Warnings "-register-all".
Local Open Scope Z_scope.
Local Open Scope string_scope.

(** ** JavaScript values

    The values that travel in messages, promise results and rejection
    reasons.  Numbers are the integers (the wire format carries byte values),
    an array is an array of numbers, and [VError] is an [Error] instance with
    its [message]. *)

Inductive value : Type :=
  | VUndefined
  | VNull
  | VBool (b : bool)
  | VNum (z : Z)
  | VStr (s : string)
  | VArr (l : list Z)
  | VObj (fields : list (string * value))
  | VError (message : string).

Fixpoint assoc (k : string) (fields : list (string * value)) : option value :=
  match fields with
  | [] => None
  | (k', v) :: rest => if String.eqb k k' then Some v else assoc k rest
  end.

(** [v.k] for a value that is neither [null] nor [undefined]. *)
Definition get (v : value) (k : string) : value :=
  match v with
  | VObj fields => default VUndefined (assoc k fields)
  | VError m => if String.eqb k "message" then VStr m else VUndefined
  | _ => VUndefined
  end.

(** [k in v], for [v] an object. *)
Definition has_key (k : string) (v : value) : bool :=
  match v with
  | VObj fields => bool_decide (is_Some (assoc k fields))
  | VError _ => String.eqb k "message"
  | _ => false
  end.

Definition instanceof_Object (v : value) : bool :=
  match v with
  | VArr _ | VObj _ | VError _ => true
  | _ => false
  end.

Definition truthy (v : value) : bool :=
  match v with
  | VUndefined | VNull => false
  | VBool b => b
  | VNum z => negb (Z.eqb z 0)
  | VStr s => negb (String.eqb s "")
  | VArr _ | VObj _ | VError _ => true
  end.

(** [v === "s"] *)
Definition is_str (v : value) (s : string) : bool :=
  match v with
  | VStr s' => String.eqb s' s
  | _ => false
  end.

(** ** Transport encoding of the audio clip

    recorder.js: [Array.from(new Uint8Array(arrayBuffer))]; recording.ts:
    [Buffer.from(bufferData)], which keeps the low eight bits of every
    entry. *)

Definition Array_from (bytes : list byte) : list Z :=
  map (λ b, Z.of_N (Byte.to_N b)) bytes.

Definition ToUint8 (z : Z) : byte :=
  default x00 (Byte.of_N (Z.to_N (Z.land z 255))).

Definition Buffer_from (data : list Z) : list byte :=
  map ToUint8 data.

(** recorder.js [sendMessage(type, payload)]: the envelope that is
    serialised on the wire. *)
Definition envelope (type : string) (payload : value) : value :=
  VObj [("type", VStr type); ("payload", payload)].

Definition audioBlob_message (bytes : list byte) : value :=
  envelope "audioBlob" (VObj [("data", VArr (Array_from bytes))]).

(** ** The world: module variables and the objects around them *)

(** [let server ...; let wss ...;] the module-level variables of
    recording.ts.  Object references are handles into the stores of
    [world]; the two promise callbacks are named by the promise they
    settle. *)
Record vars : Type := Vars {
  server : option nat;
  wss : option nat;
  recordingSocket : option nat;
  currentPort : option Z;
  audioFilePath : option string;
  resolveAudioPromise : option nat;
  rejectAudioPromise : option nat
}.

Definition set_server x v :=
  Vars x (wss v) (recordingSocket v) (currentPort v) (audioFilePath v)
    (resolveAudioPromise v) (rejectAudioPromise v).
Definition set_wss x v :=
  Vars (server v) x (recordingSocket v) (currentPort v) (audioFilePath v)
    (resolveAudioPromise v) (rejectAudioPromise v).
Definition set_recordingSocket x v :=
  Vars (server v) (wss v) x (currentPort v) (audioFilePath v)
    (resolveAudioPromise v) (rejectAudioPromise v).
Definition set_currentPort x v :=
  Vars (server v) (wss v) (recordingSocket v) x (audioFilePath v)
    (resolveAudioPromise v) (rejectAudioPromise v).
Definition set_audioFilePath x v :=
  Vars (server v) (wss v) (recordingSocket v) (currentPort v) x
    (resolveAudioPromise v) (rejectAudioPromise v).
Definition set_resolveAudioPromise x v :=
  Vars (server v) (wss v) (recordingSocket v) (currentPort v)
    (audioFilePath v) x (rejectAudioPromise v).
Definition set_rejectAudioPromise x v :=
  Vars (server v) (wss v) (recordingSocket v) (currentPort v)
    (audioFilePath v) (resolveAudioPromise v) x.

(** An [http.Server]: whether it is bound, and the callbacks passed to
    [close] that wait for its ['close'] event, each named by the promise of
    the [stopRecordingServer] call it resolves. *)
Record http_server : Type := HttpServer {
  listening : bool;
  close_callbacks : list nat
}.

(** A [WebSocketServer] attached to an [http.Server]. *)
Record ws_server : Type := WsServer {
  attached : nat;
  closing : bool;
  wss_close_callbacks : nat
}.

Inductive ready_state : Type := OPEN | CLOSING | CLOSED.

(** [StartCommand]: the payload of [{type: "command", payload}]. *)
Inductive command : Type := Start | Stop.

(** A server-side [WebSocket] with the commands sent on it so far. *)
Record socket : Type := Socket {
  readyState : ready_state;
  sent : list command
}.

Inductive settled : Type :=
  | Resolved (v : value)
  | Rejected (reason : value).

Inductive level : Type := Log | Warn | Error.

(** What an [async] function is waiting for at an [await].  A task of
    [startRecordingSession] is stored under the promise of that call. *)
Inductive task : Type :=
  | GetPort                          (* startRecordingServer: getPort(...) *)
  | Listen (h : nat)                 (* startRecordingServer: server.listen *)
  | OpenExternal                     (* shell.openExternal(serverUrl) *)
  | Poll (checks : Z)                (* the 500 ms interval *)
  | Mkdir (buffer : list byte)       (* saveAudioData: fs.mkdir *)
  | WriteFile (path : string) (buffer : list byte)
                                     (* saveAudioData: fs.writeFile *)
  | RouterSession (p : nat)          (* startSession: startRecordingSession() *)
  | RouterStop (s : nat) (error : value).
                                     (* startSession: stopRecordingServer() *)

(** How a call ended: the value returned or the exception thrown. *)
Inductive outcome : Type :=
  | Returned (v : value)
  | Threw (e : value).

Record world : Type := World {
  mv : vars;
  os_tmpdir : string;
  next_id : nat;
  servers : gmap nat http_server;
  wsservers : gmap nat ws_server;
  sockets : gmap nat socket;
  promises : gmap nat settled;           (* absent: pending *)
  calls : list (nat * settled);          (* every resolve/reject invocation *)
  files : gmap string (list byte);       (* completed fs.writeFile calls *)
  console : list (level * list value);
  tasks : gmap nat task;
  answers : gmap nat outcome             (* results of router procedures *)
}.

Definition set_mv x w :=
  World x (os_tmpdir w) (next_id w) (servers w) (wsservers w) (sockets w)
    (promises w) (calls w) (files w) (console w) (tasks w) (answers w).
Definition set_next_id x w :=
  World (mv w) (os_tmpdir w) x (servers w) (wsservers w) (sockets w)
    (promises w) (calls w) (files w) (console w) (tasks w) (answers w).
Definition set_servers x w :=
  World (mv w) (os_tmpdir w) (next_id w) x (wsservers w) (sockets w)
    (promises w) (calls w) (files w) (console w) (tasks w) (answers w).
Definition set_wsservers x w :=
  World (mv w) (os_tmpdir w) (next_id w) (servers w) x (sockets w)
    (promises w) (calls w) (files w) (console w) (tasks w) (answers w).
Definition set_sockets x w :=
  World (mv w) (os_tmpdir w) (next_id w) (servers w) (wsservers w) x
    (promises w) (calls w) (files w) (console w) (tasks w) (answers w).
Definition set_promises x w :=
  World (mv w) (os_tmpdir w) (next_id w) (servers w) (wsservers w) (sockets w)
    x (calls w) (files w) (console w) (tasks w) (answers w).
Definition set_calls x w :=
  World (mv w) (os_tmpdir w) (next_id w) (servers w) (wsservers w) (sockets w)
    (promises w) x (files w) (console w) (tasks w) (answers w).
Definition set_files x w :=
  World (mv w) (os_tmpdir w) (next_id w) (servers w) (wsservers w) (sockets w)
    (promises w) (calls w) x (console w) (tasks w) (answers w).
Definition set_console x w :=
  World (mv w) (os_tmpdir w) (next_id w) (servers w) (wsservers w) (sockets w)
    (promises w) (calls w) (files w) x (tasks w) (answers w).
Definition set_tasks x w :=
  World (mv w) (os_tmpdir w) (next_id w) (servers w) (wsservers w) (sockets w)
    (promises w) (calls w) (files w) (console w) x (answers w).
Definition set_answers x w :=
  World (mv w) (os_tmpdir w) (next_id w) (servers w) (wsservers w) (sockets w)
    (promises w) (calls w) (files w) (console w) (tasks w) x.

(** The module as first loaded. *)
Definition initial (tmpdir : string) : world :=
  World (Vars None None None None None None None) tmpdir 0 ∅ ∅ ∅ ∅ [] ∅ [] ∅ ∅.

(** ** A state monad over the world *)

Definition M (A : Type) : Type := world → A * world.

#[global] Instance M_ret : MRet M := λ A a w, (a, w).
#[global] Instance M_bind : MBind M :=
  λ A B f m w, let (a, w') := m w in f a w'.

Definition read {A} (f : vars → A) : M A := λ w, (f (mv w), w).
Definition look {A} (f : world → A) : M A := λ w, (f w, w).
Definition modify (f : world → world) : M unit := λ w, (tt, f w).
Definition assign (f : vars → vars) : M unit :=
  modify (λ w, set_mv (f (mv w)) w).
Definition skip : M unit := mret tt.

Fixpoint for_each {A} (l : list A) (f : A → M unit) : M unit :=
  match l with
  | [] => skip
  | a :: l => f a;; for_each l f
  end.

(** A new object: promises, tasks, sockets and servers draw their
    identities from one counter. *)
Definition new : M nat :=
  n ← look next_id; modify (set_next_id (S n));; mret n.

Definition console_ (l : level) (args : list value) : M unit :=
  modify (λ w, set_console (console w ++ [(l, args)]) w).

(** Calling the [resolve] or [reject] function of promise [p]: only the
    first call settles it. *)
Definition settle (p : nat) (s : settled) : M unit :=
  modify (λ w, set_calls (calls w ++ [(p, s)]) w);;
  ps ← look promises;
  match ps !! p with
  | None => modify (set_promises (<[p := s]> ps))
  | Some _ => skip
  end.

Definition suspend (t : nat) (k : task) : M unit :=
  modify (λ w, set_tasks (<[t := k]> (tasks w)) w).
Definition finish (t : nat) : M unit :=
  modify (λ w, set_tasks (delete t (tasks w)) w).

(** [ws.send(JSON.stringify(command))]: sent when the socket is open,
    dropped when it is closing or closed. *)
Definition send (ws : nat) (c : command) : M unit :=
  modify (λ w,
    match sockets w !! ws with
    | Some (Socket OPEN out) =>
        set_sockets (<[ws := Socket OPEN (out ++ [c])]> (sockets w)) w
    | _ => w
    end).

(** [ws.close()]: starts the closing handshake; the socket's ['close']
    event comes later. *)
Definition close (ws : nat) : M unit :=
  modify (λ w,
    match sockets w !! ws with
    | Some (Socket OPEN out) =>
        set_sockets (<[ws := Socket CLOSING out]> (sockets w)) w
    | _ => w
    end).

(** ** recording.ts *)

(** A frame received on a socket: the [message] argument of the handler.
    [JSON_parse] is the result of [JSON.parse(message.toString())], [None]
    when it throws. *)
Record frame : Type := Frame {
  raw : list byte;
  is_Buffer : bool;
  JSON_parse : option value
}.

(** [path.join(a, b)] on normalised POSIX segments. *)
Definition path_join (a b : string) : string := a ++ "/" ++ b.

Definition show_port (port : option Z) : string :=
  match port with
  | Some n => pretty n
  | None => "null"
  end.

Definition serverUrl (port : option Z) : string :=
  "http://localhost:" ++ show_port port.

(** [!currentPort] *)
Definition no_port (port : option Z) : bool :=
  match port with
  | Some n => Z.eqb n 0
  | None => true
  end.

(** [if (rejectAudioPromise) rejectAudioPromise(reason)] *)
Definition reject_if_set (reason : value) : M unit :=
  rj ← read rejectAudioPromise;
  match rj with
  | Some p => settle p (Rejected reason)
  | None => skip
  end.

(** *** The connection handler of the WebSocket server *)

(** [wss.on("connection", (ws) => ...)], up to the registration of the
    socket's own handlers. *)
Definition on_connection (ws : nat) : M unit :=
  console_ Log [VStr "Recorder page connected via WebSocket"];;
  previous ← read recordingSocket;
  match previous with
  | Some old =>
      console_ Warn
        [VStr "New WebSocket connection received, closing previous one."];;
      close old
  | None => skip
  end;;
  assign (set_recordingSocket (Some ws)).

(** *** saveAudioData

    The function suspends twice, at [fs.mkdir] and at [fs.writeFile]. *)

Definition saveAudioData (buffer : list byte) : M unit :=
  t ← new;
  suspend t (Mkdir buffer).

Definition saveAudioData_catch (error : value) : M unit :=
  console_ Error [VStr "Error saving audio file:"; error];;
  assign (set_audioFilePath None);;
  reject_if_set error.

Definition saveAudioData_finally : M unit :=
  assign (set_resolveAudioPromise None);;
  assign (set_rejectAudioPromise None).

Definition path_value (path : option string) : value :=
  match path with
  | Some s => VStr s
  | None => VNull
  end.

(** [path.join(tempDir, `recording-${Date.now()}.wav`)] with
    [tempDir = path.join(os.tmpdir(), "daily-sync-recordings")]. *)
Definition recording_path (tmpdir : string) (now : Z) : string :=
  let tempDir := path_join tmpdir "daily-sync-recordings" in
  path_join tempDir ("recording-" ++ pretty now ++ ".wav").

(** After [await fs.mkdir(tempDir, { recursive: true })]; [now] is the
    value of [Date.now()]. *)
Definition saveAudioData_after_mkdir
    (t : nat) (buffer : list byte) (err : option string) (now : Z) : M unit :=
  match err with
  | None =>
      tmp ← look os_tmpdir;
      let path := recording_path tmp now in
      assign (set_audioFilePath (Some path));;
      console_ Log [VStr ("Saving audio to: " ++ path)];;
      suspend t (WriteFile path buffer)
  | Some e =>
      finish t;;
      saveAudioData_catch (VError e);;
      saveAudioData_finally
  end.

(** After [await fs.writeFile(audioFilePath, buffer)], where [path] is the
    value [audioFilePath] had when the write was issued. *)
Definition saveAudioData_after_writeFile
    (t : nat) (path : string) (buffer : list byte) (err : option string)
    : M unit :=
  finish t;;
  match err with
  | None =>
      modify (λ w, set_files (<[path := buffer]> (files w)) w);;
      console_ Log [VStr "Audio file saved successfully."];;
      resolve ← read resolveAudioPromise;
      match resolve with
      | Some p =>
          current ← read audioFilePath;
          settle p (Resolved (path_value current))
      | None =>
          console_ Warn [VStr "Audio saved but no promise resolver was waiting."]
      end
  | Some e => saveAudioData_catch (VError e)
  end;;
  saveAudioData_finally.

(** *** The handlers of a socket *)

(** The [catch] block of the message handler. *)
Definition on_message_catch (message : frame) (error : value) : M unit :=
  console_ Error
    [VStr "Failed to process WebSocket message or save audio:"; error];;
  if is_Buffer message then
    console_ Log [VStr "Received raw audio buffer."];;
    saveAudioData (raw message)
  else
    console_ Error
      [VStr "Received non-buffer message that failed JSON parsing:"];;
    reject_if_set (VStr "Invalid message format received").

(** [ws.on("message", async (message) => ...)].  Reading [.type] of [null]
    throws inside the [try] block like a failed [JSON.parse] does. *)
Definition on_message (message : frame) : M unit :=
  match JSON_parse message with
  | None => on_message_catch message (VError "SyntaxError")
  | Some VNull | Some VUndefined =>
      on_message_catch message (VError "TypeError")
  | Some parsedMessage =>
      let type := get parsedMessage "type" in
      let payload := get parsedMessage "payload" in
      console_ Log [VStr "Received message from recorder:"; type];;
      if is_str type "status" then
        console_ Log [VStr "Recorder status:"; payload]
      else if is_str type "audioBlob" && instanceof_Object payload
              && has_key "data" payload then
        console_ Log [VStr "Received audio blob message"];;
        match get payload "data" with
        | VArr bufferData => saveAudioData (Buffer_from bufferData)
        | bufferData =>
            console_ Error
              [VStr "Received audio data is not in expected Array format:";
               bufferData];;
            reject_if_set (VStr "Invalid audio data format received")
        end
      else if is_str type "error" then
        console_ Error [VStr "Error reported from recorder page:"; payload];;
        reject_if_set payload
      else skip
  end.

(** [ws === recordingSocket] *)
Definition is_recordingSocket (ws : nat) : M bool :=
  current ← read recordingSocket;
  mret (bool_decide (current = Some ws)).

(** [ws.on("close", () => ...)] *)
Definition on_close (ws : nat) : M unit :=
  console_ Log [VStr "Recorder page WebSocket disconnected"];;
  same ← is_recordingSocket ws;
  if same : bool then assign (set_recordingSocket None) else skip.

(** [ws.on("error", (error) => ...)] *)
Definition on_error (ws : nat) (error : value) : M unit :=
  console_ Error [VStr "Recorder page WebSocket error:"; error];;
  same ← is_recordingSocket ws;
  (if same : bool then assign (set_recordingSocket None) else skip);;
  reject_if_set error.

(** *** startRecordingServer and startRecordingSession

    [startRecordingSession] is the only caller of [startRecordingServer]
    here, so the pieces of both functions are chained: [p] is the promise
    returned by the [startRecordingSession] call, and also names its
    suspended task. *)

(** [server?.listening] *)
Definition server_listening : M bool :=
  s ← read server;
  objects ← look servers;
  mret (default false (h ← s; o ← objects !! h; Some (listening o))).

(** After [await startRecordingServer()]: the page is opened. *)
Definition startRecordingSession_after_server (p : nat) : M unit :=
  port ← read currentPort;
  console_ Log [VStr ("Opening recorder URL: " ++ serverUrl port)];;
  suspend p OpenExternal.

(** [startRecordingServer()] up to [await getPort(...)]. *)
Definition startRecordingServer (p : nat) : M unit :=
  up ← server_listening;
  if up : bool then
    port ← read currentPort;
    console_ Log [VStr ("Server already running on port " ++ show_port port)];;
    if no_port port then
      settle p (Rejected (VError "Server running but port unknown"))
    else startRecordingSession_after_server p
  else suspend p GetPort.

(** From [currentPort = await getPort(...)] to [server.listen(...)]. *)
Definition startRecordingServer_after_getPort (p : nat) (port : Z) : M unit :=
  assign (set_currentPort (Some port));;
  h ← new;
  modify (λ w, set_servers (<[h := HttpServer false []]> (servers w)) w);;
  assign (set_server (Some h));;
  hw ← new;
  modify (λ w, set_wsservers (<[hw := WsServer h false 0]> (wsservers w)) w);;
  assign (set_wss (Some hw));;
  suspend p (Listen h).

(** The callback of [listen], or the server's ["error"] event. *)
Definition startRecordingServer_after_listen
    (p h : nat) (err : option string) : M unit :=
  match err with
  | None =>
      modify (λ w,
        set_servers
          (alter (λ o, HttpServer true (close_callbacks o)) h (servers w)) w);;
      port ← read currentPort;
      console_ Log [VStr ("Recording server started on " ++ serverUrl port)];;
      startRecordingSession_after_server p
  | Some e =>
      console_ Error [VStr "Failed to start server:"; VError e];;
      finish p;;
      settle p (Rejected (VError e))
  end.

(** After [await shell.openExternal(serverUrl)]: the interval starts with
    [checks = 0]. *)
Definition startRecordingSession_after_open
    (p : nat) (err : option string) : M unit :=
  match err with
  | None => suspend p (Poll 0)
  | Some e => finish p;; settle p (Rejected (VError e))
  end.

(** [new Error("Timeout waiting for recorder WebSocket connection")] *)
Definition timeout_error : value :=
  VError "Timeout waiting for recorder WebSocket connection".

(** One run of the interval callback, and, when it resolves the wait, the
    rest of [startRecordingSession]. *)
Definition startRecordingSession_tick (p : nat) (checks : Z) : M unit :=
  connected ← read recordingSocket;
  match connected with
  | Some ws =>
      finish p;;
      console_ Log [VStr "Sending start command to recorder page"];;
      send ws Start;;
      assign (set_resolveAudioPromise (Some p));;
      assign (set_rejectAudioPromise (Some p))
  | None =>
      if Z.ltb 20 checks then
        finish p;;
        settle p (Rejected timeout_error)
      else suspend p (Poll (checks + 1))
  end.

Definition startRecordingSession : M nat :=
  p ← new;
  startRecordingServer p;;
  mret p.

(** *** stopRecordingSession and stopRecordingServer *)

Definition stopRecordingSession : M outcome :=
  connected ← read recordingSocket;
  match connected with
  | None =>
      console_ Warn
        [VStr "Stop command sent but no active WebSocket connection."];;
      reject_if_set (VStr "No active connection to stop.");;
      mret (Returned VUndefined)
  | Some ws =>
      console_ Log [VStr "Sending stop command to recorder page"];;
      send ws Stop;;
      mret (Returned VUndefined)
  end.

(** [wss.close(cb)] *)
Definition wss_close (hw : nat) : M unit :=
  modify (λ w,
    set_wsservers
      (alter (λ o, WsServer (attached o) true (S (wss_close_callbacks o)))
         hw (wsservers w)) w).

(** [server.close(cb)], [cb] resolving promise [s]: the listener is
    released at once, [cb] runs on the ['close'] event. *)
Definition server_close (h s : nat) : M unit :=
  modify (λ w,
    set_servers
      (alter (λ o, HttpServer false (close_callbacks o ++ [s])) h (servers w))
      w).

Definition stopRecordingServer : M nat :=
  s ← new;
  channel ← read wss;
  match channel with
  | Some hw =>
      console_ Log [VStr "Closing WebSocket server..."];;
      wss_close hw
  | None => skip
  end;;
  listener ← read server;
  match listener with
  | Some h =>
      console_ Log [VStr "Stopping HTTP server..."];;
      server_close h s
  | None => settle s (Resolved VUndefined)
  end;;
  mret s.

(** The callback given to [wss.close]. *)
Definition wss_closed : M unit :=
  console_ Log [VStr "WebSocket server closed."];;
  assign (set_wss None);;
  assign (set_recordingSocket None).

(** The callback given to [server.close]. *)
Definition server_closed (s : nat) : M unit :=
  console_ Log [VStr "HTTP server stopped."];;
  assign (set_server None);;
  assign (set_currentPort None);;
  settle s (Resolved VUndefined).

(** ** The recording procedures of the router (electron/auth.ts) *)

Definition answer (r : nat) (o : outcome) : M unit :=
  modify (λ w, set_answers (<[r := o]> (answers w)) w).

(** [{ success: false, error: error.message || fallback }]; reading
    [.message] of [null] or [undefined] throws. *)
Definition failure (error : value) (fallback : string) : outcome :=
  match error with
  | VUndefined | VNull => Threw (VError "TypeError")
  | _ =>
      let message := get error "message" in
      Returned
        (VObj [("success", VBool false);
               ("error", if truthy message then message else VStr fallback)])
  end.

Definition startSession : M nat :=
  r ← new;
  console_ Log [VStr "tRPC: Received startSession request"];;
  p ← startRecordingSession;
  suspend r (RouterSession p);;
  mret r.

(** The continuations of [startSession] after its two [await]s. *)
Definition startSession_resume (r : nat) (k : task) : M unit :=
  settled ← look promises;
  match k with
  | RouterSession p =>
      match settled !! p with
      | Some (Resolved audioFilePath) =>
          finish r;;
          console_ Log
            [VStr "tRPC: startRecordingSession resolved with path:";
             audioFilePath];;
          answer r
            (Returned
               (VObj [("success", VBool true); ("filePath", audioFilePath)]))
      | Some (Rejected error) =>
          console_ Error [VStr "tRPC: Error in startSession:"; error];;
          s ← stopRecordingServer;
          suspend r (RouterStop s error)
      | None => skip
      end
  | RouterStop s error =>
      match settled !! s with
      | Some (Resolved _) =>
          finish r;;
          answer r (failure error "Failed to start recording session")
      | Some (Rejected e) => finish r;; answer r (Threw e)
      | None => skip
      end
  | _ => skip
  end.

Definition stopSession : M nat :=
  r ← new;
  console_ Log [VStr "tRPC: Received stopSession request"];;
  completion ← stopRecordingSession;
  match completion with
  | Returned _ =>
      console_ Log [VStr "tRPC: stopRecordingSession called"];;
      answer r (Returned (VObj [("success", VBool true)]))
  | Threw error =>
      console_ Error [VStr "tRPC: Error in stopSession:"; error];;
      answer r (failure error "Failed to stop recording session")
  end;;
  mret r.

(** ** Events

    What the event loop delivers: calls made by the application,
    completions of the I/O operations that tasks wait for, and the events
    of servers and sockets.  An event whose receiver is not in a state to
    receive it (no such task, a closed socket) changes nothing. *)

Inductive event : Type :=
  | CallStartRecordingSession
  | CallStopRecordingSession
  | CallStopRecordingServer
  | CallStartSession
  | CallStopSession
  | GetPortDone (t : nat) (port : Z)
  | ListenDone (t : nat) (err : option string)
  | OpenExternalDone (t : nat) (err : option string)
  | IntervalTick (t : nat)
  | MkdirDone (t : nat) (err : option string) (now : Z)
  | WriteFileDone (t : nat) (err : option string)
  | Resume (r : nat)
  | WssClose (hw : nat)
  | ServerClose (h : nat)
  | Connection (hw : nat)
  | Message (ws : nat) (message : frame)
  | SocketClose (ws : nat)
  | SocketError (ws : nat) (err : string).

(** The channel [hw] accepts connections while it is not closing and its
    listener is bound. *)
Definition accepting (hw : nat) (w : world) : bool :=
  default false
    (o ← wsservers w !! hw;
     s ← servers w !! attached o;
     Some (negb (closing o) && listening s)).

(** The socket [ws] exists and has not emitted ['close']. *)
Definition live (ws : nat) (w : world) : bool :=
  match sockets w !! ws with
  | Some (Socket OPEN _) | Some (Socket CLOSING _) => true
  | _ => false
  end.

Definition set_readyState (ws : nat) (st : ready_state) : M unit :=
  modify (λ w,
    set_sockets (alter (λ s, Socket st (sent s)) ws (sockets w)) w).

Definition handle (e : event) : M unit :=
  match e with
  | CallStartRecordingSession => startRecordingSession;; skip
  | CallStopRecordingSession => stopRecordingSession;; skip
  | CallStopRecordingServer => stopRecordingServer;; skip
  | CallStartSession => startSession;; skip
  | CallStopSession => stopSession;; skip
  | GetPortDone t port =>
      k ← look (λ w, tasks w !! t);
      match k with
      | Some GetPort => startRecordingServer_after_getPort t port
      | _ => skip
      end
  | ListenDone t err =>
      k ← look (λ w, tasks w !! t);
      match k with
      | Some (Listen h) => startRecordingServer_after_listen t h err
      | _ => skip
      end
  | OpenExternalDone t err =>
      k ← look (λ w, tasks w !! t);
      match k with
      | Some OpenExternal => startRecordingSession_after_open t err
      | _ => skip
      end
  | IntervalTick t =>
      k ← look (λ w, tasks w !! t);
      match k with
      | Some (Poll checks) => startRecordingSession_tick t checks
      | _ => skip
      end
  | MkdirDone t err now =>
      k ← look (λ w, tasks w !! t);
      match k with
      | Some (Mkdir buffer) => saveAudioData_after_mkdir t buffer err now
      | _ => skip
      end
  | WriteFileDone t err =>
      k ← look (λ w, tasks w !! t);
      match k with
      | Some (WriteFile path buffer) =>
          saveAudioData_after_writeFile t path buffer err
      | _ => skip
      end
  | Resume r =>
      k ← look (λ w, tasks w !! r);
      match k with
      | Some k => startSession_resume r k
      | None => skip
      end
  | WssClose hw =>
      o ← look (λ w, wsservers w !! hw);
      match o with
      | Some o =>
          modify (λ w,
            set_wsservers
              (<[hw := WsServer (attached o) (closing o) 0]> (wsservers w)) w);;
          for_each (replicate (wss_close_callbacks o) tt) (λ _, wss_closed)
      | None => skip
      end
  | ServerClose h =>
      o ← look (λ w, servers w !! h);
      match o with
      | Some (HttpServer false waiting) =>
          modify (λ w,
            set_servers (<[h := HttpServer false []]> (servers w)) w);;
          for_each waiting server_closed
      | _ => skip
      end
  | Connection hw =>
      ok ← look (accepting hw);
      if ok : bool then
        ws ← new;
        modify (λ w, set_sockets (<[ws := Socket OPEN []]> (sockets w)) w);;
        on_connection ws
      else skip
  | Message ws message =>
      ok ← look (live ws);
      if ok : bool then on_message message else skip
  | SocketClose ws =>
      ok ← look (live ws);
      if ok : bool then set_readyState ws CLOSED;; on_close ws else skip
  | SocketError ws err =>
      ok ← look (live ws);
      if ok : bool then on_error ws (VError err) else skip
  end.

Definition step (e : event) (w : world) : world := (handle e w).2.

Definition run (trace : list event) (w : world) : world :=
  foldl (λ w e, step e w) w trace.

(** * The recorder page (public/recorder.js)

    The script of the page that captures the audio.  Like the host module
    it is a set of variables that event handlers read and write; the
    browser objects the variables refer to (the socket, the recorder, the
    streams, the audio graph) live in stores, and the three [await]s of the
    script leave a suspended half that a completion event resumes.  The
    constructors of the Web Audio and MediaRecorder objects are taken to
    succeed. *)

Module Recorder.

Inductive ready_state : Type := CONNECTING | OPEN | CLOSING | CLOSED.

(** A DOM element, as far as the script writes to it. *)
Record element : Type := Element {
  textContent : string;
  className : string
}.

(** The browser's [WebSocket] with the messages passed to [send], each
    before [JSON.stringify]. *)
Record web_socket : Type := WebSocket {
  url : string;
  readyState : ready_state;
  sent : list value
}.

Inductive recorder_state : Type := inactive | recording | paused.

Record media_recorder : Type := MediaRecorder {
  state : recorder_state;
  mimeType : string
}.

(** A [MediaStream]: the length of [getAudioTracks()], and whether its
    tracks have been stopped. *)
Record media_stream : Type := MediaStream {
  audio_tracks : nat;
  stopped : bool
}.

(** What the script is waiting for at an [await]. *)
Inductive await : Type :=
  | GetUserMedia                     (* navigator.mediaDevices.getUserMedia *)
  | GetDisplayMedia                  (* navigator.mediaDevices.getDisplayMedia *)
  | ArrayBuffer (blob : list byte).  (* audioBlob.arrayBuffer() *)

(** [let ws = null; let mediaRecorder = null; ...] *)
Record variables : Type := Variables {
  ws : option nat;
  mediaRecorder : option nat;
  audioChunks : list (list byte);
  micStream : option nat;
  screenStream : option nat;
  audioContext : option nat;
  mixedStreamDestination : option nat;
  micSource : option nat;
  screenSource : option nat
}.

Definition set_ws x v :=
  Variables x (mediaRecorder v) (audioChunks v) (micStream v) (screenStream v)
    (audioContext v) (mixedStreamDestination v) (micSource v) (screenSource v).
Definition set_mediaRecorder x v :=
  Variables (ws v) x (audioChunks v) (micStream v) (screenStream v)
    (audioContext v) (mixedStreamDestination v) (micSource v) (screenSource v).
Definition set_audioChunks x v :=
  Variables (ws v) (mediaRecorder v) x (micStream v) (screenStream v)
    (audioContext v) (mixedStreamDestination v) (micSource v) (screenSource v).
Definition set_micStream x v :=
  Variables (ws v) (mediaRecorder v) (audioChunks v) x (screenStream v)
    (audioContext v) (mixedStreamDestination v) (micSource v) (screenSource v).
Definition set_screenStream x v :=
  Variables (ws v) (mediaRecorder v) (audioChunks v) (micStream v) x
    (audioContext v) (mixedStreamDestination v) (micSource v) (screenSource v).
Definition set_audioContext x v :=
  Variables (ws v) (mediaRecorder v) (audioChunks v) (micStream v)
    (screenStream v) x (mixedStreamDestination v) (micSource v)
    (screenSource v).
Definition set_mixedStreamDestination x v :=
  Variables (ws v) (mediaRecorder v) (audioChunks v) (micStream v)
    (screenStream v) (audioContext v) x (micSource v) (screenSource v).
Definition set_micSource x v :=
  Variables (ws v) (mediaRecorder v) (audioChunks v) (micStream v)
    (screenStream v) (audioContext v) (mixedStreamDestination v) x
    (screenSource v).
Definition set_screenSource x v :=
  Variables (ws v) (mediaRecorder v) (audioChunks v) (micStream v)
    (screenStream v) (audioContext v) (mixedStreamDestination v) (micSource v)
    x.

(** The page: the variables, the two elements looked up when the script
    loads, what the script reads of its environment, and the browser
    objects. *)
Record page : Type := Page {
  js : variables;
  statusEl : option element;
  errorEl : option element;
  location_protocol : string;            (* window.location.protocol *)
  location_host : string;                (* window.location.host *)
  isTypeSupported : bool;                (* of "audio/webm;codecs=opus" *)
  default_mimeType : string;             (* the browser's choice for "" *)
  next : nat;
  web_sockets : gmap nat web_socket;
  recorders : gmap nat media_recorder;
  streams : gmap nat media_stream;
  contexts : gmap nat bool;              (* AudioContext: close() called *)
  nodes : gmap nat bool;                 (* source node: connected *)
  awaits : gmap nat await;
  console : list (level * list value);
  uncaught : list string                 (* errors no handler catches *)
}.

Definition set_js x p :=
  Page x (statusEl p) (errorEl p) (location_protocol p) (location_host p)
    (isTypeSupported p) (default_mimeType p) (next p) (web_sockets p)
    (recorders p) (streams p) (contexts p) (nodes p) (awaits p) (console p)
    (uncaught p).
Definition set_statusEl x p :=
  Page (js p) x (errorEl p) (location_protocol p) (location_host p)
    (isTypeSupported p) (default_mimeType p) (next p) (web_sockets p)
    (recorders p) (streams p) (contexts p) (nodes p) (awaits p) (console p)
    (uncaught p).
Definition set_errorEl x p :=
  Page (js p) (statusEl p) x (location_protocol p) (location_host p)
    (isTypeSupported p) (default_mimeType p) (next p) (web_sockets p)
    (recorders p) (streams p) (contexts p) (nodes p) (awaits p) (console p)
    (uncaught p).
Definition set_next x p :=
  Page (js p) (statusEl p) (errorEl p) (location_protocol p) (location_host p)
    (isTypeSupported p) (default_mimeType p) x (web_sockets p) (recorders p)
    (streams p) (contexts p) (nodes p) (awaits p) (console p) (uncaught p).
Definition set_web_sockets x p :=
  Page (js p) (statusEl p) (errorEl p) (location_protocol p) (location_host p)
    (isTypeSupported p) (default_mimeType p) (next p) x (recorders p)
    (streams p) (contexts p) (nodes p) (awaits p) (console p) (uncaught p).
Definition set_recorders x p :=
  Page (js p) (statusEl p) (errorEl p) (location_protocol p) (location_host p)
    (isTypeSupported p) (default_mimeType p) (next p) (web_sockets p) x
    (streams p) (contexts p) (nodes p) (awaits p) (console p) (uncaught p).
Definition set_streams x p :=
  Page (js p) (statusEl p) (errorEl p) (location_protocol p) (location_host p)
    (isTypeSupported p) (default_mimeType p) (next p) (web_sockets p)
    (recorders p) x (contexts p) (nodes p) (awaits p) (console p) (uncaught p).
Definition set_contexts x p :=
  Page (js p) (statusEl p) (errorEl p) (location_protocol p) (location_host p)
    (isTypeSupported p) (default_mimeType p) (next p) (web_sockets p)
    (recorders p) (streams p) x (nodes p) (awaits p) (console p) (uncaught p).
Definition set_nodes x p :=
  Page (js p) (statusEl p) (errorEl p) (location_protocol p) (location_host p)
    (isTypeSupported p) (default_mimeType p) (next p) (web_sockets p)
    (recorders p) (streams p) (contexts p) x (awaits p) (console p)
    (uncaught p).
Definition set_awaits x p :=
  Page (js p) (statusEl p) (errorEl p) (location_protocol p) (location_host p)
    (isTypeSupported p) (default_mimeType p) (next p) (web_sockets p)
    (recorders p) (streams p) (contexts p) (nodes p) x (console p)
    (uncaught p).
Definition set_console x p :=
  Page (js p) (statusEl p) (errorEl p) (location_protocol p) (location_host p)
    (isTypeSupported p) (default_mimeType p) (next p) (web_sockets p)
    (recorders p) (streams p) (contexts p) (nodes p) (awaits p) x (uncaught p).
Definition set_uncaught x p :=
  Page (js p) (statusEl p) (errorEl p) (location_protocol p) (location_host p)
    (isTypeSupported p) (default_mimeType p) (next p) (web_sockets p)
    (recorders p) (streams p) (contexts p) (nodes p) (awaits p) (console p) x.

(** The page before its script runs. *)
Definition loaded (statusEl errorEl : option element)
    (protocol host : string) (supported : bool) (mime : string) : page :=
  Page (Variables None None [] None None None None None None)
    statusEl errorEl protocol host supported mime 0 ∅ ∅ ∅ ∅ ∅ ∅ [] [].

(** ** A state monad over the page *)

Definition P (A : Type) : Type := page → A * page.

#[export] Instance P_ret : MRet P := λ A a p, (a, p).
#[export] Instance P_bind : MBind P :=
  λ A B f m p, let (a, p') := m p in f a p'.

Definition read {A} (f : variables → A) : P A := λ p, (f (js p), p).
Definition look {A} (f : page → A) : P A := λ p, (f p, p).
Definition modify (f : page → page) : P unit := λ p, (tt, f p).
Definition assign (f : variables → variables) : P unit :=
  modify (λ p, set_js (f (js p)) p).
Definition skip : P unit := mret tt.

Definition new : P nat :=
  n ← look next; modify (set_next (S n));; mret n.

Definition console_ (l : level) (args : list value) : P unit :=
  modify (λ p, set_console (console p ++ [(l, args)]) p).

Definition suspend (t : nat) (k : await) : P unit :=
  modify (λ p, set_awaits (<[t := k]> (awaits p)) p).
Definition finish (t : nat) : P unit :=
  modify (λ p, set_awaits (delete t (awaits p)) p).

(** An error thrown where nothing catches it. *)
Definition throw (name : string) : P unit :=
  modify (λ p, set_uncaught (uncaught p ++ [name]) p).

(** ** recorder.js *)

Definition updateStatus (text type : string) : P unit :=
  console_ Log [VStr "Status:"; VStr text];;
  modify (λ p,
    set_statusEl
      (match statusEl p with
       | Some _ => Some (Element ("Status: " ++ text) ("status " ++ type))
       | None => None
       end) p).

(** [ws && ws.readyState === WebSocket.OPEN] *)
Definition ws_open : P bool :=
  s ← read ws;
  objects ← look web_sockets;
  mret (match s ≫= (objects !!.) with
        | Some (WebSocket _ OPEN _) => true
        | _ => false
        end).

(** [ws.send(message)] on the socket [s]. *)
Definition ws_send (s : nat) (message : value) : P unit :=
  modify (λ p,
    set_web_sockets
      (alter (λ o, WebSocket (url o) (readyState o) (sent o ++ [message])) s
         (web_sockets p)) p).

Definition sendMessage (type : string) (payload : value) : P unit :=
  open ← ws_open;
  if open : bool then
    s ← read ws;
    match s with
    | Some s => ws_send s (envelope type payload)
    | None => skip
    end
  else
    console_ Warn [VStr "WebSocket not open, cannot send message:"; VStr type].

Definition displayError (message : string) : P unit :=
  console_ Error [VStr "Error:"; VStr message];;
  modify (λ p,
    set_errorEl
      (match errorEl p with
       | Some e => Some (Element ("Error: " ++ message) (className e))
       | None => None
       end) p);;
  open ← ws_open;
  if open : bool then sendMessage "error" (VStr message) else skip.

Definition connectWebSocket : P unit :=
  location ← look location_protocol;
  host ← look location_host;
  let protocol := if String.eqb location "https:" then "wss:" else "ws:" in
  let wsUrl := protocol ++ "//" ++ host in
  console_ Log [VStr ("Attempting to connect WebSocket to: " ++ wsUrl)];;
  updateStatus "Connecting to host app..." "processing";;
  s ← new;
  modify (λ p,
    set_web_sockets (<[s := WebSocket wsUrl CONNECTING []]> (web_sockets p)) p);;
  assign (set_ws (Some s)).

(** *** cleanupStreams *)

(** The state of the recorder that [mediaRecorder] refers to. *)
Definition recorder_state_now : P (option recorder_state) :=
  r ← read mediaRecorder;
  objects ← look recorders;
  mret (id ← r; state <$> objects !! id).

(** [mediaRecorder.stop()]: the recorder is inactive at once; its last
    [dataavailable] event and its [stop] event come later. *)
Definition recorder_stop : P unit :=
  r ← read mediaRecorder;
  match r with
  | Some id =>
      modify (λ p,
        set_recorders
          (alter (λ o, MediaRecorder inactive (mimeType o)) id (recorders p)) p)
  | None => skip
  end.

(** [stream?.getTracks().forEach((track) => track.stop())] *)
Definition stop_tracks (stream : option nat) : P unit :=
  match stream with
  | Some id =>
      modify (λ p,
        set_streams
          (alter (λ o, MediaStream (audio_tracks o) true) id (streams p)) p)
  | None => skip
  end.

(** [source?.disconnect()] *)
Definition disconnect (source : option nat) : P unit :=
  match source with
  | Some id => modify (λ p, set_nodes (<[id := false]> (nodes p)) p)
  | None => skip
  end.

(** The first block of [cleanupStreams]: the recorder. *)
Definition cleanup_recorder : P unit :=
  console_ Log [VStr "Cleaning up media streams and audio context..."];;
  st ← recorder_state_now;
  match st with
  | Some recording | Some paused => recorder_stop
  | _ => skip
  end;;
  assign (set_mediaRecorder None).

(** "Stop all tracks on the original streams" *)
Definition cleanup_tracks : P unit :=
  mic ← read micStream;
  stop_tracks mic;;
  screen ← read screenStream;
  stop_tracks screen;;
  console_ Log [VStr "Media tracks stopped."];;
  assign (set_micStream None);;
  assign (set_screenStream None).

(** "Disconnect sources and close AudioContext" *)
Definition cleanup_sources : P unit :=
  source ← read micSource;
  disconnect source;;
  source ← read screenSource;
  disconnect source;;
  assign (set_micSource None);;
  assign (set_screenSource None).

Definition cleanup_context : P unit :=
  context ← read audioContext;
  closed ← look contexts;
  match context with
  | Some c =>
      if default false (closed !! c) then skip
      else modify (λ p, set_contexts (<[c := true]> (contexts p)) p)
  | None => skip
  end;;
  assign (set_audioContext None);;
  assign (set_mixedStreamDestination None).

Definition cleanupStreams : P unit :=
  cleanup_recorder;;
  cleanup_tracks;;
  cleanup_sources;;
  cleanup_context;;
  assign (set_audioChunks []).

(** *** startRecording *)

(** The [catch] block of [startRecording]. *)
Definition startRecording_catch (message : string) : P unit :=
  displayError ("Failed to start recording: " ++ message);;
  updateStatus "Failed to start recording" "error";;
  cleanupStreams.

(** Up to [await getUserMedia(...)].  Writing to [errorEl] when the page
    has no such element throws outside the [try] block. *)
Definition startRecording : P unit :=
  st ← recorder_state_now;
  match st with
  | Some recording => console_ Warn [VStr "Already recording."]
  | _ =>
      updateStatus "Requesting permissions..." "processing";;
      e ← look errorEl;
      match e with
      | None => throw "TypeError"
      | Some e =>
          modify (set_errorEl (Some (Element "" (className e))));;
          assign (set_audioChunks []);;
          t ← new;
          suspend t GetUserMedia
      end
  end.

(** The result of a capture request: the error message, or the number of
    audio tracks of the stream obtained. *)
Definition capture : Type := string + nat.

(** A new stream of the browser. *)
Definition new_stream (tracks : nat) : P nat :=
  s ← new;
  modify (λ p, set_streams (<[s := MediaStream tracks false]> (streams p)) p);;
  mret s.

(** From [micStream = await getUserMedia(...)] to
    [await getDisplayMedia(...)]. *)
Definition startRecording_after_getUserMedia (t : nat) (result : capture)
    : P unit :=
  match result with
  | inr tracks =>
      s ← new_stream tracks;
      assign (set_micStream (Some s));;
      updateStatus "Microphone access granted." "processing";;
      suspend t GetDisplayMedia
  | inl message =>
      finish t;;
      startRecording_catch message
  end.

(** [stream && stream.getAudioTracks().length > 0] *)
Definition has_audio (stream : option nat) : P bool :=
  objects ← look streams;
  mret (match stream ≫= (objects !!.) with
        | Some o => Nat.ltb 0 (audio_tracks o)
        | None => false
        end).

(** [audioContext.createMediaStreamSource(stream)] and
    [.connect(mixedStreamDestination)] *)
Definition connected_source : P nat :=
  n ← new;
  modify (λ p, set_nodes (<[n := true]> (nodes p)) p);;
  mret n.

(** From [screenStream = await getDisplayMedia(...)] to the end of the
    function. *)
Definition startRecording_after_getDisplayMedia (t : nat) (result : capture)
    : P unit :=
  finish t;;
  match result with
  | inl message => startRecording_catch message
  | inr tracks =>
      s ← new_stream tracks;
      assign (set_screenStream (Some s));;
      updateStatus "Screen access granted." "processing";;
      c ← new;
      modify (λ p, set_contexts (<[c := false]> (contexts p)) p);;
      assign (set_audioContext (Some c));;
      d ← new;
      assign (set_mixedStreamDestination (Some d));;
      mic ← read micStream;
      hasMicAudio ← has_audio mic;
      (if hasMicAudio : bool then
         n ← connected_source;
         assign (set_micSource (Some n));;
         console_ Log [VStr "Microphone stream connected to mixer."]
       else console_ Warn [VStr "Mic stream has no audio tracks."]);;
      screen ← read screenStream;
      hasScreenAudio ← has_audio screen;
      (if hasScreenAudio : bool then
         n ← connected_source;
         assign (set_screenSource (Some n));;
         console_ Log [VStr "Screen audio stream connected to mixer."]
       else
         console_ Warn
           [VStr "Screen stream has no audio tracks. Only mic audio will be recorded."];;
         sendMessage "status"
           (VStr "Screen audio not detected or selected. Recording mic only."));;
      if negb hasMicAudio && negb hasScreenAudio then
        startRecording_catch
          "No audio tracks available from mic or screen to record."
      else
        supported ← look isTypeSupported;
        (if supported : bool then skip
         else
           console_ Warn
             [VStr ("audio/webm;codecs=opus" ++ " not supported, trying default.")]);;
        chosen ← look default_mimeType;
        r ← new;
        modify (λ p,
          set_recorders
            (<[r := MediaRecorder recording
                      (if supported : bool then "audio/webm;codecs=opus"
                       else chosen)]> (recorders p)) p);;
        assign (set_mediaRecorder (Some r));;
        console_ Log [VStr "MediaRecorder started."];;
        updateStatus "Recording..." "recording";;
        sendMessage "status" (VStr "Recording started.")
  end.

(** *** The handlers of the recorder *)

(** [mediaRecorder.ondataavailable] *)
Definition ondataavailable (chunk : list byte) : P unit :=
  if Nat.ltb 0 (length chunk) then
    assign (λ v, set_audioChunks (audioChunks v ++ [chunk]) v);;
    console_ Log
      [VStr ("Received audio chunk size: " ++ pretty (length chunk))]
  else skip.

(** [mediaRecorder.onstop], up to [await audioBlob.arrayBuffer()].  Reading
    [mediaRecorder.mimeType] throws when the variable is null. *)
Definition onstop : P unit :=
  console_ Log [VStr "MediaRecorder stopped."];;
  updateStatus "Processing audio..." "processing";;
  chunks ← read audioChunks;
  r ← read mediaRecorder;
  objects ← look recorders;
  match r ≫= (objects !!.) with
  | None => throw "TypeError"
  | Some o =>
      let blob := concat chunks in
      let type := if String.eqb (mimeType o) "" then "audio/webm"
                  else mimeType o in
      console_ Log
        [VStr ("Final audio blob size: " ++ pretty (length blob)
               ++ ", type: " ++ type)];;
      assign (set_audioChunks []);;
      t ← new;
      suspend t (ArrayBuffer blob)
  end.

(** After [await audioBlob.arrayBuffer()]. *)
Definition onstop_after_arrayBuffer (t : nat) (blob : list byte)
    (err : option string) : P unit :=
  finish t;;
  match err with
  | None =>
      console_ Log
        [VStr ("Converted to ArrayBuffer size: " ++ pretty (length blob))];;
      sendMessage "audioBlob" (VObj [("data", VArr (Array_from blob))]);;
      updateStatus "Audio sent to host app." "processing"
  | Some message =>
      displayError ("Error processing or sending audio blob: " ++ message);;
      updateStatus "Error processing audio" "error"
  end;;
  cleanupStreams;;
  updateStatus "Recording stopped. Ready for new command." "idle".

(** [mediaRecorder.onerror]: [event.error.message || event.error.name] *)
Definition onerror (message name : string) : P unit :=
  displayError
    ("MediaRecorder error: "
     ++ (if String.eqb message "" then name else message));;
  updateStatus "Recording error" "error";;
  cleanupStreams.

Definition stopRecording : P unit :=
  st ← recorder_state_now;
  match st with
  | Some recording | Some paused =>
      console_ Log [VStr "Stopping MediaRecorder..."];;
      updateStatus "Stopping recording..." "processing";;
      recorder_stop;;
      sendMessage "status" (VStr "Recording stopping.")
  | _ =>
      console_ Warn [VStr "Not recording or already stopped."];;
      sendMessage "status"
        (VStr "Received stop command but was not recording.");;
      updateStatus "Waiting for command..." "idle"
  end.

(** *** The handlers of the socket *)

Definition ws_onopen : P unit :=
  console_ Log [VStr "WebSocket connection established."];;
  updateStatus "Connected, waiting for command..." "idle";;
  sendMessage "status" (VStr "Recorder page connected and ready.").

(** [ws.onmessage]: [parsed] is the result of [JSON.parse(event.data)],
    [None] when it throws, and [thrown] the message of the error that the
    [try] block throws, if it does. *)
Definition ws_onmessage (parsed : option value) (thrown : string) : P unit :=
  match parsed with
  | None => displayError ("Failed to parse command: " ++ thrown)
  | Some message =>
      console_ Log [VStr "Received command:"; message];;
      match message with
      | VNull | VUndefined =>
          displayError ("Failed to parse command: " ++ thrown)
      | _ =>
          if is_str (get message "type") "command" then
            if is_str (get message "payload") "start" then startRecording
            else if is_str (get message "payload") "stop" then stopRecording
            else skip
          else skip
      end
  end.

(** [ws.onerror]: [error.message || "Unknown error"] *)
Definition ws_onerror (message : string) : P unit :=
  displayError
    ("WebSocket error: "
     ++ (if String.eqb message "" then "Unknown error" else message));;
  updateStatus "WebSocket connection error" "error".

Definition ws_onclose : P unit :=
  console_ Log [VStr "WebSocket connection closed."];;
  updateStatus "Disconnected from host app" "error";;
  assign (set_ws None).

(** The [beforeunload] listener. *)
Definition beforeunload : P unit :=
  sendMessage "status" (VStr "Recorder page closing.");;
  cleanupStreams;;
  s ← read ws;
  match s with
  | Some s =>
      modify (λ p,
        set_web_sockets
          (alter (λ o,
                    match readyState o with
                    | CLOSED => o
                    | _ => WebSocket (url o) CLOSING (sent o)
                    end) s (web_sockets p)) p)
  | None => skip
  end.

(** ** Events of the page *)

Inductive event : Type :=
  | PageLoad                                 (* the script runs *)
  | WsOpen (s : nat)
  | WsMessage (s : nat) (parsed : option value) (thrown : string)
  | WsError (s : nat) (message : string)
  | WsClose (s : nat)
  | GetUserMediaDone (t : nat) (result : capture)
  | GetDisplayMediaDone (t : nat) (result : capture)
  | DataAvailable (r : nat) (chunk : list byte)
  | RecorderStop (r : nat)
  | RecorderError (r : nat) (message name : string)
  | ArrayBufferDone (t : nat) (err : option string)
  | AudioContextClosed (c : nat)
  | BeforeUnload.

Definition set_readyState (s : nat) (st : ready_state) : P unit :=
  modify (λ p,
    set_web_sockets
      (alter (λ o, WebSocket (url o) st (sent o)) s (web_sockets p)) p).

(** An event is delivered to an object that exists and is in a state to
    emit it; otherwise nothing happens. *)
Definition handle (e : event) : P unit :=
  match e with
  | PageLoad => connectWebSocket
  | WsOpen s =>
      o ← look (λ p, web_sockets p !! s);
      match o with
      | Some (WebSocket _ CONNECTING _) => set_readyState s OPEN;; ws_onopen
      | _ => skip
      end
  | WsMessage s parsed thrown =>
      o ← look (λ p, web_sockets p !! s);
      match o with
      | Some (WebSocket _ OPEN _) | Some (WebSocket _ CLOSING _) =>
          ws_onmessage parsed thrown
      | _ => skip
      end
  | WsError s message =>
      o ← look (λ p, web_sockets p !! s);
      match o with
      | Some (WebSocket _ CLOSED _) | None => skip
      | Some _ => ws_onerror message
      end
  | WsClose s =>
      o ← look (λ p, web_sockets p !! s);
      match o with
      | Some (WebSocket _ CLOSED _) | None => skip
      | Some _ => set_readyState s CLOSED;; ws_onclose
      end
  | GetUserMediaDone t result =>
      k ← look (λ p, awaits p !! t);
      match k with
      | Some GetUserMedia => startRecording_after_getUserMedia t result
      | _ => skip
      end
  | GetDisplayMediaDone t result =>
      k ← look (λ p, awaits p !! t);
      match k with
      | Some GetDisplayMedia => startRecording_after_getDisplayMedia t result
      | _ => skip
      end
  | DataAvailable r chunk =>
      o ← look (λ p, recorders p !! r);
      match o with
      | Some _ => ondataavailable chunk
      | None => skip
      end
  | RecorderStop r =>
      o ← look (λ p, recorders p !! r);
      match o with
      | Some (MediaRecorder inactive _) => onstop
      | _ => skip
      end
  | RecorderError r message name =>
      o ← look (λ p, recorders p !! r);
      match o with
      | Some _ => onerror message name
      | None => skip
      end
  | ArrayBufferDone t err =>
      k ← look (λ p, awaits p !! t);
      match k with
      | Some (ArrayBuffer blob) => onstop_after_arrayBuffer t blob err
      | _ => skip
      end
  | AudioContextClosed c =>
      closed ← look (λ p, contexts p !! c);
      match closed with
      | Some true => console_ Log [VStr "AudioContext closed."]
      | _ => skip
      end
  | BeforeUnload => beforeunload
  end.

Definition step (e : event) (p : page) : page := (handle e p).2.

Definition run (trace : list event) (p : page) : page :=
  foldl (λ p e, step e p) p trace.

End Recorder.

(** * The sign-in flow (electron/auth.ts)

    The OAuth flow of the host: [getGoogleAuthUrl] prepares a verifier and
    a state value, [handleGoogleCallback] starts a temporary HTTP server
    that waits for the redirect, exchanges the code it receives for tokens
    and keeps the refresh token.  The module is modelled like
    recording.ts.  What the libraries compute (random bytes, the consent
    URL, the token exchange) is supplied by the events; the redirect URI is
    taken to be a valid URL. *)

Module Auth.

(** [new TRPCError({ code, message })] *)
Inductive trpc_error : Type := TRPCError (code message : string).

Inductive outcome : Type :=
  | Returned (v : value)
  | Threw (e : trpc_error).

(** The promise of [listenForAuthCode]: resolved with the code, or
    rejected with an [Error] of the given message. *)
Inductive settled : Type :=
  | Resolved (code : string)
  | Rejected (message : string).

(** [!!s] for [s : string | null | undefined] *)
Definition truthy (s : option string) : bool :=
  match s with
  | Some (String _ _) => true
  | _ => false
  end.

(** [s] as a console argument. *)
Definition shown (s : option string) : value :=
  match s with
  | Some s => VStr s
  | None => VNull
  end.

(** *** PKCE helpers *)

(** [s.replace(/c/g, by_)] for a pattern of one character [c]. *)
Fixpoint replace_all (c by_ : string) (s : string) : string :=
  match s with
  | "" => ""
  | String a rest =>
      if String.eqb (String a "") c then by_ ++ replace_all c by_ rest
      else String a (replace_all c by_ rest)
  end.

(** [base64URLEncode(str)], from [str.toString("base64")] on. *)
Definition base64URLEncode (base64 : string) : string :=
  replace_all "=" "" (replace_all "/" "_" (replace_all "+" "-" base64)).

(** [let tempVerifier ...; let storedRefreshToken ...;] *)
Record variables : Type := Variables {
  tempVerifier : option string;
  tempAuthState : option string;
  resolveAuthPromise : option nat;
  rejectAuthPromise : option nat;
  callbackServer : option nat;
  storedRefreshToken : option string
}.

Definition set_tempVerifier x v :=
  Variables x (tempAuthState v) (resolveAuthPromise v) (rejectAuthPromise v)
    (callbackServer v) (storedRefreshToken v).
Definition set_tempAuthState x v :=
  Variables (tempVerifier v) x (resolveAuthPromise v) (rejectAuthPromise v)
    (callbackServer v) (storedRefreshToken v).
Definition set_resolveAuthPromise x v :=
  Variables (tempVerifier v) (tempAuthState v) x (rejectAuthPromise v)
    (callbackServer v) (storedRefreshToken v).
Definition set_rejectAuthPromise x v :=
  Variables (tempVerifier v) (tempAuthState v) (resolveAuthPromise v) x
    (callbackServer v) (storedRefreshToken v).
Definition set_callbackServer x v :=
  Variables (tempVerifier v) (tempAuthState v) (resolveAuthPromise v)
    (rejectAuthPromise v) x (storedRefreshToken v).
Definition set_storedRefreshToken x v :=
  Variables (tempVerifier v) (tempAuthState v) (resolveAuthPromise v)
    (rejectAuthPromise v) (callbackServer v) x.

(** The temporary [http.Server]: whether [listen] is still under way,
    whether the server is bound, how many callbacks passed to [close] wait
    for its ['close'] event, and whether the three-minute timer started
    with it is still armed. *)
Record callback_server : Type := CallbackServer {
  binding : bool;
  listening : bool;
  close_callbacks : nat;
  timer : bool
}.

(** What an [async] function is waiting for. *)
Inductive task : Type :=
  | AwaitCode (p : nat) (currentVerifier : string)
                                     (* await listenForAuthCode(...) *)
  | AwaitTokens (currentVerifier code : string)
                                     (* await oauth2Client.getToken(...) *)
  | AwaitAccessToken (refreshToken : string).
                                     (* await client.getAccessToken() *)

Record world : Type := World {
  mv : variables;
  GOOGLE_CLIENT_ID : option string;      (* process.env, read at load *)
  GOOGLE_CLIENT_SECRET : option string;
  GOOGLE_REDIRECT_URI : option string;
  next_id : nat;
  servers : gmap nat callback_server;
  responses : list (Z * string);         (* writeHead status, end body *)
  promises : gmap nat settled;           (* absent: pending *)
  credentials : option string;           (* refresh_token of oauth2Client *)
  console : list (level * list value);
  tasks : gmap nat task;
  answers : gmap nat outcome;            (* results of the calls *)
  uncaught : list string                 (* exceptions no handler caught *)
}.

Definition set_mv x w :=
  World x (GOOGLE_CLIENT_ID w) (GOOGLE_CLIENT_SECRET w)
    (GOOGLE_REDIRECT_URI w) (next_id w) (servers w) (responses w) (promises w)
    (credentials w) (console w) (tasks w) (answers w) (uncaught w).
Definition set_next_id x w :=
  World (mv w) (GOOGLE_CLIENT_ID w) (GOOGLE_CLIENT_SECRET w)
    (GOOGLE_REDIRECT_URI w) x (servers w) (responses w) (promises w)
    (credentials w) (console w) (tasks w) (answers w) (uncaught w).
Definition set_servers x w :=
  World (mv w) (GOOGLE_CLIENT_ID w) (GOOGLE_CLIENT_SECRET w)
    (GOOGLE_REDIRECT_URI w) (next_id w) x (responses w) (promises w)
    (credentials w) (console w) (tasks w) (answers w) (uncaught w).
Definition set_responses x w :=
  World (mv w) (GOOGLE_CLIENT_ID w) (GOOGLE_CLIENT_SECRET w)
    (GOOGLE_REDIRECT_URI w) (next_id w) (servers w) x (promises w)
    (credentials w) (console w) (tasks w) (answers w) (uncaught w).
Definition set_promises x w :=
  World (mv w) (GOOGLE_CLIENT_ID w) (GOOGLE_CLIENT_SECRET w)
    (GOOGLE_REDIRECT_URI w) (next_id w) (servers w) (responses w) x
    (credentials w) (console w) (tasks w) (answers w) (uncaught w).
Definition set_credentials x w :=
  World (mv w) (GOOGLE_CLIENT_ID w) (GOOGLE_CLIENT_SECRET w)
    (GOOGLE_REDIRECT_URI w) (next_id w) (servers w) (responses w) (promises w)
    x (console w) (tasks w) (answers w) (uncaught w).
Definition set_console x w :=
  World (mv w) (GOOGLE_CLIENT_ID w) (GOOGLE_CLIENT_SECRET w)
    (GOOGLE_REDIRECT_URI w) (next_id w) (servers w) (responses w) (promises w)
    (credentials w) x (tasks w) (answers w) (uncaught w).
Definition set_tasks x w :=
  World (mv w) (GOOGLE_CLIENT_ID w) (GOOGLE_CLIENT_SECRET w)
    (GOOGLE_REDIRECT_URI w) (next_id w) (servers w) (responses w) (promises w)
    (credentials w) (console w) x (answers w) (uncaught w).
Definition set_answers x w :=
  World (mv w) (GOOGLE_CLIENT_ID w) (GOOGLE_CLIENT_SECRET w)
    (GOOGLE_REDIRECT_URI w) (next_id w) (servers w) (responses w) (promises w)
    (credentials w) (console w) (tasks w) x (uncaught w).
Definition set_uncaught x w :=
  World (mv w) (GOOGLE_CLIENT_ID w) (GOOGLE_CLIENT_SECRET w)
    (GOOGLE_REDIRECT_URI w) (next_id w) (servers w) (responses w) (promises w)
    (credentials w) (console w) (tasks w) (answers w) x.

(** The module as first loaded. *)
Definition initial (id secret uri : option string) : world :=
  World (Variables None None None None None None) id secret uri
    0 ∅ [] ∅ None [] ∅ ∅ [].

Definition M (A : Type) : Type := world → A * world.

#[export] Instance M_ret : MRet M := λ A a w, (a, w).
#[export] Instance M_bind : MBind M :=
  λ A B f m w, let (a, w') := m w in f a w'.

Definition read {A} (f : variables → A) : M A := λ w, (f (mv w), w).
Definition look {A} (f : world → A) : M A := λ w, (f w, w).
Definition modify (f : world → world) : M unit := λ w, (tt, f w).
Definition assign (f : variables → variables) : M unit :=
  modify (λ w, set_mv (f (mv w)) w).
Definition skip : M unit := mret tt.

Fixpoint repeat_ (n : nat) (m : M unit) : M unit :=
  match n with
  | O => skip
  | S n => m;; repeat_ n m
  end.

Definition new : M nat :=
  n ← look next_id; modify (set_next_id (S n));; mret n.

Definition console_ (l : level) (args : list value) : M unit :=
  modify (λ w, set_console (console w ++ [(l, args)]) w).

(** Calling [resolve] or [reject] of promise [p]: only the first call
    settles it. *)
Definition settle (p : nat) (s : settled) : M unit :=
  modify (λ w,
    set_promises
      (match promises w !! p with
       | None => <[p := s]> (promises w)
       | Some _ => promises w
       end) w).

Definition suspend (t : nat) (k : task) : M unit :=
  modify (λ w, set_tasks (<[t := k]> (tasks w)) w).
Definition finish (t : nat) : M unit :=
  modify (λ w, set_tasks (delete t (tasks w)) w).
Definition answer (r : nat) (o : outcome) : M unit :=
  modify (λ w, set_answers (<[r := o]> (answers w)) w).

(** [res.writeHead(status, ...); res.end(body)] *)
Definition respond (status : Z) (body : string) : M unit :=
  modify (λ w, set_responses (responses w ++ [(status, body)]) w).

(** An exception that leaves an event handler; what the process does
    with it is not part of the module. *)
Definition throw (name : string) : M unit :=
  modify (λ w, set_uncaught (uncaught w ++ [name]) w).

(** *** The token store *)

Definition storeRefreshToken (token : option string) : M unit :=
  console_ Log
    [VStr "Storing refresh token (in memory):";
     if truthy token then VStr "********" else VNull];;
  assign (set_storedRefreshToken token).

Definition getStoredRefreshToken : M (option string) :=
  console_ Log [VStr "Retrieving refresh token (from memory)"];;
  read storedRefreshToken.

(** *** getGoogleAuthUrl

    [random] is [crypto.randomBytes(32).toString("base64")], [state] the
    hexadecimal form of [crypto.randomBytes(16)], and [authUrl] the result
    of [oauth2Client.generateAuthUrl(...)]. *)
Definition getGoogleAuthUrl (random state authUrl : string) : M outcome :=
  id ← look GOOGLE_CLIENT_ID;
  secret ← look GOOGLE_CLIENT_SECRET;
  uri ← look GOOGLE_REDIRECT_URI;
  if negb (truthy id) || negb (truthy secret) || negb (truthy uri) then
    mret (Threw (TRPCError "INTERNAL_SERVER_ERROR"
                   "Google OAuth credentials not configured."))
  else
    running ← read callbackServer;
    match running with
    | Some _ =>
        mret (Threw (TRPCError "CONFLICT"
                       "Authentication process already in progress."))
    | None =>
        assign (set_tempVerifier (Some (base64URLEncode random)));;
        assign (set_tempAuthState (Some state));;
        mret (Returned (VStr authUrl))
    end.

(** *** The callback server *)

(** [callbackServer.close(cb)]: the listener is released at once, [cb]
    runs on the ['close'] event. *)
Definition server_close (h : nat) : M unit :=
  modify (λ w,
    set_servers
      (alter
         (λ o, CallbackServer false false (S (close_callbacks o)) (timer o)) h
         (servers w)) w).

Definition closeCallbackServer : M unit :=
  running ← read callbackServer;
  match running with
  | Some h => server_close h
  | None =>
      assign (set_resolveAuthPromise None);;
      assign (set_rejectAuthPromise None)
  end.

(** The callback given to [close]. *)
Definition server_closed : M unit :=
  console_ Log [VStr "OAuth callback server closed."];;
  assign (set_callbackServer None);;
  assign (set_resolveAuthPromise None);;
  assign (set_rejectAuthPromise None).

(** [rejectAuthPromise?.(new Error(message))] *)
Definition reject_if_set (message : string) : M unit :=
  rj ← read rejectAuthPromise;
  match rj with
  | Some p => settle p (Rejected message)
  | None => skip
  end.

(** [resolveAuthPromise?.(code)] *)
Definition resolve_if_set (code : string) : M unit :=
  rs ← read resolveAuthPromise;
  match rs with
  | Some p => settle p (Resolved code)
  | None => skip
  end.

Definition clear_flow : M unit :=
  assign (set_tempVerifier None);;
  assign (set_tempAuthState None).

(** The request handler of the callback server, for a request whose
    target and [Host] header make a URL; [code], [state] and [error] are
    the query parameters of that URL. *)
Definition on_request (code state error : option string) : M unit :=
  expectedState ← read tempAuthState;
  clear_flow;;
  if truthy error then
    console_ Error [VStr "OAuth Error received:"; shown error];;
    respond 400
      ("Authentication failed: " ++ default "" error
       ++ ". You can close this window.");;
    reject_if_set ("OAuth Error: " ++ default "" error);;
    closeCallbackServer
  else if negb (bool_decide (state = expectedState)) then
    console_ Error
      [VStr "OAuth State mismatch. Expected:"; shown expectedState;
       VStr "Received:"; shown state];;
    respond 400
      "Authentication failed: Invalid state parameter. Security check failed. You can close this window.";;
    reject_if_set "OAuth state mismatch";;
    closeCallbackServer
  else if truthy code then
    respond 200
      "<html><body><h1>Authentication successful!</h1><p>You can close this window now.</p><script>window.close();</script></body></html>";;
    resolve_if_set (default "" code);;
    closeCallbackServer
  else
    respond 400
      "Authentication failed: No authorization code received. You can close this window.";;
    reject_if_set "No authorization code received.";;
    closeCallbackServer.

(** The request handler for a request whose target and [Host] header make
    no URL (the target [//], say): [new url.URL(req.url ?? "", ...)], the
    first statement of the handler, throws a [TypeError], and nothing else
    of the handler runs. *)
Definition on_malformed_request : M unit := throw "TypeError".

(** [callbackServer.on("error", ...)] *)
Definition on_server_error (err : string) : M unit :=
  console_ Error [VStr "Callback server error:"; VError err];;
  reject_if_set err;;
  closeCallbackServer;;
  clear_flow.

(** The callback of the three-minute timer. *)
Definition on_timeout : M unit :=
  running ← read callbackServer;
  match running with
  | Some _ =>
      console_ Error [VStr "OAuth callback timed out."];;
      reject_if_set "OAuth callback timed out.";;
      closeCallbackServer;;
      clear_flow
  | None => skip
  end.

Definition listenForAuthCode : M nat :=
  p ← new;
  running ← read callbackServer;
  match running with
  | Some _ => settle p (Rejected "Callback server already running.")
  | None =>
      assign (set_resolveAuthPromise (Some p));;
      assign (set_rejectAuthPromise (Some p));;
      h ← new;
      modify (λ w,
        set_servers (<[h := CallbackServer true false 0 true]> (servers w)) w);;
      assign (set_callbackServer (Some h))
  end;;
  mret p.

(** *** handleGoogleCallback *)

(** Up to [await listenForAuthCode(GOOGLE_REDIRECT_URI)]; [r] names the
    call. *)
Definition handleGoogleCallback : M nat :=
  r ← new;
  uri ← look GOOGLE_REDIRECT_URI;
  (if negb (truthy uri) then
     answer r
       (Threw (TRPCError "INTERNAL_SERVER_ERROR" "Redirect URI not configured."))
   else
     currentVerifier ← read tempVerifier;
     if negb (truthy currentVerifier) then
       answer r
         (Threw (TRPCError "BAD_REQUEST"
                   "Authentication flow not initiated correctly or verifier missing."))
     else
       p ← listenForAuthCode;
       suspend r (AwaitCode p (default "" currentVerifier)));;
  mret r.

(** The [catch] and [finally] blocks. *)
Definition handleGoogleCallback_catch (r : nat) (message : string) : M unit :=
  console_ Error [VStr "Error handling Google callback:"; VError message];;
  closeCallbackServer;;
  clear_flow;;
  storeRefreshToken None;;
  finish r;;
  answer r
    (Threw (TRPCError "INTERNAL_SERVER_ERROR"
              ("Failed to exchange authorization code: " ++ message)));;
  clear_flow.

(** After [await listenForAuthCode(...)]. *)
Definition handleGoogleCallback_after_code (r p : nat) (verifier : string)
    : M unit :=
  result ← look (λ w, promises w !! p);
  match result with
  | Some (Resolved code) => suspend r (AwaitTokens verifier code)
  | Some (Rejected message) => handleGoogleCallback_catch r message
  | None => skip
  end.

Definition reply (success : bool) (message : string) : outcome :=
  Returned (VObj [("success", VBool success); ("message", VStr message)]).

(** After [await oauth2Client.getToken(...)]: the error message, or the
    [refresh_token] of the tokens received. *)
Definition handleGoogleCallback_after_tokens (r : nat)
    (result : string + option string) : M unit :=
  match result with
  | inl message => handleGoogleCallback_catch r message
  | inr refresh_token =>
      console_ Log
        [VStr "Tokens received:";
         VObj [("refresh_token",
                if truthy refresh_token then VStr "******" else VUndefined)]];;
      finish r;;
      (if truthy refresh_token then
         storeRefreshToken refresh_token;;
         modify (set_credentials refresh_token);;
         answer r
           (reply true "Authentication successful, refresh token stored.")
       else
         existingToken ← getStoredRefreshToken;
         if truthy existingToken then
           modify (set_credentials existingToken);;
           console_ Log
             [VStr "Authentication successful, using existing refresh token."];;
           answer r
             (reply true
                "Authentication successful (used existing refresh token).")
         else
           console_ Warn
             [VStr "Authentication successful, but NO refresh token received and none stored. User might need to re-grant offline access."];;
           modify (set_credentials refresh_token);;
           answer r
             (reply false
                "Authentication successful, but no offline access (refresh token) granted. Some features might require re-authentication later."));;
      clear_flow
  end.

(** *** getAuthenticatedClient *)

Definition getAuthenticatedClient : M nat :=
  r ← new;
  refreshToken ← getStoredRefreshToken;
  (if negb (truthy refreshToken) then
     answer r
       (Threw (TRPCError "UNAUTHORIZED" "User not authenticated. Please sign in."))
   else suspend r (AwaitAccessToken (default "" refreshToken)));;
  mret r.

(** After [await client.getAccessToken()]: the error message, or
    [tokenInfo.token]. *)
Definition getAuthenticatedClient_after_token (r : nat) (refreshToken : string)
    (result : string + option string) : M unit :=
  finish r;;
  match result with
  | inr (Some (String a token)) =>
      console_ Log
        [VStr "Successfully obtained access token using refresh token."];;
      answer r
        (Returned (VObj [("credentials",
                          VObj [("refresh_token", VStr refreshToken)])]))
  | _ =>
      console_ Error
        [VStr "Error refreshing access token:";
         VStr (match result with
               | inl message => message
               | inr _ => "Failed to refresh access token."
               end)];;
      storeRefreshToken None;;
      answer r
        (Threw (TRPCError "UNAUTHORIZED"
                  "Authentication expired or revoked. Please sign in again."))
  end.

(** *** authRouter *)

Definition getAuthStatus : M outcome :=
  token ← getStoredRefreshToken;
  mret (Returned (VObj [("isAuthenticated", VBool (truthy token))])).

Definition logout : M outcome :=
  storeRefreshToken None;;
  modify (set_credentials None);;
  console_ Log [VStr "User logged out, refresh token cleared."];;
  mret (Returned (VObj [("success", VBool true)])).

(** A procedure that completes within the call. *)
Definition procedure (body : M outcome) : M unit :=
  r ← new;
  o ← body;
  answer r o.

(** ** Events of the flow

    A server emits ['listening'] or ['error'] while its [listen] call is
    under way, receives requests while it is bound, and emits ['close']
    once for each round of [close] calls; the ['close'] event also clears
    the timer. *)

Inductive event : Type :=
  | CallGetAuthUrl (random state authUrl : string)
  | CallHandleCallback
  | CallGetAuthStatus
  | CallLogout
  | CallGetAuthenticatedClient
  | Listening (h : nat)
  | ServerError (h : nat) (err : string)
  | Request (h : nat) (code state error : option string)
  | MalformedRequest (h : nat)
  | Timeout (h : nat)
  | ServerClose (h : nat)
  | Resume (r : nat)
  | TokensDone (r : nat) (result : string + option string)
  | AccessTokenDone (r : nat) (result : string + option string).

Definition handle (e : event) : M unit :=
  match e with
  | CallGetAuthUrl random state authUrl =>
      procedure (getGoogleAuthUrl random state authUrl)
  | CallHandleCallback => handleGoogleCallback;; skip
  | CallGetAuthStatus => procedure getAuthStatus
  | CallLogout => procedure logout
  | CallGetAuthenticatedClient => getAuthenticatedClient;; skip
  | Listening h =>
      o ← look (λ w, servers w !! h);
      uri ← look GOOGLE_REDIRECT_URI;
      match o with
      | Some (CallbackServer true _ c t) =>
          modify (λ w,
            set_servers (<[h := CallbackServer false true c t]> (servers w)) w);;
          console_ Log
            [VStr ("OAuth callback server listening on " ++ default "" uri)]
      | _ => skip
      end
  | ServerError h err =>
      o ← look (λ w, servers w !! h);
      match o with
      | Some (CallbackServer true _ c t) =>
          modify (λ w,
            set_servers (<[h := CallbackServer false false c t]> (servers w)) w);;
          on_server_error err
      | _ => skip
      end
  | Request h code state error =>
      o ← look (λ w, servers w !! h);
      match o with
      | Some (CallbackServer _ true _ _) => on_request code state error
      | _ => skip
      end
  | MalformedRequest h =>
      o ← look (λ w, servers w !! h);
      match o with
      | Some (CallbackServer _ true _ _) => on_malformed_request
      | _ => skip
      end
  | Timeout h =>
      o ← look (λ w, servers w !! h);
      match o with
      | Some (CallbackServer b l c true) =>
          modify (λ w,
            set_servers (<[h := CallbackServer b l c false]> (servers w)) w);;
          on_timeout
      | _ => skip
      end
  | ServerClose h =>
      o ← look (λ w, servers w !! h);
      match o with
      | Some (CallbackServer _ _ (S c) _) =>
          modify (λ w,
            set_servers
              (<[h := CallbackServer false false 0 false]> (servers w)) w);;
          repeat_ (S c) server_closed
      | _ => skip
      end
  | Resume r =>
      k ← look (λ w, tasks w !! r);
      match k with
      | Some (AwaitCode p verifier) =>
          handleGoogleCallback_after_code r p verifier
      | _ => skip
      end
  | TokensDone r result =>
      k ← look (λ w, tasks w !! r);
      match k with
      | Some (AwaitTokens _ _) => handleGoogleCallback_after_tokens r result
      | _ => skip
      end
  | AccessTokenDone r result =>
      k ← look (λ w, tasks w !! r);
      match k with
      | Some (AwaitAccessToken refreshToken) =>
          getAuthenticatedClient_after_token r refreshToken result
      | _ => skip
      end
  end.

Definition step (e : event) (w : world) : world := (handle e w).2.

Definition run (trace : list event) (w : world) : world :=
  foldl (λ w e, step e w) w trace.

End Auth.

(** * Vocabulary of the statements *)

(** ** Frames and completions *)

(** A text frame carrying the JSON serialisation of [v]. *)
Definition text (v : value) : frame := Frame [] true (Some v).

(** How the two file-system operations of one [saveAudioData] run end. *)
Inductive fs_result : Type :=
  | Saved
  | MkdirFailed (e : string)
  | WriteFailed (e : string).

(** The completions delivered to the [saveAudioData] task [t]. *)
Definition save_events (t : nat) (now : Z) (r : fs_result) : list event :=
  match r with
  | Saved => [MkdirDone t None now; WriteFileDone t None]
  | MkdirFailed e => [MkdirDone t (Some e) now]
  | WriteFailed e => [MkdirDone t None now; WriteFileDone t (Some e)]
  end.

(** ** Scenarios

    Traces from the module as first loaded.  Objects are numbered in the
    order of their creation. *)

(** A session started on a fresh module, up to the point where the page
    has connected (socket 3), the start command is sent and promise 0 is
    the pending result. *)
Definition session_started : list event :=
  [CallStartRecordingSession; GetPortDone 0 9000; ListenDone 0 None;
   OpenExternalDone 0 None; Connection 2; IntervalTick 0].

(** A [startSession] request on a fresh module, up to the point where the
    page has connected (socket 4) and promise 1 is the pending result that
    procedure 0 waits for. *)
Definition routed_session_started : list event :=
  [CallStartSession; GetPortDone 1 9000; ListenDone 1 None;
   OpenExternalDone 1 None; Connection 3; IntervalTick 1].

(** The evicted page of the witness: two pages connect in turn, then the
    first one's socket closes. *)
Definition two_pages : world :=
  run (session_started ++ [Connection 2]) (initial "/tmp").

(** The page connected first is replaced by a second page while the
    session is pending; then a frame of the first page arrives on its
    closing socket. *)
Definition evicted_page_speaks : list event :=
  session_started ++
  [Connection 2;
   Message 3 (text (audioBlob_message ["001"; "002"; "003"]%byte));
   MkdirDone 5 None 1000; WriteFileDone 5 None].

(** Two [audioBlob] frames arrive back to back, so that the second
    [saveAudioData] run assigns [audioFilePath] while the first one is
    waiting for its write; the first write completes, the second fails. *)
Definition overlapping_saves : list event :=
  session_started ++
  [Message 3 (text (audioBlob_message ["001"; "002"]%byte));
   Message 3 (text (audioBlob_message ["003"; "004"]%byte));
   MkdirDone 4 None 1000; MkdirDone 5 None 1001;
   WriteFileDone 4 None; WriteFileDone 5 (Some "ENOSPC")].

(** The session of [session_started] is settled by a first [audioBlob]
    message, written at time 1000. *)
Definition session_settled : list event :=
  session_started ++
  [Message 3 (text (audioBlob_message ["001"; "002"]%byte));
   MkdirDone 4 None 1000; WriteFileDone 4 None].

(** ** Properties of a world *)

(** No [http.Server] is bound. *)
Definition nothing_listening (w : world) : Prop :=
  ∀ h o, servers w !! h = Some o → listening o = false.

Definition is_save (k : task) : bool :=
  match k with
  | Mkdir _ | WriteFile _ _ => true
  | _ => false
  end.

(** No socket exists, none is registered, no file has been written and no
    [saveAudioData] run is under way. *)
Definition quiet (w : world) : Prop :=
  sockets w = ∅ ∧ recordingSocket (mv w) = None ∧ files w = ∅ ∧
  ∀ t k, tasks w !! t = Some k → is_save k = false.

(** The task that an event resumes. *)
Definition target (e : event) : option nat :=
  match e with
  | GetPortDone t _ | ListenDone t _ | OpenExternalDone t _ | IntervalTick t
  | MkdirDone t _ _ | WriteFileDone t _ | Resume t => Some t
  | _ => None
  end.

(** Neither promise callback of [p] is stored anywhere, and [p] is in state
    [v] with its task in state [k]. *)
Definition kept (p : nat) (v : option settled) (k : option task) (w : world)
    : Prop :=
  (p < next_id w)%nat ∧
  resolveAudioPromise (mv w) ≠ Some p ∧
  rejectAudioPromise (mv w) ≠ Some p ∧
  (∀ h o, servers w !! h = Some o → p ∉ close_callbacks o) ∧
  promises w !! p = v ∧
  tasks w !! p = k.

(** The number of runs of the interval callback of task [p] in a trace. *)
Fixpoint ticks (p : nat) (trace : list event) : nat :=
  match trace with
  | [] => 0
  | IntervalTick t :: trace =>
      if Nat.eqb t p then S (ticks p trace) else ticks p trace
  | _ :: trace => ticks p trace
  end.

(** The wait of [p] after [n] ticks, with no page connected. *)
Definition waited (p : nat) (n : nat) (w : world) : Prop :=
  quiet w ∧
  if decide (n < 22)%nat then kept p None (Some (Poll (Z.of_nat n))) w
  else kept p (Some (Rejected timeout_error)) None w.

(** ** Properties of a computation *)

(** [m] keeps [P]. *)
Definition preserves {A} (P : world → Prop) (m : M A) : Prop :=
  ∀ w, P w → P (m w).2.

(** [m] keeps [P] and returns a value that satisfies [φ]. *)
Definition yields {A} (P : world → Prop) (m : M A) (φ : A → Prop) : Prop :=
  ∀ w, P w → φ (m w).1 ∧ P (m w).2.

(** Promise [p] is settled with [s]. *)
Definition final (p : nat) (s : settled) (w : world) : Prop :=
  promises w !! p = Some s.

(** ** Further scenarios of the host *)

(** A [startSession] request on a fresh module, up to the opening of the
    page: procedure 0, promise 1, server 2, channel 3. *)
Definition routed_startup (port : Z) : list event :=
  [CallStartSession; GetPortDone 1 port; ListenDone 1 None;
   OpenExternalDone 1 None].

(** The [catch] block of procedure 0 from the rejection of its result to
    its answer: the server is stopped, channel 3 and server 2 close, and
    the procedure resumes. *)
Definition server_stopped : list event :=
  [Resume 0; WssClose 3; ServerClose 2; Resume 0].

(** A [startRecordingSession] call on a fresh module, up to the point
    where the server (promise 0, server 1, channel 2) is listening. *)
Definition server_started (port : Z) : list event :=
  [CallStartRecordingSession; GetPortDone 0 port; ListenDone 0 None].

(** A second session after a completed one.  The session of
    [session_started] is completed by a second page (socket 4), which
    replaced the first (socket 3, told to close) and whose clip is written
    at time 1000.  The second page disconnects, and a second
    [startRecordingSession] call (promise 6) finds the server listening,
    opens the page and starts its connection wait.  No socket is
    registered then; socket 3 has not emitted ['close'] yet. *)
Definition second_session_waiting : list event :=
  session_started ++
  [Connection 2;
   Message 4 (text (audioBlob_message ["001"; "002"]%byte));
   MkdirDone 5 None 1000; WriteFileDone 5 None;
   SocketClose 4;
   CallStartRecordingSession; OpenExternalDone 6 None].

(** The whole wait of call 6, during which no page connects: a frame of
    the page replaced earlier arrives on socket 3 and is saved at time
    2000, and the interval callback runs 22 times. *)
Definition wait_with_stale_frame : list event :=
  [Message 3 (text (audioBlob_message ["003"; "004"; "005"]%byte));
   MkdirDone 7 None 2000; WriteFileDone 7 None]
  ++ replicate 22 (IntervalTick 6).

(** The server is started again while it is being stopped: the stop
    (promise 3) has closed the channel, a new call (promise 4) binds server
    5 with channel 6 on another port, and only then does server 1 emit
    ['close']. *)
Definition server_lost : list event :=
  server_started 9000 ++
  [CallStopRecordingServer; WssClose 2;
   CallStartRecordingSession; GetPortDone 4 9001; ListenDone 4 None;
   ServerClose 1].

(** The same restart made by a [startSession] request (procedure 4,
    promise 5, server 6, channel 7): its page connects (socket 8) and is
    sent the start command before server 1 emits ['close']. *)
Definition session_on_lost_server : list event :=
  server_started 9000 ++
  [CallStopRecordingServer; WssClose 2;
   CallStartSession; GetPortDone 5 9001; ListenDone 5 None;
   OpenExternalDone 5 None; Connection 7; IntervalTick 5;
   ServerClose 1].

(** ** The page and the host *)

(** [JSON.stringify(command)] of recording.ts, as the page parses it. *)
Definition command_value (c : command) : value :=
  VObj [("type", VStr "command");
        ("payload", VStr match c with Start => "start" | Stop => "stop" end)].

(** A recording from its first chunk to the message that carries the
    clip: the chunks delivered before and after the stop command, in
    order; [t] is the task of the pending [arrayBuffer()] call. *)
Definition recording_trace (s r t : nat) (before after : list (list byte))
    (thrown : string) : list Recorder.event :=
  map (Recorder.DataAvailable r) before ++
  Recorder.WsMessage s (Some (command_value Stop)) thrown ::
  map (Recorder.DataAvailable r) after ++
  [Recorder.RecorderStop r; Recorder.ArrayBufferDone t None].

(** A page served from localhost, loaded and connected (socket 0). *)
Definition page_ready : Recorder.page :=
  Recorder.run [Recorder.PageLoad; Recorder.WsOpen 0]
    (Recorder.loaded (Some (Recorder.Element "" ""))
       (Some (Recorder.Element "" "")) "http:" "localhost:9000" true "").

(** The page after the start command and the grant of a microphone stream
    with one audio track (task 1, stream 2). *)
Definition page_awaiting_screen : Recorder.page :=
  Recorder.run
    [Recorder.WsMessage 0 (Some (command_value Start)) "";
     Recorder.GetUserMediaDone 1 (inr 1%nat)] page_ready.

(** The page recording the microphone and the screen (recorder 8). *)
Definition page_recording : Recorder.page :=
  Recorder.step (Recorder.GetDisplayMediaDone 1 (inr 1%nat))
    page_awaiting_screen.

(** ** The sign-in flow *)

(** [c], a string of one character, occurs in [s]. *)
Fixpoint has_char (c : string) (s : string) : bool :=
  match s with
  | "" => false
  | String a rest => String.eqb (String a "") c || has_char c rest
  end.

(** The module loaded with the three environment variables set. *)
Definition configured : Auth.world :=
  Auth.initial (Some "client-id") (Some "client-secret")
    (Some "http://127.0.0.1:4000/oauth2callback").

(** A sign-in started on the module as loaded: the consent URL is
    requested (call 0), then the callback is awaited (call 1, promise 2,
    server 3) and the server is bound. *)
Definition sign_in_started (random state authUrl : string)
    : list Auth.event :=
  [Auth.CallGetAuthUrl random state authUrl; Auth.CallHandleCallback;
   Auth.Listening 3].

(** * Properties *)

Lemma ToUint8_of_byte (b : byte) : ToUint8 (Z.of_N (Byte.to_N b)) = b.
Proof.
  unfold ToUint8.
  assert (Hb : (Byte.to_N b <= 255)%N) by apply Byte.to_N_bounded.
  change 255 with (Z.ones 8).
  rewrite Z.land_ones by lia.
  rewrite Z.mod_small by lia.
  rewrite N2Z.id, Byte.of_to_N. reflexivity.
Qed.

(** C3. Round trip of the transport encoding: for every byte buffer, of any
    length, the numeric array built by the recorder page decodes on the host
    to exactly the bytes it was built from. *)
Theorem transport_roundtrip (bytes : list byte) :
  Buffer_from (Array_from bytes) = bytes.
Proof.
  unfold Buffer_from, Array_from.
  induction bytes as [|b bytes IH]; simpl; [reflexivity|].
  rewrite ToUint8_of_byte, IH. reflexivity.
Qed.

Lemma run_nil (w : world) : run [] w = w.
Proof. reflexivity. Qed.

Lemma run_cons (e : event) (trace : list event) (w : world) :
  run (e :: trace) w = run trace (step e w).
Proof. reflexivity. Qed.

Lemma run_app (t1 t2 : list event) (w : world) :
  run (t1 ++ t2) w = run t2 (run t1 w).
Proof. apply foldl_app. Qed.

#[local] Arguments recording_path : simpl never.
#[local] Arguments serverUrl : simpl never.
#[local] Arguments show_port : simpl never.
#[local] Arguments String.append : simpl never.
#[local] Arguments Buffer_from : simpl never.
#[local] Arguments Array_from : simpl never.

(** ** Symbolic execution of a step *)

Ltac unfold_model :=
  unfold handle, startRecordingSession, startRecordingServer,
    startRecordingServer_after_getPort, startRecordingServer_after_listen,
    startRecordingSession_after_server, startRecordingSession_after_open,
    startRecordingSession_tick, server_listening,
    stopRecordingSession, stopRecordingServer, wss_close, server_close,
    wss_closed, server_closed, startSession, startSession_resume, stopSession,
    answer, on_connection, on_message, on_message_catch, on_close, on_error,
    is_recordingSocket, saveAudioData, saveAudioData_after_mkdir,
    saveAudioData_after_writeFile, saveAudioData_catch, saveAudioData_finally,
    reject_if_set, set_readyState, settle, suspend, finish, send, close,
    console_, new, skip, assign, modify, look, read,
    mbind, M_bind, mret, M_ret in *.

Ltac simp tac := repeat (progress (unfold_model; cbn in *; tac)).

(** Replaces the innermost [step e w] of the goal by the world it
    evaluates to, [tac] rewriting with what is known of [w]. *)
Ltac eval_step tac :=
  match goal with
  | |- context [step ?e ?w] =>
      lazymatch w with
      | context [step _ _] => fail
      | _ =>
          let E := fresh "E" in
          let x := fresh "x" in
          evar (x : world);
          assert (E : step e w = x);
          [ unfold step; simp tac; subst x; reflexivity
          | subst x; rewrite E; clear E ]
      end
  end.

(** ** The registered client *)

Lemma on_close_other (w : world) (ws : nat) :
  recordingSocket (mv w) ≠ Some ws →
  recordingSocket (mv (step (SocketClose ws) w)) = recordingSocket (mv w).
Proof.
  intros Hne. unfold step.
  simp ltac:(rewrite ?bool_decide_eq_false_2 by assumption).
  destruct (live ws w); simp idtac; [|reflexivity].
  rewrite bool_decide_eq_false_2 by assumption. reflexivity.
Qed.

Lemma on_error_other (w : world) (ws : nat) (err : string) :
  recordingSocket (mv w) ≠ Some ws →
  recordingSocket (mv (step (SocketError ws err) w)) = recordingSocket (mv w).
Proof.
  intros Hne. unfold step. simp idtac.
  destruct (live ws w); simp idtac; [|reflexivity].
  rewrite bool_decide_eq_false_2 by assumption. simp idtac.
  destruct (rejectAudioPromise (mv w)); simp idtac; [|reflexivity].
  destruct (promises w !! n); reflexivity.
Qed.

(** The connection handler: the new socket takes the slot and the socket
    registered before is told to close. *)
Lemma connection_evicts_previous (w : world) (hw old : nat) (out : list command) :
  accepting hw w = true →
  recordingSocket (mv w) = Some old →
  sockets w !! old = Some (Socket OPEN out) →
  (old < next_id w)%nat →
  let w1 := step (Connection hw) w in
  recordingSocket (mv w1) = Some (next_id w) ∧
  sockets w1 !! old = Some (Socket CLOSING out) ∧
  sockets w1 !! next_id w = Some (Socket OPEN []).
Proof.
  intros Hacc Hreg Hold Hlt. cbn zeta.
  eval_step ltac:(rewrite ?Hacc, ?Hreg, ?Hold).
  rewrite lookup_insert_ne, Hold by lia. cbn.
  split; [reflexivity|].
  rewrite lookup_insert_eq, lookup_insert_ne, lookup_insert_eq by lia.
  split; reflexivity.
Qed.

(** C10. The close and error handlers of a socket leave [recordingSocket]
    as it is unless that socket is the registered one; so when a new
    connection has replaced the socket [old], the later close (or error)
    of [old] leaves the new socket registered. *)
Theorem registration_cleared_only_by_registered_socket :
  (∀ (w : world) (ws : nat) (err : string),
     recordingSocket (mv w) ≠ Some ws →
     recordingSocket (mv (step (SocketClose ws) w)) = recordingSocket (mv w) ∧
     recordingSocket (mv (step (SocketError ws err) w))
       = recordingSocket (mv w))
  ∧
  (∀ (w : world) (hw old : nat) (err : string),
     accepting hw w = true →
     recordingSocket (mv w) = Some old →
     (old < next_id w)%nat →
     let w1 := step (Connection hw) w in
     recordingSocket (mv w1) = Some (next_id w) ∧
     recordingSocket (mv (step (SocketClose old) w1)) = Some (next_id w) ∧
     recordingSocket (mv (step (SocketError old err) w1)) = Some (next_id w)).
Proof.
  split.
  - intros w ws err Hne. split.
    + apply on_close_other, Hne.
    + apply on_error_other, Hne.
  - intros w hw old err Hacc Hreg Hlt w1.
    assert (H1 : recordingSocket (mv w1) = Some (next_id w)).
    { subst w1. eval_step ltac:(rewrite ?Hacc, ?Hreg).
      destruct (sockets w !! old) as [[[] out]|]; reflexivity. }
    assert (Hne : recordingSocket (mv w1) ≠ Some old).
    { rewrite H1. intros [= Heq]. lia. }
    split; [exact H1|]. split.
    + rewrite on_close_other by exact Hne. exact H1.
    + rewrite on_error_other by exact Hne. exact H1.
Qed.

Lemma registration_cleared_only_by_registered_socket_witness :
  recordingSocket (mv two_pages) = Some 4%nat ∧
  recordingSocket (mv (step (SocketClose 3) two_pages))
    = recordingSocket (mv two_pages).
Proof.
  split; [vm_compute; reflexivity|].
  apply (proj1 registration_cleared_only_by_registered_socket
           two_pages 3%nat "").
  vm_compute. discriminate.
Defined.

(** ** Messages *)

(** The message handler never looks at which socket the frame came from:
    any two live sockets are interchangeable as senders. *)
Lemma message_sender_is_not_checked (w : world) (ws ws' : nat) (m : frame) :
  live ws w = true → live ws' w = true →
  step (Message ws m) w = step (Message ws' m) w.
Proof.
  intros H H'. unfold step, handle, mbind, M_bind, look.
  rewrite H, H'. reflexivity.
Qed.

(** An [audioBlob] message built by the recorder page from [bytes] starts a
    [saveAudioData] run on exactly those bytes. *)
Lemma audioBlob_starts_save (w : world) (ws : nat) (bytes : list byte) :
  live ws w = true →
  let w1 := step (Message ws (text (audioBlob_message bytes))) w in
  tasks w1 !! next_id w = Some (Mkdir bytes) ∧
  next_id w1 = S (next_id w) ∧
  mv w1 = mv w ∧ promises w1 = promises w ∧ calls w1 = calls w ∧
  files w1 = files w ∧ sockets w1 = sockets w.
Proof.
  intros Hl. cbn zeta. eval_step ltac:(rewrite ?Hl).
  cbn. rewrite lookup_insert_eq, transport_roundtrip.
  destruct (mv w). repeat split; reflexivity.
Qed.

(** C2, on the code: after socket 4 has replaced socket 3, an [audioBlob]
    frame arriving on socket 3 is still written to a file and still
    resolves the pending result. *)
Theorem evicted_client_message_settles_session :
  let before := run (session_started ++ [Connection 2]) (initial "/tmp") in
  let after := run evicted_page_speaks (initial "/tmp") in
  let path := "/tmp/daily-sync-recordings/recording-1000.wav" in
  recordingSocket (mv before) = Some 4%nat ∧
  sockets before !! 3%nat = Some (Socket CLOSING [Start]) ∧
  promises before !! 0%nat = None ∧
  files before !! path = None ∧
  files after !! path = Some ["001"; "002"; "003"]%byte ∧
  promises after !! 0%nat = Some (Resolved (VStr path)).
Proof. vm_compute. repeat split; reflexivity. Qed.

(** ** saveAudioData *)

(** A [saveAudioData] run that no other run overlaps: the result is
    resolved with the path of a file that holds the whole buffer, or it is
    rejected with the error and [audioFilePath] is null. *)
Lemma saveAudioData_alone (w : world) (ws p : nat) (bytes : list byte)
    (now : Z) (r : fs_result) :
  live ws w = true →
  resolveAudioPromise (mv w) = Some p →
  rejectAudioPromise (mv w) = Some p →
  promises w !! p = None →
  let path := recording_path (os_tmpdir w) now in
  let w' :=
    run (Message ws (text (audioBlob_message bytes))
           :: save_events (next_id w) now r) w in
  resolveAudioPromise (mv w') = None ∧
  rejectAudioPromise (mv w') = None ∧
  match r with
  | Saved =>
      promises w' !! p = Some (Resolved (VStr path)) ∧
      files w' !! path = Some bytes ∧
      audioFilePath (mv w') = Some path
  | MkdirFailed e | WriteFailed e =>
      promises w' !! p = Some (Rejected (VError e)) ∧
      files w' = files w ∧
      audioFilePath (mv w') = None
  end.
Proof.
  intros Hl Hr Hj Hp. cbn zeta.
  destruct r as [|e|e]; unfold run, save_events, foldl.
  - eval_step ltac:(rewrite ?Hl).
    eval_step ltac:(rewrite ?lookup_insert_eq).
    eval_step ltac:(rewrite ?lookup_insert_eq, ?Hr, ?Hp).
    cbn. rewrite !lookup_insert_eq, transport_roundtrip. done.
  - eval_step ltac:(rewrite ?Hl).
    eval_step ltac:(rewrite ?lookup_insert_eq, ?Hj, ?Hp).
    cbn. rewrite lookup_insert_eq. done.
  - eval_step ltac:(rewrite ?Hl).
    eval_step ltac:(rewrite ?lookup_insert_eq).
    eval_step ltac:(rewrite ?lookup_insert_eq, ?Hj, ?Hp).
    cbn. rewrite lookup_insert_eq. done.
Qed.

(** C9, on the code: when two runs overlap, the pending result is resolved
    with the path assigned by the second run, at which no file has been
    written, and none ever is. *)
Theorem overlapping_saves_resolve_with_unwritten_path :
  let w := run overlapping_saves (initial "/tmp") in
  let first := "/tmp/daily-sync-recordings/recording-1000.wav" in
  let second := "/tmp/daily-sync-recordings/recording-1001.wav" in
  promises w !! 0%nat = Some (Resolved (VStr second)) ∧
  files w !! second = None ∧
  files w !! first = Some ["001"; "002"]%byte ∧
  audioFilePath (mv w) = None ∧
  tasks w = ∅.
Proof. vm_compute. repeat split; reflexivity. Qed.

(** ** Properties kept by every step *)

Lemma preserves_ret {A} (P : world → Prop) (a : A) : preserves P (mret a).
Proof. intros w H. exact H. Qed.

Lemma preserves_bind {A B} (P : world → Prop) (m : M A) (f : A → M B) :
  preserves P m → (∀ a, preserves P (f a)) → preserves P (m ≫= f).
Proof.
  intros Hm Hf w H. unfold mbind, M_bind.
  specialize (Hm w H). destruct (m w) as [a w']. exact (Hf a w' Hm).
Qed.

Lemma preserves_look {A} (P : world → Prop) (f : world → A) :
  preserves P (look f).
Proof. intros w H. exact H. Qed.

Lemma preserves_read {A} (P : world → Prop) (f : vars → A) :
  preserves P (read f).
Proof. intros w H. exact H. Qed.

Lemma preserves_modify (P : world → Prop) (f : world → world) :
  (∀ w, P w → P (f w)) → preserves P (modify f).
Proof. intros Hf w H. exact (Hf w H). Qed.

Lemma preserves_for_each {A} (P : world → Prop) (l : list A) (f : A → M unit) :
  (∀ a, preserves P (f a)) → preserves P (for_each l f).
Proof.
  intros Hf. induction l as [|a l IH]; cbn [for_each].
  - apply preserves_ret.
  - apply preserves_bind; [apply Hf | intros _; exact IH].
Qed.

(** The functions of the source, without the primitives they are built
    from. *)
Ltac unfold_handlers :=
  unfold handle, startRecordingSession, startRecordingServer,
    startRecordingServer_after_getPort, startRecordingServer_after_listen,
    startRecordingSession_after_server, startRecordingSession_after_open,
    startRecordingSession_tick, server_listening,
    stopRecordingSession, stopRecordingServer, wss_close, server_close,
    wss_closed, server_closed, startSession, startSession_resume, stopSession,
    answer, on_connection, on_message, on_message_catch, on_close, on_error,
    is_recordingSocket, saveAudioData, saveAudioData_after_mkdir,
    saveAudioData_after_writeFile, saveAudioData_catch, saveAudioData_finally,
    reject_if_set, set_readyState, suspend, finish, send, close,
    console_, skip, assign.

(** Walks through a handler, leaving one goal for each [settle] and
    [modify] that [prim] does not solve.  [binder] is tried first and may
    apply a rule that records what a read value is known to satisfy. *)
Ltac walk binder prim :=
  repeat first
    [ binder
    | lazymatch goal with
      | |- preserves _ (mret _) => apply preserves_ret
      | |- preserves _ (look _) => apply preserves_look
      | |- preserves _ (read _) => apply preserves_read
      | |- preserves _ (for_each _ _) => apply preserves_for_each; intros ?
      | |- preserves _ (mbind _ _) => apply preserves_bind; [|intros ?]
      | |- preserves _ (match ?x with _ => _ end) => destruct x
      | |- preserves _ (settle _ _) => prim
      | |- preserves _ (modify _) => prim
      | |- preserves _ new => unfold new
      | |- preserves _ _ => progress unfold_handlers
      end ].

Ltac no_binder := idtac; fail.

Lemma settle_final (p q : nat) (s s' : settled) :
  preserves (final p s) (settle q s').
Proof.
  intros w H. unfold final, settle, modify, look, mbind, M_bind in *. cbn.
  destruct (promises w !! q) eqn:Hq; cbn; [exact H|].
  rewrite lookup_insert_ne; [exact H|]. congruence.
Qed.

Lemma modify_final (p : nat) (s : settled) (f : world → world) :
  (∀ w, promises (f w) = promises w) → preserves (final p s) (modify f).
Proof. intros Hf w H. unfold final, modify in *. cbn. rewrite Hf. exact H. Qed.

Ltac frame_promises :=
  idtac;
  lazymatch goal with
  | |- preserves _ (settle _ _) => apply settle_final
  | |- preserves _ (modify _) =>
      apply modify_final; intros; cbn; repeat case_match; reflexivity
  end.

(** A settled promise stays as it is: whatever is delivered next, a
    later call of its [resolve] or [reject] function changes nothing. *)
Lemma settled_is_final (e : event) (w : world) (p : nat) (s : settled) :
  promises w !! p = Some s → promises (step e w) !! p = Some s.
Proof.
  revert w. change (preserves (final p s) (handle e)).
  destruct e; unfold_handlers; walk no_binder frame_promises.
Qed.

(** C4 as stated fails: the second [audioBlob] message after settlement is
    not dropped without effect, it creates a second file and moves
    [audioFilePath]. *)
Lemma duplicate_audioBlob_is_not_dropped :
  let w := run session_settled (initial "/tmp") in
  let w' :=
    run [Message 3 (text (audioBlob_message ["003"]%byte));
         MkdirDone 5 None 2000; WriteFileDone 5 None] w in
  let second := "/tmp/daily-sync-recordings/recording-2000.wav" in
  is_Some (promises w !! 0%nat) ∧
  resolveAudioPromise (mv w) = None ∧
  files w !! second = None ∧
  files w' !! second = Some ["003"]%byte ∧
  audioFilePath (mv w') ≠ audioFilePath (mv w).
Proof. vm_compute. repeat split; try reflexivity; [eauto | discriminate]. Qed.

(** C4, amended. A settled result is never settled again, whatever
    arrives.  An [audioBlob] message that arrives when the resolver and
    the rejecter have been cleared calls neither: every promise and every
    answer is left as it was.  Its audio is nevertheless saved: when both
    file operations succeed the buffer is written to a new file,
    [audioFilePath] names that file and the last thing logged is the
    warning; when one of them fails no file is written, [audioFilePath] is
    null and the last thing logged is the error. *)
Theorem duplicate_audioBlob_after_settlement (w : world) (ws : nat)
    (bytes : list byte) (now : Z) (r : fs_result) :
  live ws w = true →
  resolveAudioPromise (mv w) = None →
  rejectAudioPromise (mv w) = None →
  let path := recording_path (os_tmpdir w) now in
  let w' :=
    run (Message ws (text (audioBlob_message bytes))
           :: save_events (next_id w) now r) w in
  (∀ e w0 p s, promises w0 !! p = Some s → promises (step e w0) !! p = Some s) ∧
  promises w' = promises w ∧ calls w' = calls w ∧ answers w' = answers w ∧
  match r with
  | Saved =>
      files w' = <[path := bytes]> (files w) ∧
      audioFilePath (mv w') = Some path ∧
      last (console w')
        = Some (Warn, [VStr "Audio saved but no promise resolver was waiting."])
  | MkdirFailed e | WriteFailed e =>
      files w' = files w ∧
      audioFilePath (mv w') = None ∧
      last (console w') = Some (Error, [VStr "Error saving audio file:"; VError e])
  end.
Proof.
  intros Hl Hr Hj. cbn zeta.
  split; [exact settled_is_final|].
  destruct r as [|e|e]; unfold run, save_events, foldl.
  - eval_step ltac:(rewrite ?Hl).
    eval_step ltac:(rewrite ?lookup_insert_eq).
    eval_step ltac:(rewrite ?lookup_insert_eq, ?Hr).
    cbn. rewrite transport_roundtrip, last_snoc. done.
  - eval_step ltac:(rewrite ?Hl).
    eval_step ltac:(rewrite ?lookup_insert_eq, ?Hj).
    cbn. rewrite last_snoc. done.
  - eval_step ltac:(rewrite ?Hl).
    eval_step ltac:(rewrite ?lookup_insert_eq).
    eval_step ltac:(rewrite ?lookup_insert_eq, ?Hj).
    cbn. rewrite last_snoc. done.
Qed.

Lemma duplicate_audioBlob_after_settlement_witness :
  let w := run session_settled (initial "/tmp") in
  let w' :=
    run (Message 3 (text (audioBlob_message ["003"]%byte))
           :: save_events (next_id w) 2000 Saved) w in
  promises w' = promises w ∧
  last (console w')
    = Some (Warn, [VStr "Audio saved but no promise resolver was waiting."]).
Proof.
  intros w w'.
  assert (Hl : live 3 w = true) by (vm_compute; reflexivity).
  assert (Hr : resolveAudioPromise (mv w) = None) by (vm_compute; reflexivity).
  assert (Hj : rejectAudioPromise (mv w) = None) by (vm_compute; reflexivity).
  pose proof (duplicate_audioBlob_after_settlement
                w 3%nat ["003"]%byte 2000 Saved Hl Hr Hj) as H.
  cbn zeta in H. destruct H as (_ & Hp & _ & _ & _ & _ & Hc).
  split; [exact Hp | exact Hc].
Defined.

(** ** stopSession *)




(** ** stopRecordingServer *)

(** [stopRecordingServer()] when there is no server and no channel: the
    returned promise is resolved at once and nothing else changes. *)
Lemma stop_without_server (w : world) :
  server (mv w) = None → wss (mv w) = None →
  promises w !! next_id w = None →
  let w' := step CallStopRecordingServer w in
  promises w' !! next_id w = Some (Resolved VUndefined) ∧
  mv w' = mv w ∧ servers w' = servers w ∧ wsservers w' = wsservers w ∧
  sockets w' = sockets w ∧ files w' = files w.
Proof.
  intros Hs Hc Hp. cbn zeta.
  eval_step ltac:(rewrite ?Hs, ?Hc, ?Hp).
  cbn. rewrite lookup_insert_eq. done.
Qed.

(** [stopRecordingServer()] called twice, back to back or one call after
    the other has completed, on a module whose server [h] and channel [hw]
    are up: both promises are resolved and, once they are, the four module
    variables are null and [h] is no longer bound. *)
Lemma stop_twice (w : world) (h hw : nat) (up : bool) :
  server (mv w) = Some h → wss (mv w) = Some hw →
  servers w !! h = Some (HttpServer up []) →
  wsservers w !! hw = Some (WsServer h false 0) →
  promises w !! next_id w = None → promises w !! S (next_id w) = None →
  ∀ w',
    w' = run [CallStopRecordingServer; CallStopRecordingServer;
              WssClose hw; ServerClose h] w ∨
    w' = run [CallStopRecordingServer; WssClose hw; ServerClose h;
              CallStopRecordingServer] w →
    promises w' !! next_id w = Some (Resolved VUndefined) ∧
    promises w' !! S (next_id w) = Some (Resolved VUndefined) ∧
    server (mv w') = None ∧ wss (mv w') = None ∧
    recordingSocket (mv w') = None ∧ currentPort (mv w') = None ∧
    servers w' = <[h := HttpServer false []]> (servers w).
Proof.
  intros Hs Hc Hh Hhw Hp1 Hp2 w' Hw'.
  pose proof (Nat.neq_succ_diag_l (next_id w)) as Hne.
  destruct Hw' as [-> | ->]; unfold run, foldl;
    do 4 eval_step ltac:(rewrite ?Hs, ?Hc, ?lookup_alter_eq, ?Hh, ?Hhw, ?Hp1,
                           ?lookup_insert_eq, ?insert_alter_eq);
    cbn;
    rewrite (lookup_insert_ne _ (next_id w) (S (next_id w))), Hp2
      by congruence; cbn;
    rewrite lookup_insert_eq, lookup_insert_ne, lookup_insert_eq
      by congruence;
    repeat split; reflexivity.
Qed.

(** Stopping the server while the module refers to every server that is
    listening.  Stopping it when it was never started (no server, no
    channel) resolves at once and leaves nothing bound; stopping it twice,
    back to back or one stop after the other, resolves both calls, and once
    they are resolved the server, channel, socket and port variables are
    null and no listener is bound.  No call ends in a rejection. *)
Theorem stop_server_twice_or_unstarted :
  (∀ w : world,
     server (mv w) = None → wss (mv w) = None →
     promises w !! next_id w = None →
     nothing_listening w →
     let w' := step CallStopRecordingServer w in
     promises w' !! next_id w = Some (Resolved VUndefined) ∧
     mv w' = mv w ∧ nothing_listening w')
  ∧
  (∀ (w : world) (h hw : nat) (up : bool),
     server (mv w) = Some h → wss (mv w) = Some hw →
     servers w !! h = Some (HttpServer up []) →
     wsservers w !! hw = Some (WsServer h false 0) →
     promises w !! next_id w = None → promises w !! S (next_id w) = None →
     (∀ h' o, servers w !! h' = Some o → h' ≠ h → listening o = false) →
     ∀ w',
       w' = run [CallStopRecordingServer; CallStopRecordingServer;
                 WssClose hw; ServerClose h] w ∨
       w' = run [CallStopRecordingServer; WssClose hw; ServerClose h;
                 CallStopRecordingServer] w →
       promises w' !! next_id w = Some (Resolved VUndefined) ∧
       promises w' !! S (next_id w) = Some (Resolved VUndefined) ∧
       server (mv w') = None ∧ wss (mv w') = None ∧
       recordingSocket (mv w') = None ∧ currentPort (mv w') = None ∧
       nothing_listening w').
Proof.
  split.
  - intros w Hs Hc Hp Hn w'.
    destruct (stop_without_server w Hs Hc Hp) as (H1 & H2 & H3 & _).
    subst w'. repeat split; try assumption.
    intros h o. rewrite H3. apply Hn.
  - intros w h hw up Hs Hc Hh Hhw Hp1 Hp2 Hothers w' Hw'.
    destruct (stop_twice w h hw up Hs Hc Hh Hhw Hp1 Hp2 w' Hw')
      as (H1 & H2 & H3 & H4 & H5 & H6 & H7).
    repeat split; try assumption.
    intros h' o. rewrite H7. destruct (decide (h' = h)) as [->|Hne].
    + rewrite lookup_insert_eq. intros [= <-]. reflexivity.
    + rewrite lookup_insert_ne by congruence. intros Ho.
      exact (Hothers h' o Ho Hne).
Qed.

(** Never started: the module as loaded.  Started: the module of
    [session_started], whose server is object 1 and whose channel is
    object 2. *)
Lemma stop_server_twice_or_unstarted_witness :
  promises (step CallStopRecordingServer (initial "/tmp")) !! 0%nat
    = Some (Resolved VUndefined) ∧
  nothing_listening
    (run [CallStopRecordingServer; CallStopRecordingServer;
          WssClose 2; ServerClose 1]
       (run session_started (initial "/tmp"))).
Proof.
  split.
  - apply (proj1 stop_server_twice_or_unstarted (initial "/tmp"));
      try reflexivity.
    intros h o. cbn. rewrite lookup_empty. discriminate.
  - set (w := run session_started (initial "/tmp")).
    refine (proj2 (proj2 (proj2 (proj2 (proj2 (proj2
              (proj2 stop_server_twice_or_unstarted w 1%nat 2%nat true
                 _ _ _ _ _ _ _ _ (or_introl eq_refl)))))))).
    all: try (vm_compute; reflexivity).
    intros h' o Ho Hne.
    assert (Hs : servers w = {[1%nat := HttpServer true []]})
      by (vm_compute; reflexivity).
    rewrite Hs, lookup_singleton_ne in Ho by congruence. discriminate.
Defined.

(** C7, on the code: after a restart during a stop.  In [server_lost] the
    close callback of server 1 has cleared [server] and [currentPort] while
    they referred to server 5.  Two stops in a row then both resolve at
    once, neither throws, and the variables are null once the channel has
    closed; but server 5, which no variable refers to, is still
    listening. *)
Theorem stop_twice_leaves_lost_server_listening :
  let w := run server_lost (initial "/tmp") in
  let w' := run [CallStopRecordingServer; CallStopRecordingServer] w in
  let w'' := step (WssClose 6) w' in
  (server (mv w) = None ∧ wss (mv w) = Some 6%nat ∧
   servers w !! 5%nat = Some (HttpServer true [])) ∧
  (promises w' !! 7%nat = Some (Resolved VUndefined) ∧
   promises w' !! 8%nat = Some (Resolved VUndefined)) ∧
  (server (mv w'') = None ∧ wss (mv w'') = None ∧
   recordingSocket (mv w'') = None ∧ currentPort (mv w'') = None) ∧
  servers w'' !! 5%nat = Some (HttpServer true []) ∧
  ¬ nothing_listening w''.
Proof.
  cbn zeta.
  assert (H : servers (step (WssClose 6)
                (run [CallStopRecordingServer; CallStopRecordingServer]
                   (run server_lost (initial "/tmp")))) !! 5%nat
              = Some (HttpServer true [])) by (vm_compute; reflexivity).
  split; [vm_compute; repeat split; reflexivity|].
  split; [vm_compute; split; reflexivity|].
  split; [vm_compute; repeat split; reflexivity|].
  split; [exact H|].
  intros Hn. specialize (Hn _ _ H). discriminate Hn.
Qed.

(** ** An error reported by the page *)

(** An error reported while the module refers to the server that is
    listening.  With the result [p] pending and the [startSession]
    procedure [r] waiting for it, an [error] message rejects [p] with
    exactly the message's payload.  The procedure's [catch] block then stops the
    server: the listener is released at once, and the procedure answers
    only after the server's close callback has run, when the server,
    channel, socket and port variables are null. *)
Theorem error_message_rejects_then_server_stops
    (w : world) (ws p r h hw : nat) (payload : value) :
  live ws w = true →
  rejectAudioPromise (mv w) = Some p →
  promises w !! p = None →
  tasks w !! r = Some (RouterSession p) →
  answers w !! r = None →
  server (mv w) = Some h →
  servers w !! h = Some (HttpServer true []) →
  wss (mv w) = Some hw →
  wsservers w !! hw = Some (WsServer h false 0) →
  (p < next_id w)%nat →
  promises w !! next_id w = None →
  let s := next_id w in
  let w1 := step (Message ws (text (envelope "error" payload))) w in
  let w2 := step (Resume r) w1 in
  let w3 := run [WssClose hw; ServerClose h] w2 in
  let w4 := step (Resume r) w3 in
  promises w1 !! p = Some (Rejected payload) ∧
  servers w2 !! h = Some (HttpServer false [s]) ∧
  tasks w2 !! r = Some (RouterStop s payload) ∧
  answers w1 !! r = None ∧ answers w2 !! r = None ∧ answers w3 !! r = None ∧
  promises w3 !! s = Some (Resolved VUndefined) ∧
  server (mv w3) = None ∧ wss (mv w3) = None ∧
  recordingSocket (mv w3) = None ∧ currentPort (mv w3) = None ∧
  servers w3 !! h = Some (HttpServer false []) ∧
  answers w4 !! r = Some (failure payload "Failed to start recording session") ∧
  server (mv w4) = None ∧ servers w4 !! h = Some (HttpServer false []).
Proof.
  intros Hl Hj Hp Hr Ha Hs Hh Hc Hhw Hlt Hfresh. cbn zeta.
  assert (Hne : p ≠ next_id w) by lia.
  unfold run, foldl.
  eval_step ltac:(rewrite ?Hl, ?Hj, ?Hp).
  cbn [promises answers set_promises set_calls set_console servers tasks mv].
  rewrite lookup_insert_eq.
  split; [reflexivity|].
  eval_step ltac:(rewrite ?Hr, ?lookup_insert_eq, ?Hs, ?Hc).
  cbn [promises answers set_promises set_calls set_console servers tasks mv
       set_tasks set_servers set_next_id set_wsservers].
  rewrite lookup_alter_eq, Hh, lookup_insert_eq. cbn.
  do 2 (split; [reflexivity|]).
  do 2 (split; [assumption|]).
  eval_step ltac:(rewrite ?lookup_alter_eq, ?Hhw).
  eval_step ltac:(rewrite ?lookup_alter_eq, ?Hh, ?lookup_insert_ne,
                    ?Hfresh by congruence).
  cbn. rewrite !lookup_insert_eq.
  do 7 (split; [done|]).
  eval_step ltac:(rewrite ?lookup_insert_eq).
  cbn. rewrite !lookup_insert_eq. done.
Qed.

Lemma error_message_rejects_then_server_stops_witness :
  let w := run routed_session_started (initial "/tmp") in
  let w1 := step (Message 4 (text (envelope "error" (VStr "denied")))) w in
  let w2 := step (Resume 0) w1 in
  let w3 := run [WssClose 3; ServerClose 2] w2 in
  let w4 := step (Resume 0) w3 in
  promises w1 !! 1%nat = Some (Rejected (VStr "denied")) ∧
  answers w3 !! 0%nat = None ∧
  server (mv w3) = None ∧
  answers w4 !! 0%nat
    = Some (failure (VStr "denied") "Failed to start recording session").
Proof.
  intros w w1 w2 w3 w4.
  assert (H1 : live 4 w = true) by (vm_compute; reflexivity).
  assert (H2 : rejectAudioPromise (mv w) = Some 1%nat)
    by (vm_compute; reflexivity).
  assert (H3 : promises w !! 1%nat = None) by (vm_compute; reflexivity).
  assert (H4 : tasks w !! 0%nat = Some (RouterSession 1))
    by (vm_compute; reflexivity).
  assert (H5 : answers w !! 0%nat = None) by (vm_compute; reflexivity).
  assert (H6 : server (mv w) = Some 2%nat) by (vm_compute; reflexivity).
  assert (H7 : servers w !! 2%nat = Some (HttpServer true []))
    by (vm_compute; reflexivity).
  assert (H8 : wss (mv w) = Some 3%nat) by (vm_compute; reflexivity).
  assert (H9 : wsservers w !! 3%nat = Some (WsServer 2 false 0))
    by (vm_compute; reflexivity).
  assert (H10 : (1 < next_id w)%nat) by (vm_compute; lia).
  assert (H11 : promises w !! next_id w = None) by (vm_compute; reflexivity).
  destruct (error_message_rejects_then_server_stops
              w 4%nat 1%nat 0%nat 2%nat 3%nat (VStr "denied")
              H1 H2 H3 H4 H5 H6 H7 H8 H9 H10 H11)
    as (G1 & _ & _ & _ & _ & G2 & _ & G3 & _ & _ & _ & _ & G4 & _).
  split; [exact G1|]. split; [exact G2|]. split; [exact G3 | exact G4].
Defined.

(** C6, on the code: after a restart during a stop.  In
    [session_on_lost_server] the session of procedure 4 is pending on
    server 6, which [server] no longer refers to.  The [error] message of
    the page rejects the result with exactly its payload, and the
    procedure answers the failure only after [stopRecordingServer] has
    resolved, as claimed; but that call finds [server] null and resolves
    at once, so the failure is returned while server 6 is still
    listening. *)
Theorem error_is_answered_while_lost_server_listens :
  let w := run session_on_lost_server (initial "/tmp") in
  let w1 := step (Message 8 (text (envelope "error" (VStr "denied")))) w in
  let w2 := step (Resume 4) w1 in
  let w3 := step (Resume 4) w2 in
  (tasks w !! 4%nat = Some (RouterSession 5) ∧ promises w !! 5%nat = None ∧
   rejectAudioPromise (mv w) = Some 5%nat ∧
   recordingSocket (mv w) = Some 8%nat ∧
   sockets w !! 8%nat = Some (Socket OPEN [Start]) ∧
   server (mv w) = None ∧ servers w !! 6%nat = Some (HttpServer true [])) ∧
  promises w1 !! 5%nat = Some (Rejected (VStr "denied")) ∧
  (answers w2 !! 4%nat = None ∧
   tasks w2 !! 4%nat = Some (RouterStop 9 (VStr "denied")) ∧
   promises w2 !! 9%nat = Some (Resolved VUndefined)) ∧
  answers w3 !! 4%nat =
    Some (Returned
            (VObj [("success", VBool false);
                   ("error", VStr "Failed to start recording session")])) ∧
  servers w3 !! 6%nat = Some (HttpServer true []) ∧
  ¬ nothing_listening w3.
Proof.
  cbn zeta.
  assert (H : servers
                (step (Resume 4)
                   (step (Resume 4)
                      (step (Message 8 (text (envelope "error" (VStr "denied"))))
                         (run session_on_lost_server (initial "/tmp")))))
                !! 6%nat
              = Some (HttpServer true [])) by (vm_compute; reflexivity).
  split; [vm_compute; repeat split; reflexivity|].
  split; [vm_compute; reflexivity|].
  split; [vm_compute; repeat split; reflexivity|].
  split; [vm_compute; reflexivity|].
  split; [exact H|].
  intros Hn. specialize (Hn _ _ H). discriminate Hn.
Qed.

(** ** No page ever connects *)

Lemma settle_quiet (q : nat) (s : settled) : preserves quiet (settle q s).
Proof.
  intros w H. unfold settle, modify, look, mbind, M_bind. cbn.
  destruct (promises w !! q); exact H.
Qed.

Ltac frame_quiet :=
  idtac;
  lazymatch goal with
  | |- preserves _ (settle _ _) => apply settle_quiet
  | |- preserves _ (modify _) =>
      let w := fresh "w" in
      let Hs := fresh "Hs" in
      let Ht := fresh "Ht" in
      apply preserves_modify; intros w (Hs & ? & ? & Ht);
      unfold quiet; cbn; rewrite ?Hs, ?lookup_empty; cbn;
      repeat split; try assumption;
      let t := fresh "t" in
      let k := fresh "k" in
      intros t k;
      rewrite ?lookup_insert, ?lookup_delete;
      repeat case_decide; try discriminate;
      first [ apply Ht | intros [= <-]; reflexivity ]
  end.

Lemma quiet_no_live (w : world) (ws : nat) : quiet w → live ws w = false.
Proof. intros (Hs & _). unfold live. rewrite Hs, lookup_empty. reflexivity. Qed.

Lemma quiet_step (e : event) (w : world) :
  (∀ hw, e ≠ Connection hw) → quiet w → quiet (step e w).
Proof.
  intros Hc. revert w. change (preserves quiet (handle e)).
  destruct e; try solve [unfold_handlers; walk no_binder frame_quiet];
    intros w H; unfold handle, mbind, M_bind, look;
    first
      [ destruct (Hc _ eq_refl)
      | rewrite (quiet_no_live w _ H); exact H
      | destruct (tasks w !! t) as [k|] eqn:Hk; [|exact H];
        destruct k; try exact H;
        destruct H as (_ & _ & _ & Ht); discriminate (Ht _ _ Hk) ].
Qed.

Lemma quiet_run (trace : list event) (w : world) :
  (∀ hw, Connection hw ∉ trace) → quiet w → quiet (run trace w).
Proof.
  revert w. induction trace as [|e trace IH]; intros w Hc H; [exact H|].
  apply IH.
  - intros hw Hin. apply (Hc hw). right. exact Hin.
  - apply quiet_step; [|exact H].
    intros hw ->. apply (Hc hw). left.
Qed.

Lemma quiet_initial (tmpdir : string) : quiet (initial tmpdir).
Proof.
  repeat split. intros t k. cbn. rewrite lookup_empty. discriminate.
Qed.

(** One tick of the interval while no socket is registered. *)
Lemma tick_without_socket (w : world) (p : nat) (checks : Z) :
  recordingSocket (mv w) = None →
  tasks w !! p = Some (Poll checks) →
  step (IntervalTick p) w =
    if Z.ltb 20 checks then
      (settle p (Rejected timeout_error)
         (set_tasks (delete p (tasks w)) w)).2
    else set_tasks (<[p := Poll (checks + 1)]> (tasks w)) w.
Proof.
  intros Hs Hp. unfold step. simp ltac:(rewrite ?Hs, ?Hp).
  destruct (Z.ltb 20 checks); reflexivity.
Qed.

(** *** A promise that the module no longer refers to *)

Lemma preserves_bind_yields {A B} (P : world → Prop) (m : M A) (f : A → M B)
    (φ : A → Prop) :
  yields P m φ → (∀ a, φ a → preserves P (f a)) → preserves P (m ≫= f).
Proof.
  intros Hm Hf w H. unfold mbind, M_bind.
  destruct (Hm w H) as [Ha Hw]. destruct (m w) as [a w']. exact (Hf a Ha w' Hw).
Qed.

Lemma preserves_for_each_in {A} (P : world → Prop) (l : list A)
    (f : A → M unit) :
  (∀ a, a ∈ l → preserves P (f a)) → preserves P (for_each l f).
Proof.
  induction l as [|a l IH]; intros Hf; cbn [for_each].
  - apply preserves_ret.
  - apply preserves_bind; [apply Hf; left | intros _].
    apply IH. intros b Hb. apply Hf. right. exact Hb.
Qed.

Section Kept.
Variables (p : nat) (v : option settled) (k : option task).

Lemma new_kept : yields (kept p v k) new (λ a, a ≠ p).
Proof.
  intros w (Hlt & H). unfold new, look, modify, mbind, M_bind, mret, M_ret.
  cbn. split; [lia|]. split; [cbn; lia | exact H].
Qed.

Lemma resolve_kept :
  yields (kept p v k) (read resolveAudioPromise) (λ a, a ≠ Some p).
Proof. intros w H. split; [apply H | exact H]. Qed.

Lemma reject_kept :
  yields (kept p v k) (read rejectAudioPromise) (λ a, a ≠ Some p).
Proof. intros w H. split; [apply H | exact H]. Qed.

Lemma server_kept (h : nat) :
  yields (kept p v k) (look (λ w, servers w !! h))
    (λ o, ∀ o', o = Some o' → p ∉ close_callbacks o').
Proof.
  intros w H. split; [|exact H]. cbn. intros o' Ho.
  destruct H as (_ & _ & _ & Hs & _). exact (Hs h o' Ho).
Qed.

Lemma settle_kept (q : nat) (s : settled) :
  q ≠ p → preserves (kept p v k) (settle q s).
Proof.
  intros Hne w H. unfold settle, modify, look, mbind, M_bind. cbn.
  destruct (promises w !! q); [exact H|].
  destruct H as (? & ? & ? & ? & Hp & ?). repeat split; try assumption.
  cbn. rewrite lookup_insert_ne by exact Hne. exact Hp.
Qed.
End Kept.

Ltac bind_kept :=
  idtac;
  lazymatch goal with
  | |- preserves _ (mbind _ new) =>
      apply (preserves_bind_yields _ _ _ _ (new_kept _ _ _)); intros ? ?
  | |- preserves _ (mbind _ (read resolveAudioPromise)) =>
      apply (preserves_bind_yields _ _ _ _ (resolve_kept _ _ _)); intros ? ?
  | |- preserves _ (mbind _ (read rejectAudioPromise)) =>
      apply (preserves_bind_yields _ _ _ _ (reject_kept _ _ _)); intros ? ?
  | |- preserves _ (mbind _ (look (λ w, servers w !! _))) =>
      apply (preserves_bind_yields _ _ _ _ (server_kept _ _ _ _)); intros ? ?
  | |- preserves _ (for_each _ _) =>
      apply preserves_for_each_in; intros ? ?
  end.

(** The listeners keep their callbacks free of [p]. *)
Ltac callbacks_kept Hs :=
  let h := fresh "h" in
  let o := fresh "o" in
  let Ho := fresh "Ho" in
  intros h o;
  rewrite ?lookup_insert, ?lookup_alter;
  try case_decide; subst;
  [ try (destruct (servers _ !! _) eqn:Ho; cbn; [|discriminate]);
    intros [= <-]; cbn;
    rewrite ?elem_of_app, ?list_elem_of_singleton;
    first
      [ apply not_elem_of_nil
      | eapply Hs; eassumption
      | intros [?|?]; [eapply Hs; eassumption | congruence] ]
  | apply Hs ].

Ltac frame_kept :=
  idtac;
  lazymatch goal with
  | |- preserves _ (settle _ _) =>
      apply settle_kept;
      first
        [ congruence
        | intros ->;
          match goal with
          | H : ∀ o', Some _ = Some o' → _ ∉ _, Hin : _ ∈ _ |- _ =>
              exact (H _ eq_refl Hin)
          end ]
  | |- preserves _ (modify _) =>
      let Hs := fresh "Hs" in
      apply preserves_modify; intros ? (? & ? & ? & Hs & ? & ?);
      unfold kept; repeat case_match; cbn; repeat split;
      first
        [ assumption
        | lia
        | congruence
        | rewrite lookup_insert_ne by congruence; assumption
        | rewrite lookup_delete_ne by congruence; assumption
        | callbacks_kept Hs ]
  end.

Lemma kept_step (p : nat) (v : option settled) (k : option task)
    (e : event) (w : world) :
  target e ≠ Some p → kept p v k w → kept p v k (step e w).
Proof.
  intros Hc. revert w. change (preserves (kept p v k) (handle e)).
  destruct e; cbn in Hc; unfold_handlers; walk bind_kept frame_kept.
Qed.

(** An event aimed at a task that does not exist changes nothing. *)
Lemma no_task_no_step (e : event) (w : world) (p : nat) :
  target e = Some p → tasks w !! p = None → step e w = w.
Proof.
  intros Ht Hp. unfold step.
  destruct e; try discriminate; injection Ht as ->;
    unfold handle, mbind, M_bind, look; rewrite Hp; reflexivity.
Qed.


(** ** The connection wait *)

(** A polling task ignores the completions it does not wait for. *)
Lemma poll_ignores (e : event) (w : world) (p : nat) (checks : Z) :
  target e = Some p → (∀ t, e ≠ IntervalTick t) →
  tasks w !! p = Some (Poll checks) → step e w = w.
Proof.
  intros Ht Hne Hp. unfold step.
  destruct e; try discriminate; injection Ht as ->;
    try (unfold handle, mbind, M_bind, look; rewrite Hp; reflexivity).
  destruct (Hne p eq_refl).
Qed.

Lemma tick_kept (w : world) (p : nat) (n : nat) :
  recordingSocket (mv w) = None →
  kept p None (Some (Poll (Z.of_nat n))) w →
  if decide (S n < 22)%nat
  then kept p None (Some (Poll (Z.of_nat (S n)))) (step (IntervalTick p) w)
  else (n < 21)%nat ∨
       kept p (Some (Rejected timeout_error)) None (step (IntervalTick p) w).
Proof.
  intros Hs (Hlt & Hr & Hj & Hcb & Hp & Ht).
  rewrite (tick_without_socket w p _ Hs Ht).
  destruct (Z.ltb_spec 20 (Z.of_nat n)) as [Hbig|Hsmall].
  - case_decide; [lia|]. right.
    unfold settle, modify, look, mbind, M_bind. cbn. rewrite Hp. cbn.
    repeat split; try assumption; cbn.
    + apply lookup_insert_eq.
    + apply lookup_delete_eq.
  - case_decide; [|left; lia].
    repeat split; try assumption. cbn.
    rewrite lookup_insert_eq. do 2 f_equal. lia.
Qed.

Lemma waited_step (e : event) (w : world) (p n : nat) :
  (∀ hw, e ≠ Connection hw) →
  waited p n w → waited p (ticks p [e] + n) (step e w).
Proof.
  intros Hc [Hq Hk]. split; [apply quiet_step; assumption|].
  destruct (decide (target e = Some p)) as [Heq|Hne].
  - destruct (decide (n < 22)%nat) as [Hn|Hn].
    + destruct e; try discriminate; injection Heq as ->; cbn [ticks Nat.add].
      4: { rewrite Nat.eqb_refl. cbn [Nat.add].
           pose proof (tick_kept w p n (proj1 (proj2 Hq)) Hk) as Ht.
           case_decide; [exact Ht|].
           destruct Ht as [Ht|Ht]; [lia | exact Ht]. }
      all: rewrite (poll_ignores _ w p (Z.of_nat n))
             by (first [reflexivity | discriminate | apply Hk]).
      all: case_decide; [exact Hk | lia].
    + rewrite (no_task_no_step e w p Heq) by apply Hk.
      case_decide; [lia | exact Hk].
  - assert (Hz : ticks p [e] = 0%nat).
    { destruct e; try reflexivity. cbn.
      destruct (Nat.eqb_spec t p) as [->|]; [|reflexivity].
      destruct Hne. reflexivity. }
    rewrite Hz. cbn [Nat.add].
    case_decide; apply kept_step; assumption.
Qed.

Lemma ticks_cons (p : nat) (e : event) (trace : list event) :
  ticks p (e :: trace) = (ticks p [e] + ticks p trace)%nat.
Proof. destruct e; try reflexivity. cbn. destruct (Nat.eqb t p); reflexivity. Qed.

Lemma waited_run (trace : list event) (w : world) (p n : nat) :
  (∀ hw, Connection hw ∉ trace) →
  waited p n w → waited p (n + ticks p trace) (run trace w).
Proof.
  revert w n. induction trace as [|e trace IH]; intros w n Hc H.
  - cbn. rewrite Nat.add_0_r. exact H.
  - rewrite ticks_cons.
    replace (n + (ticks p [e] + ticks p trace))%nat
      with ((ticks p [e] + n) + ticks p trace)%nat by lia.
    apply IH.
    + intros hw Hin. apply (Hc hw). right. exact Hin.
    + apply waited_step; [|exact H].
      intros hw ->. apply (Hc hw). left.
Qed.

(** X30. The wait on a module to which no page has connected.  No page
    connects, neither before the wait of the call [p] starts nor during
    it, whatever else is delivered meanwhile.  Then no socket exists (so
    no start command was sent to any) and no file has been written; the
    result stays pending and the interval keeps counting through the first
    21 ticks, and the 22nd tick (11 s at one tick per 500 ms) rejects it
    with the timeout error and ends the task. *)
Theorem connection_timeout (tmpdir : string) (before during : list event)
    (p : nat) :
  (∀ hw, Connection hw ∉ (before ++ during)%list) →
  let w := run before (initial tmpdir) in
  kept p None (Some (Poll 0)) w →
  let w' := run during w in
  files w' = ∅ ∧ sockets w' = ∅ ∧ recordingSocket (mv w') = None ∧
  if decide (ticks p during < 22)%nat
  then promises w' !! p = None ∧
       tasks w' !! p = Some (Poll (Z.of_nat (ticks p during)))
  else promises w' !! p =
         Some (Rejected
                 (VError "Timeout waiting for recorder WebSocket connection")) ∧
       tasks w' !! p = None.
Proof.
  intros Hc w Hk w'.
  assert (Hq : quiet w).
  { apply quiet_run; [|apply quiet_initial].
    intros hw Hin. apply (Hc hw), elem_of_app. left. exact Hin. }
  assert (Hw : waited p 0 w) by (split; [exact Hq | exact Hk]).
  apply (waited_run during) in Hw.
  2: { intros hw Hin. apply (Hc hw), elem_of_app. right. exact Hin. }
  cbn [Nat.add] in Hw. destruct Hw as [(Hs & Hr & Hf & _) Hk'].
  fold w' in Hs, Hr, Hf, Hk'.
  repeat split; try assumption.
  case_decide; destruct Hk' as (_ & _ & _ & _ & Hp & Ht); split; assumption.
Qed.

(** A call that starts its wait on a fresh module; a [stopSession] request
    arrives between the ticks. *)
Lemma connection_timeout_witness :
  let before :=
    [CallStartRecordingSession; GetPortDone 0 9000; ListenDone 0 None;
     OpenExternalDone 0 None] in
  let during :=
    (replicate 10 (IntervalTick 0) ++ [CallStopSession]
       ++ replicate 12 (IntervalTick 0))%list in
  let w' := run during (run before (initial "/tmp")) in
  files w' = ∅ ∧
  promises w' !! 0%nat =
    Some (Rejected (VError "Timeout waiting for recorder WebSocket connection")).
Proof.
  intros before during w'.
  set (w := run before (initial "/tmp")).
  assert (Hs : servers w = {[1%nat := HttpServer true []]})
    by (vm_compute; reflexivity).
  assert (Hk : kept 0 None (Some (Poll 0)) w).
  { repeat split; try (vm_compute; reflexivity).
    - vm_compute. lia.
    - vm_compute. discriminate.
    - vm_compute. discriminate.
    - intros h o. rewrite Hs. destruct (decide (h = 1%nat)) as [->|Hne].
      + rewrite lookup_singleton_eq. intros [= <-]. apply not_elem_of_nil.
      + rewrite lookup_singleton_ne by congruence. discriminate. }
  assert (Hc : ∀ hw, Connection hw ∉ (before ++ during)%list).
  { intros hw Hin. subst before during. cbn in Hin.
    repeat (apply elem_of_cons in Hin as [Hin|Hin]; [discriminate|]).
    exact (not_elem_of_nil _ Hin). }
  destruct (connection_timeout "/tmp" before during 0%nat Hc Hk)
    as (Hf & _ & _ & Hp).
  split; [exact Hf|].
  change (ticks 0 during) with 22%nat in Hp.
  destruct (decide (22 < 22)%nat) as [Hlt|_]; [lia | exact (proj1 Hp)].
Defined.

(** C5, on the code: while a page that connected earlier is still alive.
    In [second_session_waiting] no socket is registered when the wait of
    call 6 starts, and none is registered at any point of the wait, during
    which no page connects.  The call is rejected with the timeout error
    by the 22nd tick and no command is sent on any socket, as claimed.
    But the frame that arrives meanwhile on socket 3, which was replaced
    and is not registered, is saved: a file is written during the wait. *)
Theorem stale_frame_is_saved_during_the_wait :
  let w := run second_session_waiting (initial "/tmp") in
  let w' := run wait_with_stale_frame w in
  let path := "/tmp/daily-sync-recordings/recording-2000.wav" in
  (recordingSocket (mv w) = None ∧ tasks w !! 6%nat = Some (Poll 0) ∧
   promises w !! 6%nat = None ∧ files w !! path = None) ∧
  (∀ hw, Connection hw ∉ wait_with_stale_frame) ∧
  (∀ n, recordingSocket (mv (run (take n wait_with_stale_frame) w)) = None) ∧
  promises w' !! 6%nat =
    Some (Rejected (VError "Timeout waiting for recorder WebSocket connection")) ∧
  sockets w' = sockets w ∧
  files w' !! path = Some ["003"; "004"; "005"]%byte.
Proof.
  cbn zeta.
  split; [vm_compute; repeat split; reflexivity|].
  split.
  { intros hw Hin. unfold wait_with_stale_frame in Hin. cbn in Hin.
    repeat (apply elem_of_cons in Hin as [Hin|Hin]; [discriminate|]).
    exact (not_elem_of_nil _ Hin). }
  split.
  { intros n.
    do 25 (destruct n as [|n]; [vm_compute; reflexivity|]).
    rewrite take_ge by (vm_compute; lia). vm_compute. reflexivity. }
  split; [vm_compute; reflexivity|].
  split; vm_compute; reflexivity.
Qed.

(** ** Overlapping sessions *)




(** * Further properties

    What the code does beyond the statements above, part by part: the host
    module, the recorder page, the two together, and the sign-in flow. *)

(** ** The transport, for arbitrary arrays of integers *)

Lemma ToUint8_value (z : Z) : Z.of_N (Byte.to_N (ToUint8 z)) = z mod 256.
Proof.
  unfold ToUint8. change 255 with (Z.ones 8).
  rewrite Z.land_ones by lia. change (2 ^ 8) with 256.
  assert (H : 0 ≤ z mod 256 < 256) by (apply Z.mod_pos_bound; lia).
  destruct (Byte.of_N (Z.to_N (z mod 256))) as [b|] eqn:E; cbn.
  - apply Byte.to_of_N in E. rewrite E. lia.
  - apply Byte.of_N_None_iff in E. lia.
Qed.

Lemma Array_from_Buffer_from (data : list Z) :
  Array_from (Buffer_from data) = map (λ z, z mod 256) data.
Proof.
  unfold Array_from, Buffer_from. rewrite map_map.
  apply map_ext. intros z. apply ToUint8_value.
Qed.

Lemma Buffer_from_Array_from (bytes : list byte) :
  Buffer_from (Array_from bytes) = bytes.
Proof.
  unfold Buffer_from, Array_from. rewrite map_map.
  rewrite <- (map_id bytes) at 2. apply map_ext. apply ToUint8_of_byte.
Qed.

(** ** Frames received by the host *)

(** X1. An [audioBlob] frame whose [data] is an array of integers,
    whatever the integers (negative or above 255), starts one
    [saveAudioData] run.  When no other run overlaps it, the pending result
    is resolved with the path of a file that holds one byte for each
    entry, the entry modulo 256; or, when the directory or the file cannot
    be written, it is rejected with that error and no file is written.
    Either way both callbacks are cleared and the task is over. *)

Theorem audioBlob_array_is_saved (w : world) (ws p : nat) (bytes : list byte)
    (b : bool) (data : list Z) (now : Z) (r : fs_result) :
  live ws w = true →
  resolveAudioPromise (mv w) = Some p →
  rejectAudioPromise (mv w) = Some p →
  promises w !! p = None →
  let path := recording_path (os_tmpdir w) now in
  let message := envelope "audioBlob" (VObj [("data", VArr data)]) in
  let w' :=
    run (Message ws (Frame bytes b (Some message))
           :: save_events (next_id w) now r) w in
  resolveAudioPromise (mv w') = None ∧
  rejectAudioPromise (mv w') = None ∧
  tasks w' !! next_id w = None ∧
  match r with
  | Saved =>
      promises w' !! p = Some (Resolved (VStr path)) ∧
      audioFilePath (mv w') = Some path ∧
      ∃ content,
        files w' = <[path := content]> (files w) ∧
        length content = length data ∧
        Array_from content = map (λ z, z mod 256) data
  | MkdirFailed e | WriteFailed e =>
      promises w' !! p = Some (Rejected (VError e)) ∧
      audioFilePath (mv w') = None ∧
      files w' = files w
  end.
Proof.
  intros Hl Hr Hj Hp. cbn zeta.
  destruct r as [|e|e]; unfold save_events; rewrite !run_cons, run_nil.
  - eval_step ltac:(rewrite ?Hl).
    eval_step ltac:(rewrite ?lookup_insert_eq).
    eval_step ltac:(rewrite ?lookup_insert_eq, ?Hr, ?Hp).
    cbn. rewrite !lookup_insert_eq, lookup_delete_eq.
    repeat split; try done.
    exists (Buffer_from data). repeat split.
    + unfold Buffer_from. apply length_map.
    + apply Array_from_Buffer_from.
  - eval_step ltac:(rewrite ?Hl).
    eval_step ltac:(rewrite ?lookup_insert_eq, ?Hj, ?Hp).
    cbn. rewrite lookup_insert_eq, lookup_delete_eq. done.
  - eval_step ltac:(rewrite ?Hl).
    eval_step ltac:(rewrite ?lookup_insert_eq).
    eval_step ltac:(rewrite ?lookup_insert_eq, ?Hj, ?Hp).
    cbn. rewrite lookup_insert_eq, lookup_delete_eq. done.
Qed.

Lemma audioBlob_array_is_saved_witness :
  let w := run session_started (initial "/tmp") in
  let message := envelope "audioBlob" (VObj [("data", VArr [1; 2; 300])]) in
  let w' :=
    run (Message 3 (Frame [] true (Some message))
           :: save_events (next_id w) 1000 Saved) w in
  resolveAudioPromise (mv w') = None ∧
  promises w' !! 0%nat
    = Some (Resolved (VStr (recording_path (os_tmpdir w) 1000))).
Proof.
  intros w message w'.
  assert (H1 : live 3 w = true) by (vm_compute; reflexivity).
  assert (H2 : resolveAudioPromise (mv w) = Some 0%nat)
    by (vm_compute; reflexivity).
  assert (H3 : rejectAudioPromise (mv w) = Some 0%nat)
    by (vm_compute; reflexivity).
  assert (H4 : promises w !! 0%nat = None) by (vm_compute; reflexivity).
  destruct (audioBlob_array_is_saved w 3%nat 0%nat [] true [1; 2; 300] 1000
              Saved H1 H2 H3 H4) as (G1 & _ & _ & G2 & _).
  split; [exact G1 | exact G2].
Defined.

(** X2. A frame that is a [Buffer] and is not JSON, or is the JSON text
    [null], is taken to be the audio itself: its bytes are written to the
    file as they are, and the pending result is resolved with the path. *)

Theorem unparsable_buffer_is_saved_as_audio (w : world) (ws p : nat)
    (bytes : list byte) (parsed : option value) (now : Z) :
  parsed = None ∨ parsed = Some VNull →
  live ws w = true →
  resolveAudioPromise (mv w) = Some p →
  promises w !! p = None →
  let path := recording_path (os_tmpdir w) now in
  let w' :=
    run (Message ws (Frame bytes true parsed)
           :: save_events (next_id w) now Saved) w in
  files w' = <[path := bytes]> (files w) ∧
  promises w' !! p = Some (Resolved (VStr path)).
Proof.
  intros Hparsed Hl Hr Hp. cbn zeta.
  unfold save_events; rewrite !run_cons, run_nil.
  destruct Hparsed as [-> | ->].
  - eval_step ltac:(rewrite ?Hl).
    eval_step ltac:(rewrite ?lookup_insert_eq).
    eval_step ltac:(rewrite ?lookup_insert_eq, ?Hr, ?Hp).
    cbn. rewrite !lookup_insert_eq. done.
  - eval_step ltac:(rewrite ?Hl).
    eval_step ltac:(rewrite ?lookup_insert_eq).
    eval_step ltac:(rewrite ?lookup_insert_eq, ?Hr, ?Hp).
    cbn. rewrite !lookup_insert_eq. done.
Qed.

Lemma unparsable_buffer_is_saved_as_audio_witness :
  let w := run session_started (initial "/tmp") in
  let w' :=
    run (Message 3 (Frame ["082"; "073"; "070"; "070"]%byte true None)
           :: save_events (next_id w) 1000 Saved) w in
  files w' = <[recording_path (os_tmpdir w) 1000 :=
                 ["082"; "073"; "070"; "070"]%byte]> (files w).
Proof.
  intros w w'.
  assert (H1 : live 3 w = true) by (vm_compute; reflexivity).
  assert (H2 : resolveAudioPromise (mv w) = Some 0%nat)
    by (vm_compute; reflexivity).
  assert (H3 : promises w !! 0%nat = None) by (vm_compute; reflexivity).
  destruct (unparsable_buffer_is_saved_as_audio w 3%nat 0%nat
              ["082"; "073"; "070"; "070"]%byte None 1000
              (or_introl eq_refl) H1 H2 H3) as (G & _).
  exact G.
Defined.

(** X3. Two kinds of frame reject the pending result with a fixed text
    and change nothing else: a frame that is not a [Buffer] and cannot be
    parsed ("Invalid message format received"), and an [audioBlob] message
    whose [data] is not an array ("Invalid audio data format received").
    No file is written, no task starts, and the callbacks stay set. *)

Theorem invalid_frames_reject_the_result (w : world) (ws p : nat)
    (bytes : list byte) :
  live ws w = true →
  rejectAudioPromise (mv w) = Some p →
  promises w !! p = None →
  (∀ parsed,
     parsed = None ∨ parsed = Some VNull →
     let w1 := step (Message ws (Frame bytes false parsed)) w in
     promises w1 = <[p := Rejected (VStr "Invalid message format received")]>
                     (promises w) ∧
     mv w1 = mv w ∧ files w1 = files w ∧ tasks w1 = tasks w)
  ∧
  (∀ (b : bool) (data : value),
     (∀ l, data ≠ VArr l) →
     let message := envelope "audioBlob" (VObj [("data", data)]) in
     let w1 := step (Message ws (Frame bytes b (Some message))) w in
     promises w1 = <[p := Rejected (VStr "Invalid audio data format received")]>
                     (promises w) ∧
     mv w1 = mv w ∧ files w1 = files w ∧ tasks w1 = tasks w).
Proof.
  intros Hl Hj Hp. split.
  - intros parsed [-> | ->]; cbn zeta.
    + eval_step ltac:(rewrite ?Hl, ?Hj, ?Hp). cbn. by destruct (mv w).
    + eval_step ltac:(rewrite ?Hl, ?Hj, ?Hp). cbn. by destruct (mv w).
  - intros b data Hdata. cbn zeta.
    destruct data; try (exfalso; by eapply Hdata);
      eval_step ltac:(rewrite ?Hl, ?Hj, ?Hp); cbn; by destruct (mv w).
Qed.

Lemma invalid_frames_reject_the_result_witness :
  let w := run session_started (initial "/tmp") in
  let message := envelope "audioBlob" (VObj [("data", VStr "UklGRg==")]) in
  let w1 := step (Message 3 (Frame [] true (Some message))) w in
  promises w1 = <[0%nat := Rejected (VStr "Invalid audio data format received")]>
                  (promises w) ∧
  mv w1 = mv w.
Proof.
  intros w message w1.
  assert (H1 : live 3 w = true) by (vm_compute; reflexivity).
  assert (H2 : rejectAudioPromise (mv w) = Some 0%nat)
    by (vm_compute; reflexivity).
  assert (H3 : promises w !! 0%nat = None) by (vm_compute; reflexivity).
  destruct (invalid_frames_reject_the_result w 3%nat 0%nat [] H1 H2 H3)
    as [_ G].
  destruct (G true (VStr "UklGRg==") ltac:(discriminate)) as (G1 & G2 & _).
  split; [exact G1 | exact G2].
Defined.

(** X4. Every other parsed message (a [status] message, a message of an
    unknown type, an [audioBlob] message without a [data] field, a JSON
    number or string) only adds lines to the console: no variable,
    promise, file, task or socket changes. *)

Theorem other_messages_only_log (w : world) (ws : nat) (m : frame)
    (v : value) :
  JSON_parse m = Some v →
  v ≠ VNull → v ≠ VUndefined →
  is_str (get v "type") "error" = false →
  is_str (get v "type") "audioBlob" && instanceof_Object (get v "payload")
    && has_key "data" (get v "payload") = false →
  ∃ lines, step (Message ws m) w = set_console (console w ++ lines) w.
Proof.
  intros Hm Hn Hu He Ha. unfold step, handle, mbind, M_bind, look.
  destruct (live ws w).
  - unfold on_message. rewrite Hm.
    assert (Hlog : ∀ (c : bool) (a b : list value),
      ∃ lines,
        ((console_ Log a;; if c then console_ Log b else skip) w).2
          = set_console (console w ++ lines) w).
    { intros [] a b; eexists; unfold_model; cbn; unfold set_console; cbn;
        rewrite <- ?app_assoc; reflexivity. }
    destruct v; try done; rewrite ?He, ?Ha; apply Hlog.
  - exists []. rewrite app_nil_r. by destruct w.
Qed.

Lemma other_messages_only_log_witness :
  let w := run session_started (initial "/tmp") in
  let m := text (envelope "status" (VStr "Recording started.")) in
  ∃ lines, step (Message 3 m) w = set_console (console w ++ lines) w.
Proof.
  intros w m.
  apply (other_messages_only_log w 3%nat m
           (envelope "status" (VStr "Recording started."))).
  - reflexivity.
  - discriminate.
  - discriminate.
  - reflexivity.
  - reflexivity.
Defined.

(** X5. Once the page has reported an error the result is rejected, but
    the callbacks stay set: an [audioBlob] message that follows is still
    written to a file, its call of the resolver has no effect on the
    rejected result, and only then are the callbacks cleared. *)

Theorem audio_after_error_is_saved_but_result_stays_rejected
    (w : world) (ws p : nat) (payload : value) (data : list Z) (now : Z) :
  live ws w = true →
  resolveAudioPromise (mv w) = Some p →
  rejectAudioPromise (mv w) = Some p →
  promises w !! p = None →
  let path := recording_path (os_tmpdir w) now in
  let w1 := step (Message ws (text (envelope "error" payload))) w in
  let w2 :=
    run (Message ws (text (envelope "audioBlob" (VObj [("data", VArr data)])))
           :: save_events (next_id w) now Saved) w1 in
  promises w1 !! p = Some (Rejected payload) ∧
  resolveAudioPromise (mv w1) = Some p ∧
  rejectAudioPromise (mv w1) = Some p ∧
  promises w2 !! p = Some (Rejected payload) ∧
  files w2 = <[path := Buffer_from data]> (files w) ∧
  resolveAudioPromise (mv w2) = None ∧
  rejectAudioPromise (mv w2) = None.
Proof.
  intros Hl Hr Hj Hp. cbn zeta.
  assert (Hlive : ∀ w', sockets w' = sockets w → live ws w' = true).
  { intros w' E. unfold live. rewrite E. exact Hl. }
  unfold save_events; rewrite !run_cons, run_nil.
  eval_step ltac:(rewrite ?Hl, ?Hr, ?Hj, ?Hp).
  split; [cbn; by rewrite lookup_insert_eq|].
  split; [cbn; by destruct (mv w)|].
  split; [cbn; by destruct (mv w)|].
  eval_step ltac:(rewrite ?Hlive by reflexivity).
  eval_step ltac:(rewrite ?lookup_insert_eq).
  eval_step ltac:(rewrite ?lookup_insert_eq, ?Hr).
  cbn. rewrite !lookup_insert_eq. done.
Qed.

Lemma audio_after_error_is_saved_but_result_stays_rejected_witness :
  let w := run session_started (initial "/tmp") in
  let w1 := step (Message 3 (text (envelope "error" (VStr "denied")))) w in
  let w2 :=
    run (Message 3 (text (envelope "audioBlob" (VObj [("data", VArr [7])])))
           :: save_events (next_id w) 1000 Saved) w1 in
  promises w2 !! 0%nat = Some (Rejected (VStr "denied")) ∧
  files w2 = <[recording_path (os_tmpdir w) 1000 := Buffer_from [7]]> (files w).
Proof.
  intros w w1 w2.
  assert (H1 : live 3 w = true) by (vm_compute; reflexivity).
  assert (H2 : resolveAudioPromise (mv w) = Some 0%nat)
    by (vm_compute; reflexivity).
  assert (H3 : rejectAudioPromise (mv w) = Some 0%nat)
    by (vm_compute; reflexivity).
  assert (H4 : promises w !! 0%nat = None) by (vm_compute; reflexivity).
  destruct (audio_after_error_is_saved_but_result_stays_rejected
              w 3%nat 0%nat (VStr "denied") [7] 1000 H1 H2 H3 H4)
    as (_ & _ & _ & G1 & G2 & _).
  split; [exact G1 | exact G2].
Defined.

(** ** Connections and the stop request *)

(** X6. A connection accepted by the channel is registered as the
    recording socket, open and with nothing sent on it.  The socket
    registered before, if it is open, is told to close; every other socket
    is left as it is, and no promise, file or task changes. *)

Theorem connection_registers_newest_socket (w : world) (hw : nat) :
  accepting hw w = true →
  sockets w !! next_id w = None →
  recordingSocket (mv w) ≠ Some (next_id w) →
  let ws := next_id w in
  let w1 := step (Connection hw) w in
  recordingSocket (mv w1) = Some ws ∧
  sockets w1 !! ws = Some (Socket OPEN []) ∧
  (∀ old out,
     recordingSocket (mv w) = Some old →
     sockets w !! old = Some (Socket OPEN out) →
     sockets w1 !! old = Some (Socket CLOSING out)) ∧
  (∀ other,
     other ≠ ws →
     recordingSocket (mv w) ≠ Some other →
     sockets w1 !! other = sockets w !! other) ∧
  promises w1 = promises w ∧ calls w1 = calls w ∧ files w1 = files w ∧
  tasks w1 = tasks w.
Proof.
  intros Hacc Hnew Hreg'. cbn zeta.
  destruct (recordingSocket (mv w)) as [reg|] eqn:Hreg.
  - assert (Hne : reg ≠ next_id w) by congruence.
    destruct (sockets w !! reg) as [[[] out]|] eqn:Hs;
      eval_step ltac:(rewrite ?Hacc, ?Hreg, ?Hs, ?lookup_insert_ne by done);
      cbn; rewrite ?lookup_insert_eq, ?lookup_insert_ne by done;
      rewrite ?lookup_insert_eq;
      (repeat split; try done;
       [ intros old out' [= <-] Ho; simplify_eq;
         rewrite ?lookup_insert_eq; done
       | intros other Ho Hr; rewrite !lookup_insert_ne by congruence; done ]).
  - eval_step ltac:(rewrite ?Hacc, ?Hreg). cbn.
    rewrite lookup_insert_eq. repeat split; try done.
    intros other Ho _. rewrite lookup_insert_ne; done.
Qed.

Lemma connection_registers_newest_socket_witness :
  let w := run session_started (initial "/tmp") in
  let w1 := step (Connection 2) w in
  recordingSocket (mv w1) = Some (next_id w) ∧
  sockets w1 !! 3%nat = Some (Socket CLOSING [Start]).
Proof.
  intros w w1.
  assert (H1 : accepting 2 w = true) by (vm_compute; reflexivity).
  assert (H2 : sockets w !! next_id w = None) by (vm_compute; reflexivity).
  assert (H3 : recordingSocket (mv w) ≠ Some (next_id w))
    by (vm_compute; discriminate).
  assert (H4 : recordingSocket (mv w) = Some 3%nat)
    by (vm_compute; reflexivity).
  assert (H5 : sockets w !! 3%nat = Some (Socket OPEN [Start]))
    by (vm_compute; reflexivity).
  destruct (connection_registers_newest_socket w 2%nat H1 H2 H3)
    as (G1 & _ & G2 & _).
  split; [exact G1 | exact (G2 3%nat [Start] H4 H5)].
Defined.

(** X7. A [stopSession] request made while a page is connected sends the
    stop command on the registered socket and answers [{success: true}];
    it settles no promise and touches no file, task or variable: the
    result stays pending until the page answers. *)

Theorem stopSession_with_client_only_sends_stop (w : world) (ws : nat)
    (out : list command) :
  recordingSocket (mv w) = Some ws →
  sockets w !! ws = Some (Socket OPEN out) →
  let w1 := step CallStopSession w in
  sockets w1 = <[ws := Socket OPEN (out ++ [Stop])]> (sockets w) ∧
  answers w1 !! next_id w = Some (Returned (VObj [("success", VBool true)])) ∧
  mv w1 = mv w ∧ promises w1 = promises w ∧ calls w1 = calls w ∧
  files w1 = files w ∧ tasks w1 = tasks w.
Proof.
  intros Hs Ho. cbn zeta. eval_step ltac:(rewrite ?Hs, ?Ho).
  cbn. rewrite lookup_insert_eq. by destruct (mv w).
Qed.

Lemma stopSession_with_client_only_sends_stop_witness :
  let w := run session_started (initial "/tmp") in
  let w1 := step CallStopSession w in
  sockets w1 = <[3%nat := Socket OPEN [Start; Stop]]> (sockets w) ∧
  promises w1 = promises w.
Proof.
  intros w w1.
  assert (H1 : recordingSocket (mv w) = Some 3%nat)
    by (vm_compute; reflexivity).
  assert (H2 : sockets w !! 3%nat = Some (Socket OPEN [Start]))
    by (vm_compute; reflexivity).
  destruct (stopSession_with_client_only_sends_stop w 3%nat [Start] H1 H2)
    as (G1 & _ & _ & G2 & _).
  split; [exact G1 | exact G2].
Defined.

(** ** The procedures of the router, from request to answer *)

(** X8. A [startSession] request that no page answers: for twenty-one
    ticks the result is pending and the server listens; the twenty-second
    tick rejects it, the procedure stops the server and, once the server
    has closed, answers [{success: false}] with the text of the timeout
    error.  Nothing is listening afterwards and no file exists. *)

Theorem startSession_without_page_answers_timeout (tmpdir : string) (port : Z) :
  let waiting :=
    run (routed_startup port ++ replicate 21 (IntervalTick 1)) (initial tmpdir) in
  let timed_out := step (IntervalTick 1) waiting in
  let w := run server_stopped timed_out in
  promises waiting !! 1%nat = None ∧
  servers waiting !! 2%nat = Some (HttpServer true []) ∧
  promises timed_out !! 1%nat = Some (Rejected timeout_error) ∧
  answers timed_out !! 0%nat = None ∧
  answers w !! 0%nat =
    Some (Returned
            (VObj [("success", VBool false);
                   ("error",
                    VStr "Timeout waiting for recorder WebSocket connection")])) ∧
  server (mv w) = None ∧ wss (mv w) = None ∧ currentPort (mv w) = None ∧
  servers w !! 2%nat = Some (HttpServer false []) ∧
  tasks w = ∅ ∧ files w = ∅ ∧ sockets w = ∅.
Proof. vm_compute. repeat split; reflexivity. Qed.

(** X9. A [startSession] request whose server cannot be bound, or whose
    page cannot be opened: the call is rejected with that error, the
    procedure stops the server and then answers [{success: false}] with
    the error's message, or with the generic text when the message is
    empty.  No task is left. *)


(** From the [audioBlob] frame to the answer of the procedure that waits
    for the result. *)

Lemma clip_saved_and_answered (w : world) (ws p r : nat) (bytes : list byte)
    (now : Z) :
  live ws w = true →
  resolveAudioPromise (mv w) = Some p →
  promises w !! p = None →
  tasks w !! r = Some (RouterSession p) →
  r ≠ next_id w →
  let path := recording_path (os_tmpdir w) now in
  let saved :=
    run [Message ws (text (audioBlob_message bytes));
         MkdirDone (next_id w) None now; WriteFileDone (next_id w) None] w in
  let w' := step (Resume r) saved in
  files saved = <[path := bytes]> (files w) ∧
  promises saved !! p = Some (Resolved (VStr path)) ∧
  answers w' =
    <[r := Returned (VObj [("success", VBool true); ("filePath", VStr path)])]>
      (answers w) ∧
  files w' = <[path := bytes]> (files w) ∧
  servers w' = servers w ∧
  tasks w' !! r = None ∧ tasks w' !! next_id w = None ∧
  ∀ t, t ≠ next_id w → t ≠ r → tasks w' !! t = tasks w !! t.
Proof.
  intros Hl Hr Hp Ht Hne. cbn zeta. rewrite !run_cons, run_nil.
  eval_step ltac:(rewrite ?Hl).
  eval_step ltac:(rewrite ?lookup_insert_eq).
  eval_step ltac:(rewrite ?lookup_insert_eq, ?Hr, ?Hp).
  cbn. rewrite !Buffer_from_Array_from, !lookup_insert_eq.
  split; [reflexivity|]. split; [reflexivity|].
  eval_step ltac:(rewrite ?lookup_insert_eq, ?lookup_delete_eq,
                    ?lookup_insert_ne, ?lookup_delete_ne, ?Ht by done).
  cbn. rewrite lookup_delete_eq.
  split; [reflexivity|]. split; [reflexivity|]. split; [reflexivity|].
  split; [reflexivity|].
  split.
  - rewrite lookup_delete_ne, lookup_delete_eq by done. reflexivity.
  - intros t H1 H2.
    rewrite !lookup_delete_ne, !lookup_insert_ne by done. reflexivity.
Qed.

(** X10. A whole session, from the module as loaded: the request starts
    the server and opens the page, the page connects and is sent the start
    command, a stop request sends the stop command, and the clip that
    comes back is written to a file whose path is the answer of
    [startSession].  The file holds the bytes of the clip, the server is
    still listening and no task is left. *)

Theorem recorded_session_end_to_end
    (tmpdir : string) (port : Z) (bytes : list byte) (now : Z) :
  let path := recording_path tmpdir now in
  let recording :=
    run (routed_startup port ++ [Connection 3; IntervalTick 1])
      (initial tmpdir) in
  let stopping := step CallStopSession recording in
  let saved :=
    run [Message 4 (text (audioBlob_message bytes));
         MkdirDone 6 None now; WriteFileDone 6 None] stopping in
  let w := step (Resume 0) saved in
  sockets recording !! 4%nat = Some (Socket OPEN [Start]) ∧
  promises recording !! 1%nat = None ∧
  sockets stopping !! 4%nat = Some (Socket OPEN [Start; Stop]) ∧
  promises stopping !! 1%nat = None ∧
  answers stopping !! 0%nat = None ∧
  files saved = {[ path := bytes ]} ∧
  promises saved !! 1%nat = Some (Resolved (VStr path)) ∧
  answers w !! 0%nat =
    Some (Returned (VObj [("success", VBool true); ("filePath", VStr path)])) ∧
  answers w !! 5%nat = Some (Returned (VObj [("success", VBool true)])) ∧
  files w = {[ path := bytes ]} ∧
  servers w !! 2%nat = Some (HttpServer true []) ∧
  ∀ t, tasks w !! t = None.
Proof.
  cbn zeta.
  split; [vm_compute; reflexivity|].
  split; [vm_compute; reflexivity|].
  split; [vm_compute; reflexivity|].
  split; [vm_compute; reflexivity|].
  split; [vm_compute; reflexivity|].
  set (W := step CallStopSession _).
  assert (Hl : live 4 W = true) by (vm_compute; reflexivity).
  assert (Hn : next_id W = 6%nat) by (vm_compute; reflexivity).
  assert (Ht : tasks W = {[ 0%nat := RouterSession 1 ]})
    by (vm_compute; reflexivity).
  assert (Hr : resolveAudioPromise (mv W) = Some 1%nat)
    by (vm_compute; reflexivity).
  assert (Hp : promises W !! 1%nat = None) by (vm_compute; reflexivity).
  assert (Hf : files W = ∅) by (vm_compute; reflexivity).
  assert (Hd : os_tmpdir W = tmpdir) by (vm_compute; reflexivity).
  assert (Ha : answers W !! 5%nat
               = Some (Returned (VObj [("success", VBool true)])))
    by (vm_compute; reflexivity).
  assert (Hs : servers W !! 2%nat = Some (HttpServer true []))
    by (vm_compute; reflexivity).
  clearbody W.
  assert (Ht0 : tasks W !! 0%nat = Some (RouterSession 1))
    by (rewrite Ht; apply lookup_singleton_eq).
  assert (Hne : 0%nat ≠ next_id W) by (rewrite Hn; done).
  pose proof (clip_saved_and_answered W 4 1 0 bytes now Hl Hr Hp Ht0 Hne) as H.
  cbn zeta in H. rewrite Hn, Hd, Hf, insert_empty in H.
  destruct H as (H1 & H2 & H3 & H4 & H5 & H6 & H7 & H8).
  split; [exact H1|]. split; [exact H2|].
  rewrite H3, H4, H5, lookup_insert_eq, lookup_insert_ne, Ha, Hs by done.
  do 4 (split; [reflexivity|]).
  intros t. destruct (decide (t = 6%nat)) as [->|]; [exact H7|].
  destruct (decide (t = 0%nat)) as [->|]; [exact H6|].
  rewrite H8, Ht by done. by apply lookup_singleton_ne.
Qed.

(** ** Stopping and restarting the server *)

(** X11. After [stopRecordingServer] has completed, a new session binds a
    new server and a new channel on the port that [getPort] returns; the
    old server stays closed and its channel accepts nothing. *)

Theorem restart_after_stop_binds_a_new_server (tmpdir : string) (port port' : Z) :
  let stopped :=
    run (server_started port ++
         [CallStopRecordingServer; WssClose 2; ServerClose 1])
      (initial tmpdir) in
  let w := run [CallStartRecordingSession; GetPortDone 4 port';
                ListenDone 4 None] stopped in
  server (mv stopped) = None ∧ wss (mv stopped) = None ∧
  currentPort (mv stopped) = None ∧
  promises stopped !! 3%nat = Some (Resolved VUndefined) ∧
  server (mv w) = Some 5%nat ∧ wss (mv w) = Some 6%nat ∧
  currentPort (mv w) = Some port' ∧
  servers w !! 5%nat = Some (HttpServer true []) ∧
  servers w !! 1%nat = Some (HttpServer false []) ∧
  accepting 6 w = true ∧ accepting 2 w = false ∧
  tasks w !! 4%nat = Some OpenExternal.
Proof. vm_compute. repeat split; reflexivity. Qed.

(** X12. When a new session starts after [stopRecordingServer] was
    called and before the old server has emitted ['close'], the close
    callback of the old server runs afterwards and clears [server] and
    [currentPort], which by then refer to the new server.  The new server
    keeps listening, and a later [stopRecordingServer] resolves at once
    without closing it. *)

Theorem restart_during_stop_loses_the_new_server (tmpdir : string)
    (port port' : Z) :
  let restarted :=
    run (server_started port ++
         [CallStopRecordingServer; WssClose 2;
          CallStartRecordingSession; GetPortDone 4 port'; ListenDone 4 None])
      (initial tmpdir) in
  let closed := step (ServerClose 1) restarted in
  let w := step CallStopRecordingServer closed in
  (server (mv restarted) = Some 5%nat ∧ wss (mv restarted) = Some 6%nat ∧
   currentPort (mv restarted) = Some port' ∧
   servers restarted !! 5%nat = Some (HttpServer true [])) ∧
  (server (mv closed) = None ∧ currentPort (mv closed) = None ∧
   promises closed !! 3%nat = Some (Resolved VUndefined) ∧
   servers closed !! 5%nat = Some (HttpServer true [])) ∧
  (promises w !! 7%nat = Some (Resolved VUndefined) ∧
   servers w !! 5%nat = Some (HttpServer true [])).
Proof. vm_compute. repeat split; reflexivity. Qed.

(** X13. [stopRecordingServer] never settles the result of a session: with
    a result pending, stopping the server clears the server, channel,
    socket and port variables and resolves its own promise, while the
    result stays pending and its callbacks stay set. *)

Theorem stopping_the_server_leaves_the_result_pending
    (w : world) (p h hw : nat) :
  resolveAudioPromise (mv w) = Some p →
  rejectAudioPromise (mv w) = Some p →
  promises w !! p = None →
  server (mv w) = Some h →
  servers w !! h = Some (HttpServer true []) →
  wss (mv w) = Some hw →
  wsservers w !! hw = Some (WsServer h false 0) →
  p ≠ next_id w →
  promises w !! next_id w = None →
  let s := next_id w in
  let w' := run [CallStopRecordingServer; WssClose hw; ServerClose h] w in
  promises w' !! s = Some (Resolved VUndefined) ∧
  server (mv w') = None ∧ wss (mv w') = None ∧
  recordingSocket (mv w') = None ∧ currentPort (mv w') = None ∧
  servers w' !! h = Some (HttpServer false []) ∧
  promises w' !! p = None ∧
  resolveAudioPromise (mv w') = Some p ∧
  rejectAudioPromise (mv w') = Some p ∧
  sockets w' = sockets w ∧ tasks w' = tasks w.
Proof.
  intros Hr Hj Hp Hs Hh Hc Hhw Hne Hfresh. cbn zeta.
  rewrite !run_cons, run_nil.
  eval_step ltac:(rewrite ?Hs, ?Hc).
  eval_step ltac:(rewrite ?lookup_alter_eq, ?Hhw).
  eval_step ltac:(rewrite ?lookup_alter_eq, ?Hh, ?lookup_insert_ne,
                    ?Hfresh by congruence).
  cbn. rewrite !lookup_insert_eq, lookup_insert_ne, Hp, Hr, Hj by done.
  repeat split; reflexivity.
Qed.

Lemma stopping_the_server_leaves_the_result_pending_witness :
  let w := run session_started (initial "/tmp") in
  let w' := run [CallStopRecordingServer; WssClose 2; ServerClose 1] w in
  server (mv w') = None ∧
  promises w' !! 0%nat = None ∧
  resolveAudioPromise (mv w') = Some 0%nat.
Proof.
  intros w w'.
  assert (H1 : resolveAudioPromise (mv w) = Some 0%nat)
    by (vm_compute; reflexivity).
  assert (H2 : rejectAudioPromise (mv w) = Some 0%nat)
    by (vm_compute; reflexivity).
  assert (H3 : promises w !! 0%nat = None) by (vm_compute; reflexivity).
  assert (H4 : server (mv w) = Some 1%nat) by (vm_compute; reflexivity).
  assert (H5 : servers w !! 1%nat = Some (HttpServer true []))
    by (vm_compute; reflexivity).
  assert (H6 : wss (mv w) = Some 2%nat) by (vm_compute; reflexivity).
  assert (H7 : wsservers w !! 2%nat = Some (WsServer 1 false 0))
    by (vm_compute; reflexivity).
  assert (H8 : 0%nat ≠ next_id w) by (vm_compute; discriminate).
  assert (H9 : promises w !! next_id w = None) by (vm_compute; reflexivity).
  destruct (stopping_the_server_leaves_the_result_pending
              w 0%nat 1%nat 2%nat H1 H2 H3 H4 H5 H6 H7 H8 H9)
    as (_ & G1 & _ & _ & _ & _ & G2 & G3 & _).
  split; [exact G1|]. split; [exact G2 | exact G3].
Defined.

(** ** Symbolic execution of a handler, one bind at a time

    [exec] evaluates a computation of a state monad on a state given by
    its fields.  [bind] applies the rule of the monad for [≫=], [special]
    solves the calls that have a lemma of their own, and [tac] rewrites
    with what is known of the stores. *)

Ltac head_of t :=
  lazymatch t with
  | ?f _ => head_of f
  | _ => t
  end.

Ltac exec bind special tac :=
  lazy beta zeta;
  first
    [ special
    | lazymatch goal with
      | |- mbind _ _ _ = _ =>
          bind; [exec bind special tac | exec bind special tac]
      | |- (_, _) = _ => cbn; tac; reflexivity
      | |- (match ?s with _ => _ end) _ = _ =>
          first
            [ progress (let s' := eval cbn in s in change s with s';
                        lazy beta iota)
            | progress tac ];
          exec bind special tac
      | |- ?c _ = _ => let h := head_of c in unfold h; exec bind special tac
      end ].

(** * The recorder page *)

Section RecorderPage.
Import Recorder.

Ltac unfold_page :=
  unfold handle, connectWebSocket, ws_onopen, ws_onmessage, ws_onerror,
    ws_onclose, beforeunload, startRecording, startRecording_catch,
    startRecording_after_getUserMedia, startRecording_after_getDisplayMedia,
    new_stream, has_audio, connected_source, ondataavailable, onstop,
    onstop_after_arrayBuffer, onerror, stopRecording,
    recorder_state_now, recorder_stop, stop_tracks, disconnect,
    displayError, sendMessage, ws_send, ws_open, updateStatus,
    set_readyState, throw, suspend, finish, console_, new, skip, assign,
    modify, look, read, mbind, P_bind, mret, P_ret in *.

(** ** cleanupStreams, block by block *)

Lemma cleanup_recorder_effect (p : page) :
  cleanup_recorder p =
    (tt,
     set_js (set_mediaRecorder None (js p))
       (set_recorders
          (match mediaRecorder (js p) with
           | Some id =>
               match state <$> recorders p !! id with
               | Some recording | Some paused =>
                   alter (λ o, MediaRecorder inactive (mimeType o)) id
                     (recorders p)
               | _ => recorders p
               end
           | None => recorders p
           end)
          (set_console
             (console p ++
              [(Log, [VStr "Cleaning up media streams and audio context..."])])
             p))).
Proof.
  unfold cleanup_recorder. unfold_page. cbn.
  destruct (mediaRecorder (js p)) as [r|] eqn:Er; cbn;
    [|destruct p; reflexivity].
  destruct (recorders p !! r) as [[[] ?]|]; cbn; rewrite ?Er;
    destruct p; reflexivity.
Qed.

Lemma cleanup_tracks_effect (p : page) :
  cleanup_tracks p =
    (tt,
     let stop s m :=
       match s with
       | Some id => alter (λ o, MediaStream (audio_tracks o) true) id m
       | None => m
       end in
     set_js (set_screenStream None (set_micStream None (js p)))
       (set_console (console p ++ [(Log, [VStr "Media tracks stopped."])])
          (set_streams
             (stop (screenStream (js p)) (stop (micStream (js p)) (streams p)))
             p))).
Proof.
  unfold cleanup_tracks. unfold_page. cbn.
  destruct (micStream (js p)) eqn:E1, (screenStream (js p)) eqn:E2; cbn;
    rewrite ?E1, ?E2; destruct p; reflexivity.
Qed.

Lemma cleanup_sources_effect (p : page) :
  cleanup_sources p =
    (tt,
     let off s m :=
       match s with
       | Some id => <[id := false]> m
       | None => m
       end in
     set_js (set_screenSource None (set_micSource None (js p)))
       (set_nodes (off (screenSource (js p)) (off (micSource (js p)) (nodes p)))
          p)).
Proof.
  unfold cleanup_sources. unfold_page. cbn.
  destruct (micSource (js p)) eqn:E1, (screenSource (js p)) eqn:E2; cbn;
    rewrite ?E1, ?E2; destruct p; reflexivity.
Qed.

Lemma cleanup_context_effect (p : page) :
  cleanup_context p =
    (tt,
     set_js (set_mixedStreamDestination None (set_audioContext None (js p)))
       (set_contexts
          (match audioContext (js p) with
           | Some c =>
               if default false (contexts p !! c) then contexts p
               else <[c := true]> (contexts p)
           | None => contexts p
           end) p)).
Proof.
  unfold cleanup_context. unfold_page. cbn.
  destruct (audioContext (js p)) as [c|] eqn:E1; cbn;
    [|destruct p; reflexivity].
  destruct (contexts p !! c) as [[]|] eqn:E2; cbn; rewrite ?E1, ?E2;
    destruct p; reflexivity.
Qed.

(** The page after [cleanupStreams], in closed form. *)

Lemma cleanupStreams_effect (p : page) :
  cleanupStreams p =
    (tt,
     let stop s m :=
       match s with
       | Some id => alter (λ o, MediaStream (audio_tracks o) true) id m
       | None => m
       end in
     let off s m :=
       match s with
       | Some id => <[id := false]> m
       | None => m
       end in
     Page
       (Variables (ws (js p)) None [] None None None None None None)
       (statusEl p) (errorEl p) (location_protocol p) (location_host p)
       (isTypeSupported p) (default_mimeType p) (next p) (web_sockets p)
       (match mediaRecorder (js p) with
        | Some id =>
            match state <$> recorders p !! id with
            | Some recording | Some paused =>
                alter (λ o, MediaRecorder inactive (mimeType o)) id
                  (recorders p)
            | _ => recorders p
            end
        | None => recorders p
        end)
       (stop (screenStream (js p)) (stop (micStream (js p)) (streams p)))
       (match audioContext (js p) with
        | Some c =>
            if default false (contexts p !! c) then contexts p
            else <[c := true]> (contexts p)
        | None => contexts p
        end)
       (off (screenSource (js p)) (off (micSource (js p)) (nodes p)))
       (awaits p)
       (console p ++
        [(Log, [VStr "Cleaning up media streams and audio context..."]);
         (Log, [VStr "Media tracks stopped."])])
       (uncaught p)).
Proof.
  unfold cleanupStreams, mbind, P_bind.
  rewrite cleanup_recorder_effect, cleanup_tracks_effect,
    cleanup_sources_effect, cleanup_context_effect.
  unfold assign, modify. cbn. rewrite <- app_assoc. reflexivity.
Qed.

(** X14. [cleanupStreams] releases everything, whatever the state of the
    page: the variables of a recording are null and [audioChunks] is
    empty, the recorder that was referred to is inactive, the tracks of
    both streams are stopped and the audio context is closed.  The socket
    and the pending awaits are not touched, and a second call changes
    nothing but the console. *)
Theorem cleanupStreams_releases_everything (p : page) :
  let p1 := (cleanupStreams p).2 in
  js p1 = Variables (ws (js p)) None [] None None None None None None ∧
  (∀ r o, mediaRecorder (js p) = Some r → recorders p !! r = Some o →
          recorders p1 !! r = Some (MediaRecorder inactive (mimeType o))) ∧
  (∀ s o, micStream (js p) = Some s ∨ screenStream (js p) = Some s →
          streams p !! s = Some o →
          streams p1 !! s = Some (MediaStream (audio_tracks o) true)) ∧
  (∀ c, audioContext (js p) = Some c → contexts p1 !! c = Some true) ∧
  web_sockets p1 = web_sockets p ∧ awaits p1 = awaits p ∧
  uncaught p1 = uncaught p ∧
  (cleanupStreams p1).2 =
    set_console
      (console p1 ++
       [(Log, [VStr "Cleaning up media streams and audio context..."]);
        (Log, [VStr "Media tracks stopped."])]) p1.
Proof.
  cbn zeta. rewrite !cleanupStreams_effect. cbn.
  split; [reflexivity|]. split.
  { intros r o -> Ho. rewrite Ho. cbn. destruct o as [[] m]; cbn.
    - by rewrite Ho.
    - by rewrite lookup_alter_eq, Ho.
    - by rewrite lookup_alter_eq, Ho. }
  split.
  { intros s o [-> | ->] Ho.
    - destruct (screenStream (js p)) as [s'|]; cbn.
      + destruct (decide (s' = s)) as [->|].
        * by rewrite !lookup_alter_eq, Ho.
        * by rewrite lookup_alter_ne, lookup_alter_eq, Ho.
      + by rewrite lookup_alter_eq, Ho.
    - destruct (micStream (js p)) as [s'|]; cbn.
      + destruct (decide (s' = s)) as [->|].
        * by rewrite !lookup_alter_eq, Ho.
        * by rewrite lookup_alter_eq, lookup_alter_ne, Ho.
      + by rewrite lookup_alter_eq, Ho. }
  split.
  { intros c ->. destruct (contexts p !! c) as [[]|] eqn:E; cbn.
    - exact E.
    - apply lookup_insert_eq.
    - apply lookup_insert_eq. }
  repeat split; reflexivity.
Qed.

Lemma cleanupStreams_releases_everything_witness :
  let p1 := (cleanupStreams page_recording).2 in
  recorders p1 !! 8%nat
    = Some (MediaRecorder inactive "audio/webm;codecs=opus") ∧
  js p1 = Variables (Some 0%nat) None [] None None None None None None.
Proof.
  intros p1.
  assert (H1 : mediaRecorder (js page_recording) = Some 8%nat)
    by (vm_compute; reflexivity).
  assert (H2 : recorders page_recording !! 8%nat
               = Some (MediaRecorder recording "audio/webm;codecs=opus"))
    by (vm_compute; reflexivity).
  destruct (cleanupStreams_releases_everything page_recording)
    as (G1 & G2 & _).
  split; [exact (G2 8%nat _ H1 H2) | exact G1].
Defined.

(** ** Symbolic execution of the page *)

#[local] Arguments step : simpl never.
#[local] Arguments run : simpl never.
#[local] Arguments set_js x !p /.
#[local] Arguments set_statusEl x !p /.
#[local] Arguments set_errorEl x !p /.
#[local] Arguments set_next x !p /.
#[local] Arguments set_web_sockets x !p /.
#[local] Arguments set_recorders x !p /.
#[local] Arguments set_streams x !p /.
#[local] Arguments set_contexts x !p /.
#[local] Arguments set_nodes x !p /.
#[local] Arguments set_awaits x !p /.
#[local] Arguments set_console x !p /.
#[local] Arguments set_uncaught x !p /.
#[local] Arguments set_ws x !v /.
#[local] Arguments set_mediaRecorder x !v /.
#[local] Arguments set_audioChunks x !v /.
#[local] Arguments set_micStream x !v /.
#[local] Arguments set_screenStream x !v /.
#[local] Arguments set_audioContext x !v /.
#[local] Arguments set_mixedStreamDestination x !v /.
#[local] Arguments set_micSource x !v /.
#[local] Arguments set_screenSource x !v /.

Lemma page_bind_run {A B} (m : P A) (k : A → P B) (p p' : page) (a : A)
    (r : B * page) :
  m p = (a, p') → k a p' = r → (m ≫= k) p = r.
Proof. intros Hm Hk. unfold mbind, P_bind. rewrite Hm. exact Hk. Qed.

Ltac page_exec tac :=
  exec
    ltac:(idtac; eapply page_bind_run)
    ltac:(idtac;
          lazymatch goal with
          | |- cleanupStreams _ = _ =>
              rewrite cleanupStreams_effect; cbn; reflexivity
          end)
    tac.

(** Replaces the innermost [step e p] of the goal by the page it evaluates
    to. *)
Ltac page_step tac :=
  match goal with
  | |- context [step ?e ?p] =>
      lazymatch p with
      | context [step _ _] => fail
      | _ =>
          let E := fresh "E" in
          eassert (E : handle e p = (_, _)) by (unfold handle; page_exec tac);
          change (step e p) with (handle e p).2;
          rewrite E; clear E; cbn [snd]
      end
  end.

Lemma page_run_nil (p : page) : run [] p = p.
Proof. reflexivity. Qed.

Lemma page_run_cons (e : event) (trace : list event) (p : page) :
  run (e :: trace) p = run trace (step e p).
Proof. reflexivity. Qed.

Lemma page_run_app (t1 t2 : list event) (p : page) :
  run (t1 ++ t2) p = run t2 (run t1 p).
Proof. apply foldl_app. Qed.

(** ** Commands

    The witnesses use the page of [page_ready] and the pages that follow
    it: socket 0, capture task 1, microphone stream 2, screen stream 3,
    recorder 8. *)

(** X15. A stop command that arrives while nothing is being recorded (no
    recorder, or an inactive one) stops nothing: the page tells the host
    "Received stop command but was not recording." and leaves its
    variables, recorders, streams and awaits as they are. *)

Theorem stop_command_while_idle (p : page) (s : nat) (u thrown : string)
    (out : list value) :
  ws (js p) = Some s →
  web_sockets p !! s = Some (WebSocket u OPEN out) →
  (mediaRecorder (js p) = None ∨
   ∃ r m, mediaRecorder (js p) = Some r ∧
          recorders p !! r = Some (MediaRecorder inactive m)) →
  let p1 := step (WsMessage s (Some (command_value Stop)) thrown) p in
  web_sockets p1 !! s =
    Some (WebSocket u OPEN
            (out ++ [envelope "status"
                       (VStr "Received stop command but was not recording.")])) ∧
  js p1 = js p ∧ recorders p1 = recorders p ∧ awaits p1 = awaits p ∧
  streams p1 = streams p ∧ uncaught p1 = uncaught p.
Proof.
  intros Hws Hs Hidle. cbn zeta. unfold command_value.
  destruct p as [[]]; cbn in *; subst.
  destruct Hidle as [-> | (r & m & -> & Ho)].
  - page_step ltac:(rewrite ?Hs).
    cbn. rewrite lookup_alter_eq, Hs. repeat split; reflexivity.
  - page_step ltac:(rewrite ?Hs, ?Ho).
    cbn. rewrite lookup_alter_eq, Hs. repeat split; reflexivity.
Qed.

Lemma stop_command_while_idle_witness :
  let p1 := step (WsMessage 0 (Some (command_value Stop)) "") page_ready in
  web_sockets p1 !! 0%nat =
    Some (WebSocket "ws://localhost:9000" OPEN
            ([envelope "status" (VStr "Recorder page connected and ready.")]
             ++ [envelope "status"
                   (VStr "Received stop command but was not recording.")])) ∧
  js p1 = js page_ready.
Proof.
  intros p1.
  assert (H1 : ws (js page_ready) = Some 0%nat) by (vm_compute; reflexivity).
  assert (H2 : web_sockets page_ready !! 0%nat
               = Some (WebSocket "ws://localhost:9000" OPEN
                         [envelope "status"
                            (VStr "Recorder page connected and ready.")]))
    by (vm_compute; reflexivity).
  assert (H3 : mediaRecorder (js page_ready) = None)
    by (vm_compute; reflexivity).
  destruct (stop_command_while_idle page_ready 0%nat "ws://localhost:9000" ""
              _ H1 H2 (or_introl H3)) as (G1 & G2 & _).
  split; [exact G1 | exact G2].
Defined.

(** X16. Only the two commands act on the page.  A parsed message that is
    not [{type: "command"}] with the payload "start" or "stop" is logged,
    and the page is otherwise unchanged: nothing is sent, started or
    stopped. *)

Theorem only_commands_start_or_stop_recording (p : page) (v : value)
    (thrown : string) :
  v ≠ VNull → v ≠ VUndefined →
  is_str (get v "type") "command"
    && (is_str (get v "payload") "start" || is_str (get v "payload") "stop")
    = false →
  ws_onmessage (Some v) thrown p =
    (tt, set_console (console p ++ [(Log, [VStr "Received command:"; v])]) p).
Proof.
  intros Hn Hu Hc. unfold ws_onmessage.
  destruct (is_str (get v "type") "command") eqn:Ht; cbn in Hc.
  - apply orb_false_iff in Hc as [H1 H2].
    destruct v; try done; rewrite ?Ht, ?H1, ?H2; reflexivity.
  - destruct v; try done; rewrite ?Ht; reflexivity.
Qed.

Lemma only_commands_start_or_stop_recording_witness :
  let v := VObj [("type", VStr "command"); ("payload", VStr "pause")] in
  ws_onmessage (Some v) "" page_recording =
    (tt, set_console
           (console page_recording ++ [(Log, [VStr "Received command:"; v])])
           page_recording).
Proof.
  intros v.
  apply (only_commands_start_or_stop_recording page_recording v "").
  - discriminate.
  - discriminate.
  - reflexivity.
Defined.

(** ** Starting a recording *)

(** X17. When the microphone or the screen capture is refused, the page
    reports "Failed to start recording: " followed by the error to the
    host, creates no recorder, stops the tracks of the microphone stream
    it already holds, and is back in its idle state. *)

Theorem refused_capture_is_reported_and_released (p : page) (s t : nat)
    (u message : string) (out : list value) :
  ws (js p) = Some s →
  web_sockets p !! s = Some (WebSocket u OPEN out) →
  mediaRecorder (js p) = None →
  let report :=
    envelope "error" (VStr ("Failed to start recording: " ++ message)) in
  let idle := Variables (Some s) None [] None None None None None None in
  (awaits p !! t = Some GetUserMedia →
   let p1 := step (GetUserMediaDone t (inl message)) p in
   web_sockets p1 !! s = Some (WebSocket u OPEN (out ++ [report])) ∧
   js p1 = idle ∧ recorders p1 = recorders p ∧ awaits p1 !! t = None)
  ∧
  (∀ mic o,
     awaits p !! t = Some GetDisplayMedia →
     micStream (js p) = Some mic →
     streams p !! mic = Some o →
     let p1 := step (GetDisplayMediaDone t (inl message)) p in
     web_sockets p1 !! s = Some (WebSocket u OPEN (out ++ [report])) ∧
     streams p1 !! mic = Some (MediaStream (audio_tracks o) true) ∧
     js p1 = idle ∧ recorders p1 = recorders p ∧ awaits p1 !! t = None).
Proof.
  intros Hws Hs Hr. cbn zeta.
  destruct p as [[]]; cbn in *; subst. split.
  - intros Ht.
    page_step ltac:(rewrite ?Ht, ?Hs, ?lookup_alter_eq).
    cbn. rewrite lookup_alter_eq, Hs, lookup_delete_eq.
    repeat split; reflexivity.
  - intros mic o Ht -> Ho.
    page_step ltac:(rewrite ?Ht, ?Hs, ?lookup_alter_eq).
    cbn. rewrite lookup_alter_eq, Hs, lookup_delete_eq.
    match goal with |- context [match ?x with Some _ => _ | None => _ end] =>
      destruct x as [scr|] end; cbn.
    + destruct (decide (scr = mic)) as [->|].
      * rewrite !lookup_alter_eq, Ho. repeat split; reflexivity.
      * rewrite lookup_alter_ne, lookup_alter_eq, Ho by done.
        repeat split; reflexivity.
    + rewrite lookup_alter_eq, Ho. repeat split; reflexivity.
Qed.

Lemma refused_capture_is_reported_and_released_witness :
  let p1 := step (GetDisplayMediaDone 1 (inl "Permission denied"))
              page_awaiting_screen in
  streams p1 !! 2%nat = Some (MediaStream 1 true) ∧
  recorders p1 = recorders page_awaiting_screen ∧
  js p1 = Variables (Some 0%nat) None [] None None None None None None.
Proof.
  intros p1.
  assert (H1 : ws (js page_awaiting_screen) = Some 0%nat)
    by (vm_compute; reflexivity).
  assert (H2 : web_sockets page_awaiting_screen !! 0%nat
               = Some (WebSocket "ws://localhost:9000" OPEN
                         [envelope "status"
                            (VStr "Recorder page connected and ready.")]))
    by (vm_compute; reflexivity).
  assert (H3 : mediaRecorder (js page_awaiting_screen) = None)
    by (vm_compute; reflexivity).
  assert (H4 : awaits page_awaiting_screen !! 1%nat = Some GetDisplayMedia)
    by (vm_compute; reflexivity).
  assert (H5 : micStream (js page_awaiting_screen) = Some 2%nat)
    by (vm_compute; reflexivity).
  assert (H6 : streams page_awaiting_screen !! 2%nat
               = Some (MediaStream 1 false))
    by (vm_compute; reflexivity).
  destruct (refused_capture_is_reported_and_released page_awaiting_screen
              0%nat 1%nat "ws://localhost:9000" "Permission denied" _
              H1 H2 H3) as [_ G].
  destruct (G 2%nat _ H4 H5 H6) as (_ & G1 & G2 & G3 & _).
  split; [exact G1|]. split; [exact G3 | exact G2].
Defined.

(** X18. When neither stream has an audio track, no recorder is created:
    the page first tells the host that screen audio is missing, then
    reports "Failed to start recording: No audio tracks available from mic
    or screen to record.", stops both streams, closes the audio context
    and is back in its idle state. *)

Theorem no_audio_track_fails_the_start (p : page) (s t mic : nat)
    (u : string) (out : list value) (ended : bool) :
  ws (js p) = Some s →
  web_sockets p !! s = Some (WebSocket u OPEN out) →
  mediaRecorder (js p) = None →
  awaits p !! t = Some GetDisplayMedia →
  micStream (js p) = Some mic →
  streams p !! mic = Some (MediaStream 0 ended) →
  (mic < next p)%nat →
  let p1 := step (GetDisplayMediaDone t (inr 0%nat)) p in
  web_sockets p1 !! s =
    Some (WebSocket u OPEN
            (out ++
             [envelope "status"
                (VStr "Screen audio not detected or selected. Recording mic only.");
              envelope "error"
                (VStr ("Failed to start recording: " ++
                       "No audio tracks available from mic or screen to record."))])) ∧
  recorders p1 = recorders p ∧
  js p1 = Variables (Some s) None [] None None None None None None ∧
  streams p1 !! mic = Some (MediaStream 0 true) ∧
  streams p1 !! next p = Some (MediaStream 0 true) ∧
  contexts p1 !! S (next p) = Some true ∧
  awaits p1 !! t = None.
Proof.
  intros Hws Hs Hr Ht Hmic Ho Hlt. cbn zeta.
  assert (Hne : next p ≠ mic) by lia.
  destruct p as [[]]; cbn in *; subst.
  page_step ltac:(rewrite ?Ht, ?Hs, ?lookup_alter_eq,
                    ?lookup_insert_eq, ?lookup_insert_ne, ?Ho by done).
  cbn. split.
  { rewrite !lookup_alter_eq, Hs. cbn. rewrite <- app_assoc. reflexivity. }
  do 2 (split; [reflexivity|]).
  split.
  { rewrite lookup_alter_ne, lookup_alter_eq, lookup_insert_ne, Ho by done.
    reflexivity. }
  split.
  { rewrite lookup_alter_eq, lookup_alter_ne, lookup_insert_eq by done.
    reflexivity. }
  split; [|apply lookup_delete_eq].
  rewrite lookup_insert_eq. cbn. apply lookup_insert_eq.
Qed.

Lemma no_audio_track_fails_the_start_witness :
  let p :=
    run [WsMessage 0 (Some (command_value Start)) "";
         GetUserMediaDone 1 (inr 0%nat)] page_ready in
  let p1 := step (GetDisplayMediaDone 1 (inr 0%nat)) p in
  recorders p1 = recorders p ∧
  streams p1 !! 2%nat = Some (MediaStream 0 true).
Proof.
  intros p p1.
  assert (H1 : ws (js p) = Some 0%nat) by (vm_compute; reflexivity).
  assert (H2 : web_sockets p !! 0%nat
               = Some (WebSocket "ws://localhost:9000" OPEN
                         [envelope "status"
                            (VStr "Recorder page connected and ready.")]))
    by (vm_compute; reflexivity).
  assert (H3 : mediaRecorder (js p) = None) by (vm_compute; reflexivity).
  assert (H4 : awaits p !! 1%nat = Some GetDisplayMedia)
    by (vm_compute; reflexivity).
  assert (H5 : micStream (js p) = Some 2%nat) by (vm_compute; reflexivity).
  assert (H6 : streams p !! 2%nat = Some (MediaStream 0 false))
    by (vm_compute; reflexivity).
  assert (H7 : (2 < next p)%nat) by (vm_compute; lia).
  destruct (no_audio_track_fails_the_start p 0%nat 1%nat 2%nat
              "ws://localhost:9000" _ false H1 H2 H3 H4 H5 H6 H7)
    as (_ & G1 & _ & G2 & _).
  split; [exact G1 | exact G2].
Defined.

(** X19. When the microphone or the screen stream has an audio track, the
    recording starts: a recorder is created, recording, with the opus
    type when the browser supports it and the browser's default
    otherwise, and the host is told "Recording started.", after the notice
    that screen audio is missing when it is.  The chunks gathered so far
    and the streams are untouched. *)

Theorem recording_starts_when_audio_is_available (p : page) (s t mic : nat)
    (u : string) (out : list value) (k k' : nat) (ended : bool) :
  ws (js p) = Some s →
  web_sockets p !! s = Some (WebSocket u OPEN out) →
  awaits p !! t = Some GetDisplayMedia →
  micStream (js p) = Some mic →
  streams p !! mic = Some (MediaStream k ended) →
  (mic < next p)%nat →
  (0 < k ∨ 0 < k')%nat →
  let p1 := step (GetDisplayMediaDone t (inr k')) p in
  let mime :=
    if isTypeSupported p then "audio/webm;codecs=opus"
    else default_mimeType p in
  let notice :=
    if Nat.ltb 0 k' then []
    else [envelope "status"
            (VStr "Screen audio not detected or selected. Recording mic only.")] in
  (∃ r, mediaRecorder (js p1) = Some r ∧
        recorders p1 !! r = Some (MediaRecorder recording mime)) ∧
  web_sockets p1 !! s =
    Some (WebSocket u OPEN
            (out ++ notice ++ [envelope "status" (VStr "Recording started.")])) ∧
  audioChunks (js p1) = audioChunks (js p) ∧
  streams p1 !! mic = Some (MediaStream k ended) ∧
  streams p1 !! next p = Some (MediaStream k' false) ∧
  awaits p1 !! t = None.
Proof.
  intros Hws Hs Ht Hmic Ho Hlt Haudio. cbn zeta.
  assert (Hne : next p ≠ mic) by lia.
  destruct p as [[]]; cbn in *; subst.
  destruct k as [|k], k' as [|k']; [lia|..];
    match goal with |- context [if ?b then _ else _] => destruct b end;
    page_step ltac:(rewrite ?Ht, ?Hs, ?lookup_alter_eq,
                      ?lookup_insert_eq, ?lookup_insert_ne, ?Ho by done);
    cbn;
    rewrite ?lookup_alter_eq, ?Hs, ?lookup_insert_eq, ?lookup_delete_eq,
      ?lookup_insert_ne, ?Ho by done;
    cbn; rewrite <- ?app_assoc;
    (split; [eexists; split; [reflexivity | apply lookup_insert_eq]|]);
    repeat split; reflexivity.
Qed.

Lemma recording_starts_when_audio_is_available_witness :
  let p1 := step (GetDisplayMediaDone 1 (inr 0%nat)) page_awaiting_screen in
  (∃ r, mediaRecorder (js p1) = Some r ∧
        recorders p1 !! r
          = Some (MediaRecorder recording "audio/webm;codecs=opus")) ∧
  awaits p1 !! 1%nat = None.
Proof.
  intros p1.
  assert (H1 : ws (js page_awaiting_screen) = Some 0%nat)
    by (vm_compute; reflexivity).
  assert (H2 : web_sockets page_awaiting_screen !! 0%nat
               = Some (WebSocket "ws://localhost:9000" OPEN
                         [envelope "status"
                            (VStr "Recorder page connected and ready.")]))
    by (vm_compute; reflexivity).
  assert (H3 : awaits page_awaiting_screen !! 1%nat = Some GetDisplayMedia)
    by (vm_compute; reflexivity).
  assert (H4 : micStream (js page_awaiting_screen) = Some 2%nat)
    by (vm_compute; reflexivity).
  assert (H5 : streams page_awaiting_screen !! 2%nat
               = Some (MediaStream 1 false))
    by (vm_compute; reflexivity).
  assert (H6 : (2 < next page_awaiting_screen)%nat) by (vm_compute; lia).
  assert (H7 : (0 < 1 ∨ 0 < 0)%nat) by (left; lia).
  destruct (recording_starts_when_audio_is_available page_awaiting_screen
              0%nat 1%nat 2%nat "ws://localhost:9000" _ 1 0 false
              H1 H2 H3 H4 H5 H6 H7) as (G1 & _ & _ & _ & _ & G2).
  split; [exact G1 | exact G2].
Defined.

(** ** The clip *)

(** The [dataavailable] events of a recording: the chunks are appended in
    order, and nothing else changes but the console. *)

Lemma chunks_accumulate (chunks : list (list byte)) (r : nat) (p : page) :
  is_Some (recorders p !! r) →
  let p1 := run (map (DataAvailable r) chunks) p in
  concat (audioChunks (js p1))
    = (concat (audioChunks (js p)) ++ concat chunks)%list ∧
  ws (js p1) = ws (js p) ∧ mediaRecorder (js p1) = mediaRecorder (js p) ∧
  web_sockets p1 = web_sockets p ∧ recorders p1 = recorders p ∧
  awaits p1 = awaits p ∧ next p1 = next p ∧ uncaught p1 = uncaught p.
Proof.
  revert p. induction chunks as [|c chunks IH]; intros p [o Hr]; cbn zeta.
  - cbn. rewrite app_nil_r. repeat split; reflexivity.
  - cbn [map]. rewrite page_run_cons.
    destruct p as [[]]; cbn in *.
    destruct c as [|b c].
    + page_step ltac:(rewrite ?Hr).
      apply IH. cbn. eauto.
    + page_step ltac:(rewrite ?Hr).
      match goal with |- context [run _ ?q] =>
        destruct (IH q) as (H1 & H2 & H3 & H4 & H5 & H6 & H7 & H8) end.
      { cbn. eauto. }
      cbn in *. rewrite H1, concat_app. cbn. rewrite app_nil_r, <- app_assoc.
      repeat split; assumption.
Qed.

(** From the first chunk to the message that carries the clip. *)

Lemma clip_sent (p : page) (s r : nat) (u mime thrown : string)
    (out : list value) (before after : list (list byte)) :
  ws (js p) = Some s →
  web_sockets p !! s = Some (WebSocket u OPEN out) →
  mediaRecorder (js p) = Some r →
  recorders p !! r = Some (MediaRecorder recording mime) →
  audioChunks (js p) = [] →
  let p1 := run (recording_trace s r (next p) before after thrown) p in
  web_sockets p1 !! s =
    Some (WebSocket u OPEN
            (out ++
             [envelope "status" (VStr "Recording stopping.");
              audioBlob_message (concat (before ++ after))])) ∧
  js p1 = Variables (Some s) None [] None None None None None None ∧
  recorders p1 !! r = Some (MediaRecorder inactive mime) ∧
  awaits p1 !! next p = None.
Proof.
  intros Hws Hs Hr Ho Hc. cbn zeta. unfold recording_trace, command_value.
  rewrite page_run_app, page_run_cons, page_run_app, !page_run_cons,
    page_run_nil.
  destruct (chunks_accumulate before r p) as (A1 & A2 & A3 & A4 & A5 & A6 & A7 & _);
    [eauto|].
  rewrite Hc, Hws, Hr in *. cbn in A1.
  destruct (run (map (DataAvailable r) before) p) as [[]] eqn:E1.
  cbn in *; subst.
  page_step ltac:(rewrite ?Hs, ?Ho, ?lookup_alter_eq).
  match goal with |- context [run (map (DataAvailable r) after) ?q] =>
    destruct (chunks_accumulate after r q)
      as (B1 & B2 & B3 & B4 & B5 & B6 & B7 & _);
      [cbn; rewrite lookup_alter_eq, Ho; eauto|];
    destruct (run (map (DataAvailable r) after) q) as [[]] eqn:E2
  end.
  cbn in *; subst.
  page_step ltac:(rewrite ?Hs, ?Ho, ?lookup_alter_eq, ?lookup_insert_eq).
  page_step ltac:(rewrite ?Hs, ?Ho, ?lookup_alter_eq, ?lookup_insert_eq).
  cbn. rewrite !lookup_alter_eq, Hs, Ho, lookup_delete_eq. cbn.
  unfold audioBlob_message.
  rewrite B1, A1, concat_app, <- app_assoc. repeat split; reflexivity.
Qed.

(** X20. An error of the recorder ends the recording without a clip: the
    page reports "MediaRecorder error: " followed by the error's message,
    or by its name when the message is empty, and releases everything;
    the chunks and the [stop] event that still arrive send nothing, as the
    [stop] handler fails on the cleared [mediaRecorder] before it builds
    the blob. *)

Theorem recorder_error_sends_no_clip (p : page) (s r : nat)
    (u mime message name : string) (out : list value)
    (chunks : list (list byte)) :
  ws (js p) = Some s →
  web_sockets p !! s = Some (WebSocket u OPEN out) →
  mediaRecorder (js p) = Some r →
  recorders p !! r = Some (MediaRecorder recording mime) →
  let reason := if String.eqb message "" then name else message in
  let p1 := step (RecorderError r message name) p in
  let p2 := run (map (DataAvailable r) chunks ++ [RecorderStop r]) p1 in
  js p1 = Variables (Some s) None [] None None None None None None ∧
  recorders p1 !! r = Some (MediaRecorder inactive mime) ∧
  web_sockets p1 !! s =
    Some (WebSocket u OPEN
            (out ++ [envelope "error" (VStr ("MediaRecorder error: " ++ reason))])) ∧
  web_sockets p2 = web_sockets p1 ∧
  awaits p2 = awaits p ∧
  uncaught p2 = (uncaught p ++ ["TypeError"])%list.
Proof.
  intros Hws Hs Hr Ho. cbn zeta.
  rewrite page_run_app, page_run_cons, page_run_nil.
  destruct p as [[]]; cbn in *; subst.
  page_step ltac:(rewrite ?Hs, ?Ho, ?lookup_alter_eq).
  cbn. rewrite Ho. cbn. rewrite !lookup_alter_eq, Hs, Ho. cbn.
  do 3 (split; [reflexivity|]).
  match goal with |- context [run (map (DataAvailable r) chunks) ?q] =>
    destruct (chunks_accumulate chunks r q)
      as (_ & B2 & B3 & B4 & B5 & B6 & _ & B8);
      [cbn; rewrite lookup_alter_eq, Ho; eauto|];
    destruct (run (map (DataAvailable r) chunks) q) as [[]] eqn:E
  end.
  cbn in *; subst.
  page_step ltac:(rewrite ?Hs, ?Ho, ?lookup_alter_eq).
  cbn. repeat split; reflexivity.
Qed.

Lemma recorder_error_sends_no_clip_witness :
  let p1 := step (RecorderError 8 "" "NotSupportedError") page_recording in
  let p2 := run (map (DataAvailable 8) [["001"]%byte] ++ [RecorderStop 8]) p1 in
  web_sockets p2 = web_sockets p1 ∧ awaits p2 = awaits page_recording.
Proof.
  intros p1 p2.
  assert (H1 : ws (js page_recording) = Some 0%nat)
    by (vm_compute; reflexivity).
  assert (H2 : web_sockets page_recording !! 0%nat
               = Some (WebSocket "ws://localhost:9000" OPEN
                         [envelope "status"
                            (VStr "Recorder page connected and ready.");
                          envelope "status" (VStr "Recording started.")]))
    by (vm_compute; reflexivity).
  assert (H3 : mediaRecorder (js page_recording) = Some 8%nat)
    by (vm_compute; reflexivity).
  assert (H4 : recorders page_recording !! 8%nat
               = Some (MediaRecorder recording "audio/webm;codecs=opus"))
    by (vm_compute; reflexivity).
  destruct (recorder_error_sends_no_clip page_recording 0%nat 8%nat
              "ws://localhost:9000" "audio/webm;codecs=opus" ""
              "NotSupportedError" _ [["001"]%byte] H1 H2 H3 H4)
    as (_ & _ & _ & G1 & G2 & _).
  split; [exact G1 | exact G2].
Defined.

(** X21. The page connects back to the host that served it, with the
    scheme [wss:] when it was served over [https:] and [ws:] otherwise;
    when the socket opens, the one message it sends is the status
    "Recorder page connected and ready.", and nothing is being captured
    or recorded. *)

Theorem page_connects_to_its_host_and_announces_itself
    (statusEl errorEl : option element) (protocol host mime : string)
    (supported : bool) :
  let p := run [PageLoad; WsOpen 0]
             (loaded statusEl errorEl protocol host supported mime) in
  let scheme := if String.eqb protocol "https:" then "wss:" else "ws:" in
  ws (js p) = Some 0%nat ∧
  web_sockets p !! 0%nat =
    Some (WebSocket (scheme ++ "//" ++ host) OPEN
            [envelope "status" (VStr "Recorder page connected and ready.")]) ∧
  awaits p = ∅ ∧ recorders p = ∅ ∧ streams p = ∅.
Proof.
  cbn zeta. rewrite !page_run_cons, page_run_nil. unfold loaded.
  page_step idtac.
  page_step ltac:(rewrite ?lookup_alter_eq, ?lookup_insert_eq).
  cbn [js ws web_sockets awaits recorders streams].
  rewrite !lookup_alter_eq, lookup_insert_eq. repeat split; reflexivity.
Qed.

End RecorderPage.

(** * The page and the host together *)

(** X22. The clip that the page records is the file that the host writes.
    From a page that is recording, the chunks delivered before and after
    the stop command end up, in order, in one [audioBlob] message; and
    that message, received by the host while a result is pending, is
    written to a file that holds exactly the concatenation of the chunks,
    with whose path the result is resolved. *)

Theorem recorded_clip_reaches_the_file
    (p : Recorder.page) (s r : nat) (u mime thrown : string)
    (out : list value) (before after : list (list byte))
    (w : world) (ws q : nat) (now : Z) :
  Recorder.ws (Recorder.js p) = Some s →
  Recorder.web_sockets p !! s = Some (Recorder.WebSocket u Recorder.OPEN out) →
  Recorder.mediaRecorder (Recorder.js p) = Some r →
  Recorder.recorders p !! r
    = Some (Recorder.MediaRecorder Recorder.recording mime) →
  Recorder.audioChunks (Recorder.js p) = [] →
  live ws w = true →
  resolveAudioPromise (mv w) = Some q →
  promises w !! q = None →
  let clip := concat (before ++ after) in
  let p1 :=
    Recorder.run (recording_trace s r (Recorder.next p) before after thrown) p in
  let path := recording_path (os_tmpdir w) now in
  ∃ message,
    (Recorder.sent <$> Recorder.web_sockets p1 !! s)
      = Some (out ++ [envelope "status" (VStr "Recording stopping."); message])%list ∧
    let w1 := run (Message ws (text message)
                     :: save_events (next_id w) now Saved) w in
    files w1 = <[path := clip]> (files w) ∧
    promises w1 !! q = Some (Resolved (VStr path)).
Proof.
  intros Hws Hs Hr Ho Hc Hl Hq Hp. cbn zeta.
  exists (audioBlob_message (concat (before ++ after))). split.
  - destruct (clip_sent p s r u mime thrown out before after Hws Hs Hr Ho Hc)
      as (H1 & _).
    rewrite H1. reflexivity.
  - cbn zeta. unfold save_events. rewrite !run_cons, run_nil.
    eval_step ltac:(rewrite ?Hl).
    eval_step ltac:(rewrite ?lookup_insert_eq).
    eval_step ltac:(rewrite ?lookup_insert_eq, ?Hq, ?Hp).
    cbn. rewrite !Buffer_from_Array_from, !lookup_insert_eq. done.
Qed.

Lemma recorded_clip_reaches_the_file_witness :
  let w := run session_started (initial "/tmp") in
  let before := [["001"; "002"]%byte; []] in
  let after := [["003"]%byte] in
  let p1 :=
    Recorder.run
      (recording_trace 0 8 (Recorder.next page_recording) before after "")
      page_recording in
  ∃ message,
    (Recorder.sent <$> Recorder.web_sockets p1 !! 0%nat)
      = Some ([envelope "status" (VStr "Recorder page connected and ready.");
               envelope "status" (VStr "Recording started.")]
              ++ [envelope "status" (VStr "Recording stopping."); message])%list ∧
    let w1 := run (Message 3 (text message)
                     :: save_events (next_id w) 1000 Saved) w in
    files w1 = <[recording_path (os_tmpdir w) 1000 := concat (before ++ after)]>
                 (files w) ∧
    promises w1 !! 0%nat
      = Some (Resolved (VStr (recording_path (os_tmpdir w) 1000))).
Proof.
  intros w before after p1.
  assert (H1 : Recorder.ws (Recorder.js page_recording) = Some 0%nat)
    by (vm_compute; reflexivity).
  assert (H2 : Recorder.web_sockets page_recording !! 0%nat
               = Some (Recorder.WebSocket "ws://localhost:9000" Recorder.OPEN
                         [envelope "status"
                            (VStr "Recorder page connected and ready.");
                          envelope "status" (VStr "Recording started.")]))
    by (vm_compute; reflexivity).
  assert (H3 : Recorder.mediaRecorder (Recorder.js page_recording)
               = Some 8%nat)
    by (vm_compute; reflexivity).
  assert (H4 : Recorder.recorders page_recording !! 8%nat
               = Some (Recorder.MediaRecorder Recorder.recording
                         "audio/webm;codecs=opus"))
    by (vm_compute; reflexivity).
  assert (H5 : Recorder.audioChunks (Recorder.js page_recording) = [])
    by (vm_compute; reflexivity).
  assert (H6 : live 3 w = true) by (vm_compute; reflexivity).
  assert (H7 : resolveAudioPromise (mv w) = Some 0%nat)
    by (vm_compute; reflexivity).
  assert (H8 : promises w !! 0%nat = None) by (vm_compute; reflexivity).
  exact (recorded_clip_reaches_the_file page_recording 0%nat 8%nat
           "ws://localhost:9000" "audio/webm;codecs=opus" "" _ before after
           w 3%nat 0%nat 1000 H1 H2 H3 H4 H5 H6 H7 H8).
Defined.

(** * The sign-in flow *)

(** ** PKCE helpers *)

Lemma has_char_append (c a b : string) :
  has_char c (a ++ b) = has_char c a || has_char c b.
Proof.
  induction a as [|x a IH]; [reflexivity|].
  change (String x a ++ b) with (String x (a ++ b)). cbn.
  rewrite IH, orb_assoc. reflexivity.
Qed.

Lemma replace_all_removes (c by_ s : string) :
  has_char c by_ = false →
  has_char c (Auth.replace_all c by_ s) = false.
Proof.
  intros Hby. induction s as [|x s IH]; [reflexivity|].
  cbn [Auth.replace_all].
  destruct (String.eqb (String x "") c) eqn:E.
  - rewrite has_char_append, Hby, IH. reflexivity.
  - cbn [has_char]. rewrite E, IH. reflexivity.
Qed.

Lemma replace_all_keeps_out (c d by_ s : string) :
  has_char c by_ = false → has_char c s = false →
  has_char c (Auth.replace_all d by_ s) = false.
Proof.
  intros Hby. induction s as [|x s IH]; [reflexivity|].
  cbn [Auth.replace_all has_char].
  intros [H1 H2]%orb_false_iff.
  destruct (String.eqb (String x "") d).
  - rewrite has_char_append, Hby, IH by exact H2. reflexivity.
  - cbn [has_char]. rewrite H1, IH by exact H2. reflexivity.
Qed.

Lemma replace_all_id (c by_ s : string) :
  has_char c s = false → Auth.replace_all c by_ s = s.
Proof.
  induction s as [|x s IH]; [reflexivity|].
  cbn [Auth.replace_all has_char].
  intros [H1 H2]%orb_false_iff. rewrite H1, IH by exact H2. reflexivity.
Qed.

(** X23. [base64URLEncode] makes a base64 text safe for a URL: its
    result contains no "+", no "/" and no "=", and a text that has none of
    the three is returned as it is. *)

Theorem base64URLEncode_is_url_safe (base64 : string) :
  has_char "+" (Auth.base64URLEncode base64) = false ∧
  has_char "/" (Auth.base64URLEncode base64) = false ∧
  has_char "=" (Auth.base64URLEncode base64) = false ∧
  (has_char "+" base64 || has_char "/" base64 || has_char "=" base64 = false →
   Auth.base64URLEncode base64 = base64).
Proof.
  unfold Auth.base64URLEncode. repeat split.
  - apply replace_all_keeps_out; [reflexivity|].
    apply replace_all_keeps_out; [reflexivity|].
    apply replace_all_removes. reflexivity.
  - apply replace_all_keeps_out; [reflexivity|].
    apply replace_all_removes. reflexivity.
  - apply replace_all_removes. reflexivity.
  - intros [[H1 H2]%orb_false_iff H3]%orb_false_iff.
    rewrite (replace_all_id "+") by exact H1.
    rewrite (replace_all_id "/") by exact H2.
    apply replace_all_id, H3.
Qed.

Lemma base64URLEncode_is_url_safe_witness :
  has_char "=" (Auth.base64URLEncode "cmFuZG9t") = false ∧
  Auth.base64URLEncode "cmFuZG9t" = "cmFuZG9t".
Proof.
  destruct (base64URLEncode_is_url_safe "cmFuZG9t") as (_ & _ & G1 & G2).
  split; [exact G1 | exact (G2 eq_refl)].
Defined.

(** ** The flow, from the consent URL to the stored token *)

Section AuthFlow.
Import Auth.

#[local] Arguments step : simpl never.
#[local] Arguments run : simpl never.
#[local] Arguments set_mv x !w /.
#[local] Arguments set_next_id x !w /.
#[local] Arguments set_servers x !w /.
#[local] Arguments set_responses x !w /.
#[local] Arguments set_promises x !w /.
#[local] Arguments set_credentials x !w /.
#[local] Arguments set_console x !w /.
#[local] Arguments set_tasks x !w /.
#[local] Arguments set_answers x !w /.
#[local] Arguments set_uncaught x !w /.
#[local] Arguments set_tempVerifier x !v /.
#[local] Arguments set_tempAuthState x !v /.
#[local] Arguments set_resolveAuthPromise x !v /.
#[local] Arguments set_rejectAuthPromise x !v /.
#[local] Arguments set_callbackServer x !v /.
#[local] Arguments set_storedRefreshToken x !v /.

Lemma auth_bind_run {A B} (m : M A) (k : A → M B) (w w' : world) (a : A)
    (r : B * world) :
  m w = (a, w') → k a w' = r → (m ≫= k) w = r.
Proof. intros Hm Hk. unfold mbind, M_bind. rewrite Hm. exact Hk. Qed.

Ltac auth_exec tac :=
  exec ltac:(idtac; eapply auth_bind_run) ltac:(idtac; fail) tac.

(** Replaces the innermost [step e w] of the goal by the state it
    evaluates to. *)
Ltac auth_step tac :=
  match goal with
  | |- context [step ?e ?w] =>
      lazymatch w with
      | context [step _ _] => fail
      | _ =>
          let E := fresh "E" in
          eassert (E : handle e w = (_, _)) by (unfold handle; auth_exec tac);
          change (step e w) with (handle e w).2;
          rewrite E; clear E; cbn [snd]
      end
  end.

Lemma auth_run_nil (w : world) : run [] w = w.
Proof. reflexivity. Qed.

Lemma auth_run_cons (e : event) (trace : list event) (w : world) :
  run (e :: trace) w = run trace (step e w).
Proof. reflexivity. Qed.

(** The witnesses use a sign-in under way: call 1 waits for promise 2,
    server 3 is bound. *)

(** The handler throws on a request that has no URL: the state is as
    before, with one more uncaught exception. *)
Lemma malformed_request_throws (w : world) (h : nat) (b : bool) (c : nat)
    (t : bool) :
  servers w !! h = Some (CallbackServer b true c t) →
  step (MalformedRequest h) w
    = set_uncaught (uncaught w ++ ["TypeError"]) w.
Proof.
  intros Hs. unfold step, handle, mbind, M_bind, look. rewrite Hs.
  reflexivity.
Qed.

(** X24. The request handler of the callback server checks the [state]
    parameter against the value stored by [getGoogleAuthUrl].  For a
    request whose target and [Host] header make a URL and that carries no
    [error] parameter: whatever its other parameters, the stored verifier
    and state are cleared and the server is told to close.  A request with
    another state, or with none, is answered 400 and rejects the wait with
    "OAuth state mismatch", whatever its code; with the expected state, a
    code resolves the wait with that code and is answered 200, and a
    missing or empty code rejects it.  A request that makes no URL has the
    handler throw at its first statement: nothing is cleared, the server
    keeps listening, the wait stays pending and no response is written. *)

Theorem callback_request_is_checked_against_the_state
    (w : world) (h p : nat) (b : bool) (c : nat) (t : bool)
    (code state error : option string) :
  Auth.truthy error = false →
  servers w !! h = Some (CallbackServer b true c t) →
  callbackServer (mv w) = Some h →
  resolveAuthPromise (mv w) = Some p →
  rejectAuthPromise (mv w) = Some p →
  promises w !! p = None →
  let w1 := step (Request h code state error) w in
  tempVerifier (mv w1) = None ∧ tempAuthState (mv w1) = None ∧
  servers w1 !! h = Some (CallbackServer false false (S c) t) ∧
  (state ≠ tempAuthState (mv w) →
   promises w1 !! p = Some (Rejected "OAuth state mismatch") ∧
   (fst <$> last (responses w1)) = Some 400) ∧
  (state = tempAuthState (mv w) →
   ∀ a rest, code = Some (String a rest) →
   promises w1 !! p = Some (Resolved (String a rest)) ∧
   (fst <$> last (responses w1)) = Some 200) ∧
  (state = tempAuthState (mv w) → Auth.truthy code = false →
   promises w1 !! p = Some (Rejected "No authorization code received.") ∧
   (fst <$> last (responses w1)) = Some 400) ∧
  let w0 := step (MalformedRequest h) w in
  mv w0 = mv w ∧ servers w0 = servers w ∧ promises w0 = promises w ∧
  responses w0 = responses w ∧ console w0 = console w ∧
  uncaught w0 = (uncaught w ++ ["TypeError"])%list.
Proof.
  intros He Hs Hc Hr Hj Hp. cbn zeta.
  rewrite (malformed_request_throws w h b c t Hs).
  destruct w as [[]]; cbn in *; subst.
  assert (Hlast : ∀ (l : list (Z * string)) x, last (l ++ [x]) = Some x)
    by (intros; apply last_snoc).
  destruct (decide (state = tempAuthState0)) as [->|Hne];
    [destruct code as [[|a rest]|]|];
    auth_step ltac:(rewrite ?He, ?Hs, ?Hp, ?bool_decide_eq_true_2,
                      ?bool_decide_eq_false_2 by done);
    cbn; rewrite ?lookup_alter_eq, ?Hs, ?lookup_insert_eq, ?Hlast; cbn;
    (do 3 (split; [reflexivity|]));
    (split; [intros ?; first [done | split; reflexivity]|]);
    (split;
     [ intros ? ? ? ?;
       first [solve [exfalso; congruence] | simplify_eq; split; reflexivity]
     | ]);
    (split;
     [ intros ? ?;
       first [solve [exfalso; congruence] | done | split; reflexivity]
     | repeat split; reflexivity ]).
Qed.

Lemma callback_request_is_checked_against_the_state_witness :
  let w := run (sign_in_started "cmFuZG9t" "5f2a" "https://accounts.example")
             configured in
  let w1 := step (Request 3 (Some "4/0AX4") (Some "0000") None) w in
  let w0 := step (MalformedRequest 3) w in
  promises w1 !! 2%nat = Some (Rejected "OAuth state mismatch") ∧
  tempAuthState (mv w1) = None ∧
  tempAuthState (mv w0) = Some "5f2a" ∧
  servers w0 !! 3%nat = Some (CallbackServer false true 0 true).
Proof.
  intros w w1 w0.
  assert (H1 : servers w !! 3%nat = Some (CallbackServer false true 0 true))
    by (vm_compute; reflexivity).
  assert (H2 : callbackServer (mv w) = Some 3%nat)
    by (vm_compute; reflexivity).
  assert (H3 : resolveAuthPromise (mv w) = Some 2%nat)
    by (vm_compute; reflexivity).
  assert (H4 : rejectAuthPromise (mv w) = Some 2%nat)
    by (vm_compute; reflexivity).
  assert (H5 : promises w !! 2%nat = None) by (vm_compute; reflexivity).
  assert (H6 : Some "0000" ≠ tempAuthState (mv w))
    by (vm_compute; discriminate).
  destruct (callback_request_is_checked_against_the_state w 3%nat 2%nat
              false 0%nat true (Some "4/0AX4") (Some "0000") None
              eq_refl H1 H2 H3 H4 H5)
    as (_ & G1 & _ & G2 & _ & _ & G3 & G4 & _).
  split; [exact (proj1 (G2 H6))|]. split; [exact G1|].
  subst w0. rewrite G3, G4. split; [vm_compute; reflexivity | exact H1].
Defined.

(** X25. A sign-in that fails, because the wait for the callback is
    rejected or because the token exchange fails, signs the user out: the
    stored refresh token is cleared, so that [getAuthStatus] answers
    [false] whatever was stored before.  The call throws
    INTERNAL_SERVER_ERROR with "Failed to exchange authorization code: "
    followed by the error's message, the verifier and the state are
    cleared, and the callback server, if there is one, is told to
    close. *)

Theorem failed_sign_in_clears_the_stored_token (w : world) (r : nat)
    (message : string) :
  let report :=
    Threw (TRPCError "INTERNAL_SERVER_ERROR"
             ("Failed to exchange authorization code: " ++ message)) in
  let cleared w1 :=
    answers w1 !! r = Some report ∧
    storedRefreshToken (mv w1) = None ∧
    (getAuthStatus w1).1 = Returned (VObj [("isAuthenticated", VBool false)]) ∧
    tempVerifier (mv w1) = None ∧ tempAuthState (mv w1) = None ∧
    tasks w1 !! r = None ∧
    ∀ h o, callbackServer (mv w) = Some h → servers w !! h = Some o →
           servers w1 !! h
             = Some (CallbackServer false false (S (close_callbacks o))
                       (timer o)) in
  (∀ p verifier,
     tasks w !! r = Some (AwaitCode p verifier) →
     promises w !! p = Some (Rejected message) →
     cleared (step (Resume r) w))
  ∧
  (∀ verifier code,
     tasks w !! r = Some (AwaitTokens verifier code) →
     cleared (step (TokensDone r (inl message)) w)).
Proof.
  cbn zeta. destruct w as [[]]; cbn in *. split.
  - intros p verifier Ht Hp.
    destruct callbackServer0 as [h|];
      auth_step ltac:(rewrite ?Ht, ?Hp);
      cbn; rewrite lookup_insert_eq, lookup_delete_eq;
      repeat split; try reflexivity; intros ? o [= <-] Ho.
    rewrite lookup_alter_eq, Ho. reflexivity.
  - intros verifier code Ht.
    destruct callbackServer0 as [h|];
      auth_step ltac:(rewrite ?Ht);
      cbn; rewrite lookup_insert_eq, lookup_delete_eq;
      repeat split; try reflexivity; intros ? o [= <-] Ho.
    rewrite lookup_alter_eq, Ho. reflexivity.
Qed.

Lemma failed_sign_in_clears_the_stored_token_witness :
  let w :=
    run (sign_in_started "cmFuZG9t" "5f2a" "https://accounts.example"
         ++ [Request 3 None (Some "5f2a") (Some "access_denied")])
      configured in
  let w1 := step (Resume 1) w in
  answers w1 !! 1%nat =
    Some (Threw (TRPCError "INTERNAL_SERVER_ERROR"
                   ("Failed to exchange authorization code: "
                    ++ "OAuth Error: access_denied"))) ∧
  storedRefreshToken (mv w1) = None.
Proof.
  intros w w1.
  assert (H1 : tasks w !! 1%nat = Some (AwaitCode 2 "cmFuZG9t"))
    by (vm_compute; reflexivity).
  assert (H2 : promises w !! 2%nat
               = Some (Rejected "OAuth Error: access_denied"))
    by (vm_compute; reflexivity).
  destruct (failed_sign_in_clears_the_stored_token w 1%nat
              "OAuth Error: access_denied") as [G _].
  destruct (G 2%nat "cmFuZG9t" H1 H2) as (G1 & G2 & _).
  split; [exact G1 | exact G2].
Defined.

(** X26. [handleGoogleCallback] called when no sign-in has been started
    (no verifier is stored) throws BAD_REQUEST at once: no server is
    created, no promise, and nothing is waited for. *)

Theorem callback_before_sign_in_is_refused (w : world) :
  Auth.truthy (GOOGLE_REDIRECT_URI w) = true →
  Auth.truthy (tempVerifier (mv w)) = false →
  let w1 := step CallHandleCallback w in
  answers w1 !! next_id w =
    Some (Threw (TRPCError "BAD_REQUEST"
                   "Authentication flow not initiated correctly or verifier missing.")) ∧
  mv w1 = mv w ∧ servers w1 = servers w ∧ promises w1 = promises w ∧
  tasks w1 = tasks w ∧ console w1 = console w.
Proof.
  intros Hu Hv. cbn zeta. destruct w as [[]]; cbn in *.
  auth_step ltac:(rewrite ?Hu, ?Hv).
  cbn. rewrite lookup_insert_eq. repeat split; reflexivity.
Qed.

Lemma callback_before_sign_in_is_refused_witness :
  let w1 := step CallHandleCallback configured in
  answers w1 !! 0%nat =
    Some (Threw (TRPCError "BAD_REQUEST"
                   "Authentication flow not initiated correctly or verifier missing.")) ∧
  servers w1 = servers configured.
Proof.
  intros w1.
  destruct (callback_before_sign_in_is_refused configured eq_refl eq_refl)
    as (G1 & _ & G2 & _).
  split; [exact G1 | exact G2].
Defined.

(** X27. A second [handleGoogleCallback] call made while the first one is
    waiting fails with "Callback server already running.", and its [catch]
    block closes the server of the first call, clears the verifier and
    the stored refresh token.  When the server has closed, the callbacks
    of the first wait are cleared and its timer is off, while its promise
    is still pending. *)

Theorem second_callback_call_stops_the_first_listener
    (w : world) (h p0 : nat) (b l t : bool) (a : Ascii.ascii)
    (verifier : string) :
  Auth.truthy (GOOGLE_REDIRECT_URI w) = true →
  tempVerifier (mv w) = Some (String a verifier) →
  callbackServer (mv w) = Some h →
  servers w !! h = Some (CallbackServer b l 0 t) →
  resolveAuthPromise (mv w) = Some p0 →
  rejectAuthPromise (mv w) = Some p0 →
  promises w !! p0 = None →
  p0 ≠ S (next_id w) →
  promises w !! S (next_id w) = None →
  let r := next_id w in
  let w1 := step CallHandleCallback w in
  let w2 := step (Resume r) w1 in
  let w3 := step (ServerClose h) w2 in
  promises w1 !! S r = Some (Rejected "Callback server already running.") ∧
  answers w2 !! r =
    Some (Threw (TRPCError "INTERNAL_SERVER_ERROR"
                   ("Failed to exchange authorization code: "
                    ++ "Callback server already running."))) ∧
  servers w2 !! h = Some (CallbackServer false false 1 t) ∧
  storedRefreshToken (mv w2) = None ∧
  tempVerifier (mv w2) = None ∧
  callbackServer (mv w3) = None ∧
  resolveAuthPromise (mv w3) = None ∧ rejectAuthPromise (mv w3) = None ∧
  servers w3 !! h = Some (CallbackServer false false 0 false) ∧
  promises w3 !! p0 = None.
Proof.
  intros Hu Hv Hc Hs Hr Hj Hp Hne Hfresh. cbn zeta.
  destruct w as [[]]; cbn in *; subst.
  auth_step ltac:(rewrite ?Hu, ?Hfresh).
  cbn [promises]. rewrite lookup_insert_eq. split; [reflexivity|].
  auth_step ltac:(rewrite ?lookup_insert_eq).
  cbn [answers servers mv storedRefreshToken tempVerifier].
  rewrite lookup_insert_eq, lookup_alter_eq, Hs. cbn.
  do 4 (split; [reflexivity|]).
  auth_step ltac:(rewrite ?lookup_alter_eq, ?Hs).
  cbn. rewrite lookup_insert_eq, lookup_insert_ne, Hp by done.
  repeat split; reflexivity.
Qed.

Lemma second_callback_call_stops_the_first_listener_witness :
  let w := run (sign_in_started "cmFuZG9t" "5f2a" "https://accounts.example")
             configured in
  let w3 := run [CallHandleCallback; Resume (next_id w); ServerClose 3] w in
  callbackServer (mv w3) = None ∧ promises w3 !! 2%nat = None.
Proof.
  intros w w3.
  assert (H1 : Auth.truthy (GOOGLE_REDIRECT_URI w) = true)
    by (vm_compute; reflexivity).
  assert (H2 : tempVerifier (mv w) = Some "cmFuZG9t")
    by (vm_compute; reflexivity).
  assert (H3 : callbackServer (mv w) = Some 3%nat)
    by (vm_compute; reflexivity).
  assert (H4 : servers w !! 3%nat = Some (CallbackServer false true 0 true))
    by (vm_compute; reflexivity).
  assert (H5 : resolveAuthPromise (mv w) = Some 2%nat)
    by (vm_compute; reflexivity).
  assert (H6 : rejectAuthPromise (mv w) = Some 2%nat)
    by (vm_compute; reflexivity).
  assert (H7 : promises w !! 2%nat = None) by (vm_compute; reflexivity).
  assert (H8 : 2%nat ≠ S (next_id w)) by (vm_compute; discriminate).
  assert (H9 : promises w !! S (next_id w) = None)
    by (vm_compute; reflexivity).
  destruct (second_callback_call_stops_the_first_listener w 3%nat 2%nat
              false true true _ _ H1 H2 H3 H4 H5 H6 H7 H8 H9)
    as (_ & _ & _ & _ & _ & G1 & _ & _ & _ & G2).
  split; [exact G1 | exact G2].
Defined.

(** X28. A sign-in that receives no callback: the consent URL is returned
    and the verifier and state are stored; the server waits; when the
    three-minute timer fires, the wait is rejected with "OAuth callback
    timed out.", the call throws INTERNAL_SERVER_ERROR with that text, the
    server closes, and the verifier and state are cleared. *)

Theorem sign_in_times_out (random state authUrl : string) :
  base64URLEncode random ≠ "" →
  let waiting := run (sign_in_started random state authUrl) configured in
  let w := run [Timeout 3; Resume 1; ServerClose 3] waiting in
  answers waiting !! 0%nat = Some (Returned (VStr authUrl)) ∧
  tempVerifier (mv waiting) = Some (base64URLEncode random) ∧
  tempAuthState (mv waiting) = Some state ∧
  servers waiting !! 3%nat = Some (CallbackServer false true 0 true) ∧
  promises waiting !! 2%nat = None ∧
  promises w !! 2%nat = Some (Rejected "OAuth callback timed out.") ∧
  answers w !! 1%nat =
    Some (Threw (TRPCError "INTERNAL_SERVER_ERROR"
                   ("Failed to exchange authorization code: "
                    ++ "OAuth callback timed out."))) ∧
  callbackServer (mv w) = None ∧
  tempVerifier (mv w) = None ∧ tempAuthState (mv w) = None ∧
  servers w !! 3%nat = Some (CallbackServer false false 0 false).
Proof.
  intros Hv. cbn zeta. unfold sign_in_started, configured, initial.
  rewrite !auth_run_cons, !auth_run_nil.
  destruct (base64URLEncode random) as [|a v] eqn:E; [done|].
  auth_step ltac:(rewrite ?E).
  auth_step ltac:(rewrite ?lookup_empty).
  auth_step ltac:(rewrite ?lookup_insert_eq).
  do 5 (split; [vm_compute; reflexivity|]).
  auth_step ltac:(rewrite ?lookup_insert_eq, ?lookup_empty).
  auth_step ltac:(rewrite ?lookup_insert_eq, ?lookup_alter_eq,
                    ?lookup_empty).
  auth_step ltac:(rewrite ?lookup_insert_eq, ?lookup_alter_eq).
  repeat split; vm_compute; reflexivity.
Qed.

Lemma sign_in_times_out_witness :
  let waiting :=
    run (sign_in_started "cmFuZG9t" "5f2a" "https://accounts.example")
      configured in
  let w := run [Timeout 3; Resume 1; ServerClose 3] waiting in
  promises w !! 2%nat = Some (Rejected "OAuth callback timed out.") ∧
  callbackServer (mv w) = None.
Proof.
  intros waiting w.
  assert (H : base64URLEncode "cmFuZG9t" ≠ "") by (vm_compute; discriminate).
  destruct (sign_in_times_out "cmFuZG9t" "5f2a" "https://accounts.example" H)
    as (_ & _ & _ & _ & _ & G1 & _ & G2 & _).
  split; [exact G1 | exact G2].
Defined.

(** X29. A sign-in that succeeds.  While the callback is awaited a second
    [getAuthUrl] call throws CONFLICT and leaves the stored verifier
    alone.  The redirect with the expected state resolves the wait with
    its code, and the code is exchanged together with the verifier that
    [getGoogleAuthUrl] stored.  The refresh token received is stored and
    set on the client, after which [getAuthStatus] answers [true]; after
    [logout] the token is gone and it answers [false]. *)

Theorem sign_in_stores_the_refresh_token
    (random state authUrl random' state' authUrl' code token : string) :
  base64URLEncode random ≠ "" → code ≠ "" → token ≠ "" →
  let waiting := run (sign_in_started random state authUrl) configured in
  let refused := step (CallGetAuthUrl random' state' authUrl') waiting in
  let redirected :=
    run [Request 3 (Some code) (Some state) None; Resume 1; ServerClose 3]
      refused in
  let signed_in := step (TokensDone 1 (inr (Some token))) redirected in
  let signed_out := run [CallGetAuthStatus; CallLogout; CallGetAuthStatus]
                      signed_in in
  answers refused !! 4%nat =
    Some (Threw (TRPCError "CONFLICT"
                   "Authentication process already in progress.")) ∧
  tempVerifier (mv refused) = Some (base64URLEncode random) ∧
  (promises redirected !! 2%nat = Some (Resolved code) ∧
   tasks redirected !! 1%nat
     = Some (AwaitTokens (base64URLEncode random) code) ∧
   responses redirected = [(200,
     "<html><body><h1>Authentication successful!</h1><p>You can close this window now.</p><script>window.close();</script></body></html>")] ∧
   callbackServer (mv redirected) = None ∧
   tempVerifier (mv redirected) = None ∧
   tempAuthState (mv redirected) = None) ∧
  (answers signed_in !! 1%nat =
     Some (reply true "Authentication successful, refresh token stored.") ∧
   storedRefreshToken (mv signed_in) = Some token ∧
   credentials signed_in = Some token) ∧
  (answers signed_out !! 5%nat =
     Some (Returned (VObj [("isAuthenticated", VBool true)])) ∧
   answers signed_out !! 6%nat =
     Some (Returned (VObj [("success", VBool true)])) ∧
   answers signed_out !! 7%nat =
     Some (Returned (VObj [("isAuthenticated", VBool false)])) ∧
   storedRefreshToken (mv signed_out) = None ∧
   credentials signed_out = None).
Proof.
  intros Hv Hc Ht. cbn zeta. unfold sign_in_started, configured, initial.
  rewrite !auth_run_cons, !auth_run_nil.
  destruct (base64URLEncode random) as [|a v] eqn:E; [done|].
  destruct code as [|b code]; [done|].
  destruct token as [|c token]; [done|].
  auth_step ltac:(rewrite ?E).
  auth_step ltac:(rewrite ?lookup_empty).
  auth_step ltac:(rewrite ?lookup_insert_eq).
  auth_step idtac.
  do 2 (split; [vm_compute; reflexivity|]).
  auth_step ltac:(rewrite ?lookup_insert_eq, ?lookup_empty,
                    ?bool_decide_eq_true_2 by done).
  auth_step ltac:(rewrite ?lookup_insert_eq, ?lookup_alter_eq, ?lookup_empty).
  auth_step ltac:(rewrite ?lookup_insert_eq, ?lookup_alter_eq).
  split; [repeat split; vm_compute; reflexivity|].
  auth_step ltac:(rewrite ?lookup_insert_eq).
  split; [repeat split; vm_compute; reflexivity|].
  auth_step idtac.
  auth_step idtac.
  auth_step idtac.
  repeat split; vm_compute; reflexivity.
Qed.

Lemma sign_in_stores_the_refresh_token_witness :
  let waiting :=
    run (sign_in_started "cmFuZG9t" "5f2a" "https://accounts.example")
      configured in
  let refused :=
    step (CallGetAuthUrl "b3RoZXI=" "77aa" "https://accounts.example")
      waiting in
  let redirected :=
    run [Request 3 (Some "4/0AX4") (Some "5f2a") None; Resume 1; ServerClose 3]
      refused in
  let signed_in := step (TokensDone 1 (inr (Some "1//04refresh"))) redirected in
  storedRefreshToken (mv signed_in) = Some "1//04refresh" ∧
  tasks redirected !! 1%nat
    = Some (AwaitTokens (base64URLEncode "cmFuZG9t") "4/0AX4").
Proof.
  intros waiting refused redirected signed_in.
  assert (H1 : base64URLEncode "cmFuZG9t" ≠ "") by (vm_compute; discriminate).
  assert (H2 : "4/0AX4" ≠ "") by discriminate.
  assert (H3 : "1//04refresh" ≠ "") by discriminate.
  destruct (sign_in_stores_the_refresh_token "cmFuZG9t" "5f2a"
              "https://accounts.example" "b3RoZXI=" "77aa"
              "https://accounts.example" "4/0AX4" "1//04refresh" H1 H2 H3)
    as (_ & _ & (_ & G1 & _) & (_ & G2 & _) & _).
  split; [exact G2 | exact G1].
Defined.

End AuthFlow.
